(** * AttendanceAI: embedding lookup and attendance recording

    A shallow embedding of the storage layer ([server/storage.ts]) and of the
    attendance routes ([registerRoutes]) of the attendance application, with
    the properties of the embedding-based lookup, of the check-in / check-out
    flow and of the dashboard statistics.

    JavaScript numbers are IEEE 754 binary64 values: they are modelled by the
    primitive floats of Rocq, which are specified by the same standard, so
    that [euclideanDistance] rounds, overflows and propagates NaN exactly as
    the source does.  Strings are sequences of 8-bit code units.  The two
    database tables are lists of rows in insertion order; a handler is a
    function from the tables and its inputs (request, clock, random draws,
    fresh identifier) to a response and the new tables. *)

From Stdlib Require Import ZArith List Bool Lia String Ascii Floats DecimalString Sorted.
Import ListNotations.

#[local] Set Warnings "-register-all,-inexact-float".
Open Scope string_scope.

(** ** The JavaScript builtins the code relies on *)

Module JS.

(** Truthiness of a value that is a string, [null] or [undefined]:
    only a non-empty string is truthy. *)
Definition truthy (v : option string) : bool :=
  match v with
  | None => false
  | Some s => negb (String.eqb s "")
  end.

(** [a > b] on strings: comparison of the code units, left to right. *)
Definition gt (a b : string) : bool := String.ltb b a.

(** The number that an array length or a count is. *)
Definition ofZ (z : Z) : float := SF2Prim (binary_normalize prec emax z 0 false).

(** [Math.floor] of a number, as an integer; [None] on NaN and the
    infinities, that [Math.floor] returns unchanged. *)
Definition floor (x : float) : option Z :=
  match Prim2SF x with
  | S754_zero _ => Some 0%Z
  | S754_finite s m e => Some (Z.shiftl (cond_Zopp s (Zpos m)) e)
  | _ => None
  end.

(** [Math.round] of a number: the integer nearest to it, a tie going up;
    a zero result has the sign of the number. *)
Definition round (x : float) : float :=
  match Prim2SF x with
  | S754_finite s m e =>
    let z := Z.shiftl (2 * cond_Zopp s (Zpos m) + Z.shiftl 1 (- e)) (e - 1) in
    SF2Prim (binary_normalize prec emax z 0 s)
  | _ => x
  end.

(** [arr[i]] for a number [i]: [undefined] unless [i] is the index of an element. *)
Definition index {A : Type} (arr : list A) (i : option Z) : option A :=
  match i with
  | Some z => if (z <? 0)%Z then None else nth_error arr (Z.to_nat z)
  | None => None
  end.

(** *** JSON texts *)

(** A number literal, as the decimal [mant] times ten to the [exp10],
    negated when [neg]. *)
Record decimal : Type := mkDecimal {
  neg : bool;
  mant : Z;
  exp10 : Z
}.

(** The values of [JSON.parse].  A string value is kept as the characters
    between its quotes, escapes undecoded. *)
Inductive json : Type :=
| JNull
| JBool (b : bool)
| JNum (d : decimal)
| JStr (raw : string)
| JArr (items : list json)
| JObj (members : list (string * json)).

(** What a parsing function makes of its input: a value and the rest of the
    text, a [SyntaxError], or no answer within the recursion budget. *)
Inductive outcome (A : Type) : Type :=
| Done (a : A) (rest : string)
| SyntaxError
| OutOfFuel.
Arguments Done {A} a rest.
Arguments SyntaxError {A}.
Arguments OutOfFuel {A}.

(** The character of the double quote. *)
Definition dquote : ascii := ascii_of_nat 34.

Definition isWs (c : ascii) : bool :=
  let n := nat_of_ascii c in
  Nat.eqb n 32 || Nat.eqb n 9 || Nat.eqb n 10 || Nat.eqb n 13.

Fixpoint skipWs (s : string) : string :=
  match s with
  | String c r => if isWs c then skipWs r else s
  | EmptyString => s
  end.

Definition isDigit (c : ascii) : bool :=
  let n := nat_of_ascii c in Nat.leb 48 n && Nat.leb n 57.

Definition isHex (c : ascii) : bool :=
  let n := nat_of_ascii c in
  isDigit c || (Nat.leb 65 n && Nat.leb n 70) || (Nat.leb 97 n && Nat.leb n 102).

Definition isSimpleEscape (c : ascii) : bool :=
  existsb (Ascii.eqb c) (dquote :: list_ascii_of_string "\/bfnrt").

(** The characters of a string literal after its opening quote, up to the
    closing quote: no control character, and a backslash only in an escape. *)
Fixpoint lexString (s : string) : option (string * string) :=
  match s with
  | EmptyString => None
  | String c r =>
    if Ascii.eqb c dquote then Some (EmptyString, r)
    else if Ascii.eqb c "\" then
      match r with
      | String e r1 =>
        if isSimpleEscape e then
          match lexString r1 with
          | Some (raw, rest) => Some (String c (String e raw), rest)
          | None => None
          end
        else if Ascii.eqb e "u" then
          match r1 with
          | String h1 (String h2 (String h3 (String h4 r2))) =>
            if isHex h1 && isHex h2 && isHex h3 && isHex h4 then
              match lexString r2 with
              | Some (raw, rest) =>
                Some (String c (String e (String h1 (String h2 (String h3 (String h4 raw))))), rest)
              | None => None
              end
            else None
          | _ => None
          end
        else None
      | EmptyString => None
      end
    else if Nat.ltb (nat_of_ascii c) 32 then None
    else
      match lexString r with
      | Some (raw, rest) => Some (String c raw, rest)
      | None => None
      end
  end.

(** The longest run of digits at the head of a text, read in base ten on
    top of [acc], with how many there are. *)
Fixpoint takeDigits (s : string) (acc : Z) (n : nat) : Z * nat * string :=
  match s with
  | String c r =>
    if isDigit c then takeDigits r (10 * acc + Z.of_nat (nat_of_ascii c - 48)) (S n)
    else (acc, n, s)
  | EmptyString => (acc, n, s)
  end.

(** A number literal: an optional minus sign; a zero, or a non-zero digit
    and further digits; optionally a point and at least one digit;
    optionally [e] or [E], an optional sign and at least one digit. *)
Definition lexNumber (s : string) : option (decimal * string) :=
  let (sign, s1) :=
    match s with
    | String c r => if Ascii.eqb c "-" then (true, r) else (false, s)
    | EmptyString => (false, s)
    end in
  let int :=
    match s1 with
    | String c r =>
      if Ascii.eqb c "0" then Some (0%Z, r)
      else if isDigit c then let '(v, _, rest) := takeDigits s1 0 0 in Some (v, rest)
      else None
    | EmptyString => None
    end in
  match int with
  | None => None
  | Some (i, s2) =>
    let frac :=
      match s2 with
      | String c r =>
        if Ascii.eqb c "." then
          let '(v, n, rest) := takeDigits r i 0 in
          if Nat.eqb n 0 then None else Some (v, Z.of_nat n, rest)
        else Some (i, 0%Z, s2)
      | EmptyString => Some (i, 0%Z, s2)
      end in
    match frac with
    | None => None
    | Some (m, k, s3) =>
      let noExp := Some (mkDecimal sign m (- k), s3) in
      match s3 with
      | String c r =>
        if Ascii.eqb c "e" || Ascii.eqb c "E" then
          let (esign, s4) :=
            match r with
            | String c' r' =>
              if Ascii.eqb c' "-" then (true, r')
              else if Ascii.eqb c' "+" then (false, r')
              else (false, r)
            | EmptyString => (false, r)
            end in
          let '(x, n, rest) := takeDigits s4 0 0 in
          if Nat.eqb n 0 then None
          else Some (mkDecimal sign m ((if esign then - x else x) - k), rest)
        else noExp
      | EmptyString => noExp
      end
    end
  end.

(** [Some rest] when the text starts with the word. *)
Fixpoint word (w s : string) : option string :=
  match w, s with
  | EmptyString, _ => Some s
  | String a w', String b s' => if Ascii.eqb a b then word w' s' else None
  | String _ _, EmptyString => None
  end.

Definition literal (w : string) (v : json) (s : string) : outcome json :=
  match word w s with
  | Some rest => Done v rest
  | None => SyntaxError
  end.

(** A value, after optional white space; the elements of an array after
    its bracket, up to the closing bracket; the members of an object after
    its brace, up to the closing brace. *)
Fixpoint parseValue (fuel : nat) (s : string) : outcome json :=
  match fuel with
  | O => OutOfFuel
  | S f =>
    match skipWs s with
    | EmptyString => SyntaxError
    | String c r =>
      if Ascii.eqb c "[" then
        match skipWs r with
        | String c' r' =>
          if Ascii.eqb c' "]" then Done (JArr []) r'
          else
            match parseElements f r with
            | Done vs rest => Done (JArr vs) rest
            | SyntaxError => SyntaxError
            | OutOfFuel => OutOfFuel
            end
        | EmptyString => SyntaxError
        end
      else if Ascii.eqb c "{" then
        match skipWs r with
        | String c' r' =>
          if Ascii.eqb c' "}" then Done (JObj []) r'
          else
            match parseMembers f r with
            | Done ms rest => Done (JObj ms) rest
            | SyntaxError => SyntaxError
            | OutOfFuel => OutOfFuel
            end
        | EmptyString => SyntaxError
        end
      else if Ascii.eqb c dquote then
        match lexString r with
        | Some (raw, rest) => Done (JStr raw) rest
        | None => SyntaxError
        end
      else if Ascii.eqb c "-" || isDigit c then
        match lexNumber (String c r) with
        | Some (d, rest) => Done (JNum d) rest
        | None => SyntaxError
        end
      else if Ascii.eqb c "t" then literal "true" (JBool true) (String c r)
      else if Ascii.eqb c "f" then literal "false" (JBool false) (String c r)
      else if Ascii.eqb c "n" then literal "null" JNull (String c r)
      else SyntaxError
    end
  end

with parseElements (fuel : nat) (s : string) : outcome (list json) :=
  match fuel with
  | O => OutOfFuel
  | S f =>
    match parseValue f s with
    | Done v r =>
      match skipWs r with
      | String c r' =>
        if Ascii.eqb c "," then
          match parseElements f r' with
          | Done vs rest => Done (v :: vs) rest
          | SyntaxError => SyntaxError
          | OutOfFuel => OutOfFuel
          end
        else if Ascii.eqb c "]" then Done [v] r'
        else SyntaxError
      | EmptyString => SyntaxError
      end
    | SyntaxError => SyntaxError
    | OutOfFuel => OutOfFuel
    end
  end

with parseMembers (fuel : nat) (s : string) : outcome (list (string * json)) :=
  match fuel with
  | O => OutOfFuel
  | S f =>
    match skipWs s with
    | String q r =>
      if Ascii.eqb q dquote then
        match lexString r with
        | Some (key, r1) =>
          match skipWs r1 with
          | String c r2 =>
            if Ascii.eqb c ":" then
              match parseValue f r2 with
              | Done v r3 =>
                match skipWs r3 with
                | String c' r4 =>
                  if Ascii.eqb c' "," then
                    match parseMembers f r4 with
                    | Done ms rest => Done ((key, v) :: ms) rest
                    | SyntaxError => SyntaxError
                    | OutOfFuel => OutOfFuel
                    end
                  else if Ascii.eqb c' "}" then Done [(key, v)] r4
                  else SyntaxError
                | EmptyString => SyntaxError
                end
              | SyntaxError => SyntaxError
              | OutOfFuel => OutOfFuel
              end
            else SyntaxError
          | EmptyString => SyntaxError
          end
        | None => SyntaxError
        end
      else SyntaxError
    | EmptyString => SyntaxError
    end
  end.

(** The recursion budget that a text needs at most. *)
Definition budget (s : string) : nat := 2 + 2 * String.length s.

(** [JSON.parse]: the value of a text that is one JSON value between
    optional white space; [None] when it throws a [SyntaxError]. *)
Definition JSON_parse (s : string) : option json :=
  match parseValue (budget s) s with
  | Done v rest =>
    match skipWs rest with
    | EmptyString => Some v
    | String _ _ => None
    end
  | _ => None
  end.

(** The number that a JSON number literal denotes: the binary64 value
    nearest to the decimal, ties to even.  For a negative exponent the
    quotient is taken with more than 64 bits and a sticky bit below them. *)
Definition decimalToNumber (d : decimal) : float :=
  let sgn (z : Z) := if neg d then (- z)%Z else z in
  if (mant d =? 0)%Z then SF2Prim (S754_zero (neg d))
  else if (0 <=? exp10 d)%Z then
    SF2Prim (binary_normalize prec emax (sgn (mant d * 10 ^ exp10 d)%Z) 0 false)
  else
    let den := (10 ^ (- exp10 d))%Z in
    let p := Z.max 0 (64 + Z.log2 den - Z.log2 (mant d)) in
    let num := (mant d * 2 ^ p)%Z in
    let q := (num / den)%Z in
    let sticky := if (num mod den =? 0)%Z then 0%Z else 1%Z in
    SF2Prim (binary_normalize prec emax (sgn (2 * q + sticky)%Z) (- p - 1) false).

End JS.

(** ** The tables ([shared/schema.ts]) *)

(** A row of [employees]. *)
Module Employee.
Record t : Type := mk {
  id : string;
  firstName : string;
  lastName : string;
  email : string;
  department : string;
  position : string;
  photoUrl : option string;
  faceEmbedding : option string;
  status : string
}.

(** [Partial<InsertEmployee>]: the columns to set; an absent one is left
    as it is. *)
Record partial : Type := mkPartial {
  setFirstName : option string;
  setLastName : option string;
  setEmail : option string;
  setDepartment : option string;
  setPosition : option string;
  setPhotoUrl : option (option string);
  setFaceEmbedding : option (option string);
  setStatus : option string
}.

Definition orElse {A : Type} (o : option A) (a : A) : A :=
  match o with Some x => x | None => a end.

Definition set (u : partial) (e : t) : t :=
  mk (id e)
     (orElse (setFirstName u) (firstName e))
     (orElse (setLastName u) (lastName e))
     (orElse (setEmail u) (email e))
     (orElse (setDepartment u) (department e))
     (orElse (setPosition u) (position e))
     (orElse (setPhotoUrl u) (photoUrl e))
     (orElse (setFaceEmbedding u) (faceEmbedding e))
     (orElse (setStatus u) (status e)).

(** [InsertEmployee]: a row without its [id]; [status] may be left out,
    and the column default ["active"] is stored; [photoUrl] and
    [faceEmbedding] are [None] when left out or [null]. *)
Record insert : Type := mkInsert {
  newFirstName : string;
  newLastName : string;
  newEmail : string;
  newDepartment : string;
  newPosition : string;
  newPhotoUrl : option string;
  newFaceEmbedding : option string;
  newStatus : option string
}.

Definition row (i : string) (a : insert) : t :=
  mk i (newFirstName a) (newLastName a) (newEmail a) (newDepartment a) (newPosition a)
     (newPhotoUrl a) (newFaceEmbedding a) (orElse (newStatus a) "active").
End Employee.

(** A row of [attendance_records]. *)
Module Attendance.
Record t : Type := mk {
  id : string;
  employeeId : string;
  date : string;
  checkIn : option string;
  checkOut : option string;
  status : string;
  confidence : option float
}.

(** [InsertAttendance]: a row without its [id]; [status] may be left out,
    and the column default ["present"] is stored. *)
Record insert : Type := mkInsert {
  newEmployeeId : string;
  newDate : string;
  newCheckIn : option string;
  newCheckOut : option string;
  newStatus : option string;
  newConfidence : option float
}.

Definition row (i : string) (a : insert) : t :=
  mk i (newEmployeeId a) (newDate a) (newCheckIn a) (newCheckOut a)
     (Employee.orElse (newStatus a) "present") (newConfidence a).

(** [Partial<InsertAttendance>]. *)
Record partial : Type := mkPartial {
  setEmployeeId : option string;
  setDate : option string;
  setCheckIn : option (option string);
  setCheckOut : option (option string);
  setStatus : option string;
  setConfidence : option (option float)
}.

Definition set (u : partial) (r : t) : t :=
  mk (id r)
     (Employee.orElse (setEmployeeId u) (employeeId r))
     (Employee.orElse (setDate u) (date r))
     (Employee.orElse (setCheckIn u) (checkIn r))
     (Employee.orElse (setCheckOut u) (checkOut r))
     (Employee.orElse (setStatus u) (status r))
     (Employee.orElse (setConfidence u) (confidence r)).

(** The key of the day of an employee. *)
Definition key (r : t) : string * string := (employeeId r, date r).
End Attendance.

(** The database: the two tables, rows in insertion order.  [id] is the
    primary key of each. *)
Record Db : Type := mkDb {
  employees : list Employee.t;
  attendanceRecords : list Attendance.t
}.

(** [DashboardStats].  The three counts are integers; the percentage is
    the number that [Math.round] returns. *)
Record DashboardStats : Type := mkDashboardStats {
  presentToday : Z;
  lateArrivals : Z;
  absences : Z;
  onTimePercentage : float
}.

(** An entry of the weekly statistics. *)
Record DayStats : Type := mkDayStats {
  present : Z;
  late : Z;
  absent : Z
}.

(** What an [async] function of the storage does: it returns, or it
    rejects (here: the insert of a row whose primary key is taken). *)
Inductive promise (A : Type) : Type :=
| Resolved (a : A)
| Rejected.
Arguments Resolved {A} a.
Arguments Rejected {A}.

(** ** The storage layer ([server/storage.ts]) *)

Module Storage.

Section WithCoercion.

(** [Number(v)] for a value [v] of [JSON.parse] that is a string, an array
    or an object: what the builtin conversion makes of it ([ToPrimitive],
    then the number that the string denotes or NaN), or [None] when
    it throws a [TypeError]. *)
Variable coerce : JS.json -> option float.

(** [Number(v)] for a value of [JSON.parse]. *)
Definition Number (v : JS.json) : option float :=
  match v with
  | JS.JNull => Some 0%float
  | JS.JBool b => Some (if b then 1%float else 0%float)
  | JS.JNum d => Some (JS.decimalToNumber d)
  | _ => coerce v
  end.

(** [parsed.map(Number)], an exception of [Number] ending it. *)
Fixpoint mapNumber (items : list JS.json) : option (list float) :=
  match items with
  | [] => Some []
  | v :: rest =>
    match Number v, mapNumber rest with
    | Some x, Some xs => Some (x :: xs)
    | _, _ => None
    end
  end.

(** [parseEmbedding]: [None] is [null].  The [try] block turns every
    exception (of [JSON.parse], of [Number]) into [null]. *)
Definition parseEmbedding (value : option string) : option (list float) :=
  if negb (JS.truthy value) then None
  else
    match value with
    | Some text =>
      match JS.JSON_parse text with
      | Some (JS.JArr parsed) => mapNumber parsed
      | _ => None
      end
    | None => None
    end.

(** [a[i]] as an operand of [-]: an index outside of the array reads
    [undefined], which the subtraction converts to NaN. *)
Definition operand (a : list float) (i : nat) : float :=
  match nth_error a i with
  | Some x => x
  | None => nan
  end.

(** The loop of [euclideanDistance] at index [i], with [n] iterations to go. *)
Fixpoint sumSquares (a b : list float) (i n : nat) (sum : float) : float :=
  match n with
  | O => sum
  | S n' =>
    let d := (operand a i - operand b i)%float in
    sumSquares a b (S i) n' (sum + d * d)%float
  end.

Definition euclideanDistance (a b : list float) : float :=
  if negb (Nat.eqb (List.length a) (List.length b)) then infinity
  else sqrt (sumSquares a b 0 (List.length a) 0%float).

(** The same loop where a read outside of an array is an error. *)
Fixpoint sumSquaresChecked (a b : list float) (i n : nat) (sum : float) : option float :=
  match n with
  | O => Some sum
  | S n' =>
    match nth_error a i, nth_error b i with
    | Some x, Some y =>
      let d := (x - y)%float in
      sumSquaresChecked a b (S i) n' (sum + d * d)%float
    | _, _ => None
    end
  end.

Definition euclideanDistanceChecked (a b : list float) : option float :=
  if negb (Nat.eqb (List.length a) (List.length b)) then Some infinity
  else option_map sqrt (sumSquaresChecked a b 0 (List.length a) 0%float).

Definition THRESHOLD : float := 0.6%float.

(** The loop of [getEmployeeByEmbedding] over the candidates, [best]
    being [null] or the best employee so far with its distance. *)
Fixpoint scanCandidates (target : list float) (candidates : list Employee.t)
    (best : option (Employee.t * float)) : option (Employee.t * float) :=
  match candidates with
  | [] => best
  | emp :: rest =>
    match parseEmbedding (Employee.faceEmbedding emp) with
    | None => scanCandidates target rest best
    | Some emb =>
      let dist := euclideanDistance target emb in
      if (dist <=? THRESHOLD)%float &&
         match best with
         | None => true
         | Some (_, distance) => (dist <? distance)%float
         end
      then scanCandidates target rest (Some (emp, dist))
      else scanCandidates target rest best
    end
  end.

Definition getEmployeeByEmbedding (db : Db) (embedding : string) : option Employee.t :=
  match parseEmbedding (Some embedding) with
  | None => None
  | Some target => option_map fst (scanCandidates target (employees db) None)
  end.

End WithCoercion.

Definition getAllEmployees (db : Db) : list Employee.t := employees db.

Definition getEmployee (db : Db) (id : string) : option Employee.t :=
  find (fun e => String.eqb (Employee.id e) id) (employees db).

Definition updateEmployee (db : Db) (id : string) (updates : Employee.partial)
    : option Employee.t * Db :=
  let db' :=
    mkDb (map (fun e => if String.eqb (Employee.id e) id then Employee.set updates e else e)
              (employees db))
         (attendanceRecords db) in
  (getEmployee db' id, db').

Definition getAttendanceByEmployee (db : Db) (employeeId date : string)
    : option Attendance.t :=
  find (fun r => String.eqb (Attendance.employeeId r) employeeId
                 && String.eqb (Attendance.date r) date)
       (attendanceRecords db).

Definition attendanceById (db : Db) (id : string) : option Attendance.t :=
  find (fun r => String.eqb (Attendance.id r) id) (attendanceRecords db).

(** [createAttendance], [id] being the identifier that [randomUUID]
    draws.  The insert is refused when a row has this primary key. *)
Definition createAttendance (db : Db) (id : string) (insertAttendance : Attendance.insert)
    : promise (Attendance.t * Db) :=
  match attendanceById db id with
  | Some _ => Rejected
  | None =>
    let db' := mkDb (employees db)
                    (attendanceRecords db ++ [Attendance.row id insertAttendance]) in
    match attendanceById db' id with
    | Some record => Resolved (record, db')
    | None => Rejected
    end
  end.

Definition updateAttendance (db : Db) (id : string) (updates : Attendance.partial)
    : option Attendance.t * Db :=
  let db' :=
    mkDb (employees db)
         (map (fun r => if String.eqb (Attendance.id r) id then Attendance.set updates r else r)
              (attendanceRecords db)) in
  (attendanceById db' id, db').

Definition countIf {A : Type} (f : A -> bool) (l : list A) : Z :=
  Z.of_nat (List.length (filter f l)).

Definition isPresent (r : Attendance.t) : bool := String.eqb (Attendance.status r) "present".
Definition isLate (r : Attendance.t) : bool := String.eqb (Attendance.status r) "late".

Definition getDashboardStats (db : Db) (date : string) : DashboardStats :=
  let totalEmployees := Z.of_nat (List.length (employees db)) in
  let todayRecords :=
    filter (fun r => String.eqb (Attendance.date r) date) (attendanceRecords db) in
  let presentToday := countIf (fun r => isPresent r || isLate r) todayRecords in
  let lateArrivals := countIf isLate todayRecords in
  let absences := (totalEmployees - presentToday)%Z in
  let onTimeCount := countIf isPresent todayRecords in
  let onTimePercentage :=
    if (0 <? presentToday)%Z
    then JS.round ((JS.ofZ onTimeCount / JS.ofZ presentToday) * 100)%float
    else 0%float in
  mkDashboardStats presentToday lateArrivals absences onTimePercentage.

(** A [Map] from strings, in insertion order. *)
Fixpoint mapSet {V : Type} (k : string) (v : V) (m : list (string * V)) : list (string * V) :=
  match m with
  | [] => [(k, v)]
  | (k', v') :: rest =>
    if String.eqb k' k then (k', v) :: rest else (k', v') :: mapSet k v rest
  end.

Fixpoint mapGet {V : Type} (k : string) (m : list (string * V)) : option V :=
  match m with
  | [] => None
  | (k', v) :: rest => if String.eqb k' k then Some v else mapGet k rest
  end.

(** The callback of [records.forEach]: the entry of the date of the row,
    when there is one, is updated in place. *)
Definition tally (statsByDate : list (string * DayStats)) (r : Attendance.t)
    : list (string * DayStats) :=
  match mapGet (Attendance.date r) statsByDate with
  | Some stats =>
    if isPresent r then
      mapSet (Attendance.date r)
             (mkDayStats (present stats + 1) (late stats) (absent stats - 1)) statsByDate
    else if isLate r then
      mapSet (Attendance.date r)
             (mkDayStats (present stats) (late stats + 1) (absent stats - 1)) statsByDate
    else statsByDate
  | None => statsByDate
  end.

(** [sort((a, b) => a.date.localeCompare(b.date))], the dates being compared
    as sequences of code units (they are made of digits and hyphens). *)
Fixpoint insertByDate {V : Type} (e : string * V) (l : list (string * V)) : list (string * V) :=
  match l with
  | [] => [e]
  | e' :: rest =>
    if String.leb (fst e) (fst e') then e :: l else e' :: insertByDate e rest
  end.

Definition sortByDate {V : Type} (l : list (string * V)) : list (string * V) :=
  fold_right insertByDate [] l.

(** [getWeeklyStats].  [days] are the dates that the loop from [new
    Date(startDate)] to [new Date(endDate)] produces, one step of
    [setDate(getDate() + 1)] at a time, each printed by [toISOString]: what
    the [Date] builtin yields in the time zone of the server. *)
Definition getWeeklyStats (days : list string) (db : Db) (startDate endDate : string)
    : list (string * DayStats) :=
  let totalEmployees := Z.of_nat (List.length (employees db)) in
  let records :=
    filter (fun r => String.leb startDate (Attendance.date r)
                     && String.leb (Attendance.date r) endDate)
           (attendanceRecords db) in
  let statsByDate :=
    fold_left (fun m dateStr => mapSet dateStr (mkDayStats 0 0 totalEmployees) m) days [] in
  sortByDate (fold_left tally records statsByDate).


Definition getEmployeeByEmail (db : Db) (email : string) : option Employee.t :=
  find (fun e => String.eqb (Employee.email e) email) (employees db).

(** [createEmployee], [id] being the identifier that [randomUUID] draws.
    The insert is refused when a row has this primary key, and when a row
    has this email, which has a unique index. *)
Definition createEmployee (db : Db) (id : string) (insertEmployee : Employee.insert)
    : promise (Employee.t * Db) :=
  match getEmployee db id, getEmployeeByEmail db (Employee.newEmail insertEmployee) with
  | None, None =>
    let db' := mkDb (employees db ++ [Employee.row id insertEmployee])
                    (attendanceRecords db) in
    match getEmployee db' id with
    | Some employee => Resolved (employee, db')
    | None => Rejected
    end
  | _, _ => Rejected
  end.

(** [deleteEmployee]: the attendance rows of the employee are deleted, then
    the employee; the answer is whether no employee has the identifier
    afterwards. *)
Definition deleteEmployee (db : Db) (id : string) : bool * Db :=
  let db1 :=
    mkDb (employees db)
         (filter (fun r => negb (String.eqb (Attendance.employeeId r) id))
                 (attendanceRecords db)) in
  let db2 :=
    mkDb (filter (fun e => negb (String.eqb (Employee.id e) id)) (employees db1))
         (attendanceRecords db1) in
  (match getEmployee db2 id with
   | None => true
   | Some _ => false
   end,
   db2).

Definition getAllAttendanceRecords (db : Db) : list Attendance.t := attendanceRecords db.

(** [getAttendanceByDate]: the inner join of the rows of the date with
    the employees, each row with its employee ([AttendanceWithEmployee]);
    the rows are taken in the order of the table. *)
Definition getAttendanceByDate (db : Db) (date : string) : list (Attendance.t * Employee.t) :=
  flat_map
    (fun r =>
       map (fun e => (r, e))
           (filter (fun e => String.eqb (Employee.id e) (Attendance.employeeId r))
                   (employees db)))
    (filter (fun r => String.eqb (Attendance.date r) date) (attendanceRecords db)).
End Storage.

(** ** The routes ([registerRoutes]) *)

Module Routes.

(** What a handler reads besides the request and the tables: the two
    draws of [Math.random], the clock as [toISOString().split('T')[0]] and
    as [toTimeString().slice(0, 5)] print it, and the identifier that
    [randomUUID] draws. *)
Record Env : Type := mkEnv {
  random1 : float;
  random2 : float;
  today : string;
  currentTime : string;
  uuid : string
}.

Inductive ScanType : Type := check_in | check_out.

(** The responses of [POST /api/face/recognize]: status 400, or a body
    with [success: false], or the body of a recognition, or status 500 from
    the [catch] block. *)
Inductive RecognizeResponse : Type :=
| BadRequest (message : string)
| Refused (message : string)
| Recognized (employee : Employee.t) (attendance : option Attendance.t)
             (type : ScanType) (confidence : float) (message : string)
| ServerError (message : string).

(** The locals of the handler of [POST /api/face/recognize]. *)
Definition employeesWithEmbedding (db : Db) : list Employee.t :=
  filter (fun e => JS.truthy (Employee.faceEmbedding e)) (Storage.getAllEmployees db).

Definition randomIndex (db : Db) (env : Env) : option Z :=
  JS.floor (random1 env * JS.ofZ (Z.of_nat (List.length (employeesWithEmbedding db))))%float.

(** [undefined] when the index is not one of the array. *)
Definition matchedEmployee (db : Db) (env : Env) : option Employee.t :=
  JS.index (employeesWithEmbedding db) (randomIndex db env).

Definition confidence (env : Env) : float := (0.85 + random2 env * 0.14)%float.

(** The handler.  Reading [matchedEmployee.id] of [undefined] throws, and
    so does a refused insert: the [catch] block answers both. *)
Definition recognize (db : Db) (photo : option string) (env : Env)
    : RecognizeResponse * Db :=
  if negb (JS.truthy photo) then (BadRequest "No se recibio imagen", db)
  else if Nat.eqb (List.length (employeesWithEmbedding db)) 0 then
    (Refused "No hay empleados con registro facial en el sistema", db)
  else
    match matchedEmployee db env with
    | None => (ServerError "Error en el reconocimiento facial", db)
    | Some matched =>
      match Storage.getAttendanceByEmployee db (Employee.id matched) (today env) with
      | None =>
        let isLate := JS.gt (currentTime env) "09:00" in
        match Storage.createAttendance db (uuid env)
                (Attendance.mkInsert (Employee.id matched) (today env)
                   (Some (currentTime env)) None
                   (Some (if isLate then "late" else "present"))
                   (Some (confidence env))) with
        | Resolved (attendance, db') =>
          (Recognized matched (Some attendance) check_in (confidence env)
             ("Entrada registrada a las " ++ currentTime env), db')
        | Rejected => (ServerError "Error en el reconocimiento facial", db)
        end
      | Some existingAttendance =>
        if negb (JS.truthy (Attendance.checkOut existingAttendance)) then
          let (attendance, db') :=
            Storage.updateAttendance db (Attendance.id existingAttendance)
              (Attendance.mkPartial None None None (Some (Some (currentTime env))) None None) in
          (Recognized matched attendance check_out (confidence env)
             ("Salida registrada a las " ++ currentTime env), db')
        else
          (Refused (Employee.firstName matched ++ " ya registro entrada y salida hoy"), db)
      end
    end.

(** The responses of [POST /api/attendance]. *)
Inductive AttendanceResponse : Type :=
| Invalid (message : string)
| NotFound (message : string)
| Created (record : Attendance.t)
| Failed (message : string).

(** [POST /api/attendance]; [body] is what [insertAttendanceSchema] makes
    of the request, [None] when it refuses it. *)
Definition postAttendance (db : Db) (body : option Attendance.insert) (uuid : string)
    : AttendanceResponse * Db :=
  match body with
  | None => (Invalid "Datos invalidos", db)
  | Some data =>
    match Storage.getEmployee db (Attendance.newEmployeeId data) with
    | None => (NotFound "Empleado no encontrado", db)
    | Some _ =>
      match Storage.createAttendance db uuid data with
      | Resolved (record, db') => (Created record, db')
      | Rejected => (Failed "Error al crear registro", db)
      end
    end
  end.

(** The decimal digits of a time in milliseconds. *)
Definition digits (n : N) : string := NilEmpty.string_of_uint (N.to_uint n).

Definition fakeEmbedding (employeeId : string) (now : N) : string :=
  "embedding_" ++ employeeId ++ "_" ++ digits now.

(** The responses of [POST /api/face/embedding]. *)
Inductive EmbeddingResponse : Type :=
| Missing (message : string)
| Unknown (message : string)
| Generated (employee : option Employee.t) (message : string).

(** [POST /api/face/embedding], [now] being [Date.now()]. *)
Definition postFaceEmbedding (db : Db) (photo employeeId : option string) (now : N)
    : EmbeddingResponse * Db :=
  if negb (JS.truthy photo) || negb (JS.truthy employeeId) then
    (Missing "Se requiere foto y ID del empleado", db)
  else
    match employeeId with
    | None => (Missing "Se requiere foto y ID del empleado", db)
    | Some eid =>
      match Storage.getEmployee db eid with
      | None => (Unknown "Empleado no encontrado", db)
      | Some _ =>
        let (updated, db') :=
          Storage.updateEmployee db eid
            (Employee.mkPartial None None None None None (Some photo)
               (Some (Some (fakeEmbedding eid now))) None) in
        (Generated updated "Embedding facial generado exitosamente", db')
      end
    end.


(** The responses of the routes of the employees: status 400, 404, 409,
    201 with the employee, 204, 500. *)
Inductive EmployeeResponse : Type :=
| InvalidEmployee (message : string)
| NoEmployee (message : string)
| Conflict (message : string)
| CreatedEmployee (employee : Employee.t)
| NoContent
| EmployeeError (message : string).

(** [POST /api/employees]; [body] is what [insertEmployeeSchema] makes of
    the request, [None] when it refuses it. *)
Definition postEmployee (db : Db) (body : option Employee.insert) (uuid : string)
    : EmployeeResponse * Db :=
  match body with
  | None => (InvalidEmployee "Datos invalidos", db)
  | Some data =>
    match Storage.getEmployeeByEmail db (Employee.newEmail data) with
    | Some _ => (Conflict "Ya existe un empleado con ese correo", db)
    | None =>
      match Storage.createEmployee db uuid data with
      | Resolved (employee, db') => (CreatedEmployee employee, db')
      | Rejected => (EmployeeError "Error al crear empleado", db)
      end
    end
  end.

(** [DELETE /api/employees/:id]. *)
Definition deleteEmployee (db : Db) (id : string) : EmployeeResponse * Db :=
  let (deleted, db') := Storage.deleteEmployee db id in
  if negb deleted then (NoEmployee "Empleado no encontrado", db')
  else (NoContent, db').

(** [GET /api/attendance]: the rows of the date of the query, of today
    when the query has none. *)
Definition getAttendance (db : Db) (date : option string) (today : string)
    : list (Attendance.t * Employee.t) :=
  Storage.getAttendanceByDate db
    (match date with
     | Some d => if JS.truthy date then d else today
     | None => today
     end).
End Routes.

(** ** The rows that [initializeDatabase] inserts *)

Module Seed.

Definition hexDigit (n : nat) : ascii :=
  ascii_of_nat (if Nat.ltb n 10 then 48 + n else 87 + n).

(** [JSON.stringify] of a string. *)
Fixpoint quoteChars (s : string) : string :=
  match s with
  | EmptyString => String JS.dquote EmptyString
  | String c r =>
    let n := nat_of_ascii c in
    let esc (e : string) := ("\" ++ e ++ quoteChars r) in
    if Nat.eqb n 34 then esc (String JS.dquote EmptyString)
    else if Nat.eqb n 92 then esc "\"
    else if Nat.eqb n 8 then esc "b"
    else if Nat.eqb n 12 then esc "f"
    else if Nat.eqb n 10 then esc "n"
    else if Nat.eqb n 13 then esc "r"
    else if Nat.eqb n 9 then esc "t"
    else if Nat.ltb n 32 then
      esc (String "u" (String "0" (String "0"
             (String (hexDigit (n / 16)) (String (hexDigit (n mod 16)) EmptyString)))))
    else String c (quoteChars r)
  end.

Definition JSON_stringify (s : string) : string := String JS.dquote (quoteChars s).

Definition sampleEmployees : list (string -> Employee.t) :=
  [ (fun id => Employee.mk id "Maria" "Garcia" "maria.garcia@empresa.com"
                 "Recursos Humanos" "Gerente de RH" None
                 (Some (JSON_stringify "sample_embedding_1")) "active");
    (fun id => Employee.mk id "Carlos" "Rodriguez" "carlos.rodriguez@empresa.com"
                 "Tecnologia" "Desarrollador Senior" None
                 (Some (JSON_stringify "sample_embedding_2")) "active");
    (fun id => Employee.mk id "Ana" "Martinez" "ana.martinez@empresa.com"
                 "Ventas" "Ejecutiva de Ventas" None
                 (Some (JSON_stringify "sample_embedding_3")) "active");
    (fun id => Employee.mk id "Juan" "Lopez" "juan.lopez@empresa.com"
                 "Finanzas" "Contador" None
                 None "active");
    (fun id => Employee.mk id "Sofia" "Hernandez" "sofia.hernandez@empresa.com"
                 "Marketing" "Diseñadora Grafica" None
                 (Some (JSON_stringify "sample_embedding_5")) "active") ].

(** [attendanceData], for the identifiers of the five employees. *)
Definition attendanceData (id0 id1 id2 id3 id4 today : string) : list Attendance.insert :=
  [ Attendance.mkInsert id0 today (Some "08:45") None (Some "present") (Some 0.95%float);
    Attendance.mkInsert id1 today (Some "09:15") None (Some "late") (Some 0.92%float);
    Attendance.mkInsert id2 today (Some "08:30") (Some "17:30") (Some "present") (Some 0.98%float);
    Attendance.mkInsert id3 today None None (Some "absent") None;
    Attendance.mkInsert id4 today (Some "08:55") None (Some "present") (Some 0.89%float) ].

(** The two tables after [initializeDatabase] has run on empty ones:
    [id0] to [id4] are the identifiers drawn for the employees, [rowIds]
    those drawn for the attendance rows. *)
Definition initialDb (id0 id1 id2 id3 id4 : string) (rowIds : list string) (today : string) : Db :=
  mkDb (map (fun '(f, id) => f id) (combine sampleEmployees [id0; id1; id2; id3; id4]))
       (map (fun '(att, id) => Attendance.row id att)
            (combine (attendanceData id0 id1 id2 id3 id4 today) rowIds)).

End Seed.

(** ** The clock *)

Module Clock.

Definition digit (n : nat) : ascii := ascii_of_nat (48 + n).

Definition twoDigits (n : nat) : string :=
  String (digit (n / 10)) (String (digit (n mod 10)) EmptyString).

(** The first five characters of [toTimeString()] at [h] hours and [m]
    minutes. *)
Definition hhmm (h m : nat) : string := twoDigits h ++ ":" ++ twoDigits m.

(** Minutes since midnight. *)
Definition minutes (h m : nat) : nat := 60 * h + m.

End Clock.

(** ** Vocabulary of the properties *)

Module Spec.

(** The distance from the probe to the template of an employee, when the
    employee has one that [parseEmbedding] reads. *)
Definition distanceTo (coerce : JS.json -> option float) (target : list float)
    (emp : Employee.t) : option float :=
  option_map (Storage.euclideanDistance target)
             (Storage.parseEmbedding coerce (Employee.faceEmbedding emp)).

(** What [best] is after the loop of [getEmployeeByEmbedding] has seen
    the candidates [seen]: nothing when none of them is within the
    threshold, and otherwise one of them within the threshold that none of
    them is strictly nearer than. *)
Definition bestAmong (coerce : JS.json -> option float) (target : list float)
    (seen : list Employee.t) (best : option (Employee.t * float)) : Prop :=
  match best with
  | None =>
    forall c dc, In c seen -> distanceTo coerce target c = Some dc ->
      (dc <=? Storage.THRESHOLD)%float = false
  | Some (e, d) =>
    In e seen /\ distanceTo coerce target e = Some d /\
    (d <=? Storage.THRESHOLD)%float = true /\
    forall c dc, In c seen -> distanceTo coerce target c = Some dc -> (dc <? d)%float = false
  end.

(** [best] is nothing, or farther from the probe than the distance [d]. *)
Definition fartherThan (d : float) (best : option (Employee.t * float)) : Prop :=
  match best with
  | None => True
  | Some (_, distance) => (d <? distance)%float = true
  end.

(** The confidence that the specification asks for:
    [max(0, 1 - distance / threshold)], clamped to [0, 1]. *)
Definition confidenceOf (distance threshold : float) : float :=
  let c := (1 - distance / threshold)%float in
  if (c <? 0)%float then 0%float else if (1 <? c)%float then 1%float else c.

(** At most one row per employee and date. *)
Definition onePerDay (records : list Attendance.t) : Prop :=
  NoDup (map Attendance.key records).

(** The rows of a date. *)
Definition rowsOf (db : Db) (date : string) : list Attendance.t :=
  filter (fun r => String.eqb (Attendance.date r) date) (attendanceRecords db).

(** The rows of a date that count as a presence. *)
Definition attended (r : Attendance.t) : bool := Storage.isPresent r || Storage.isLate r.

(** The employees that have no row for a date. *)
Definition hasRow (db : Db) (date : string) (e : Employee.t) : bool :=
  existsb (fun r => String.eqb (Attendance.employeeId r) (Employee.id e)) (rowsOf db date).

Definition withoutRow (db : Db) (date : string) : list Employee.t :=
  filter (fun e => negb (hasRow db date e)) (employees db).

(** The rows of a date are those of a day that the scan flow wrote: all
    present or late, each of an employee, no two of the same employee, the
    employees having distinct identifiers. *)
Definition scannedDay (db : Db) (date : string) : Prop :=
  NoDup (map Employee.id (employees db)) /\
  NoDup (map Attendance.employeeId (rowsOf db date)) /\
  (forall r, In r (rowsOf db date) ->
     attended r = true /\ In (Attendance.employeeId r) (map Employee.id (employees db))).

(** The rows of a date among those from [startDate] to [endDate]. *)
Definition rowsBetween (db : Db) (startDate endDate date : string) : list Attendance.t :=
  filter (fun r => String.eqb date (Attendance.date r))
    (filter (fun r => String.leb startDate (Attendance.date r)
                      && String.leb (Attendance.date r) endDate)
            (attendanceRecords db)).

(** What the callback of [getWeeklyStats] makes of the entry of a date
    when it is called on a row. *)
Definition counted (date : string) (stats : DayStats) (r : Attendance.t) : DayStats :=
  if String.eqb date (Attendance.date r) then
    if Storage.isPresent r then
      mkDayStats (present stats + 1) (late stats) (absent stats - 1)
    else if Storage.isLate r then
      mkDayStats (present stats) (late stats + 1) (absent stats - 1)
    else stats
  else stats.

(** The check-out of a row leaves every column but [checkOut] as it is. *)
Definition sameButCheckOut (r r' : Attendance.t) : Prop :=
  Attendance.id r' = Attendance.id r /\
  Attendance.employeeId r' = Attendance.employeeId r /\
  Attendance.date r' = Attendance.date r /\
  Attendance.checkIn r' = Attendance.checkIn r /\
  Attendance.status r' = Attendance.status r /\
  Attendance.confidence r' = Attendance.confidence r.

(** The row that a first scan of the day creates. *)
Definition checkInRow (e : Employee.t) (env : Routes.Env) : Attendance.t :=
  Attendance.mk (Routes.uuid env) (Employee.id e) (Routes.today env)
    (Some (Routes.currentTime env)) None
    (if JS.gt (Routes.currentTime env) "09:00" then "late" else "present")
    (Some (Routes.confidence env)).

(** A row with its check-out set to [time]. *)
Definition withCheckOut (time : string) (r : Attendance.t) : Attendance.t :=
  Attendance.mk (Attendance.id r) (Attendance.employeeId r) (Attendance.date r)
    (Attendance.checkIn r) (Some time) (Attendance.status r) (Attendance.confidence r).

(** The table after the check-out of the row [id] at [time]. *)
Definition checkedOut (id time : string) (records : list Attendance.t) : list Attendance.t :=
  map (fun r => if String.eqb (Attendance.id r) id then withCheckOut time r else r) records.


(** Every attendance row is the row of an employee of the table. *)
Definition referenced (db : Db) : Prop :=
  forall r, In r (attendanceRecords db) ->
    In (Attendance.employeeId r) (map Employee.id (employees db)).

(** No two employees share an identifier, and no two share an email. *)
Definition directory (db : Db) : Prop :=
  NoDup (map Employee.id (employees db)) /\
  NoDup (map Employee.email (employees db)).

(** The template of the employee is read and within the threshold of
    the probe. *)
Definition within (coerce : JS.json -> option float) (target : list float)
    (emp : Employee.t) : bool :=
  match distanceTo coerce target emp with
  | Some d => (d <=? Storage.THRESHOLD)%float
  | None => false
  end.

(** The tables with the employees that the predicate keeps. *)
Definition keeping (f : Employee.t -> bool) (db : Db) : Db :=
  mkDb (filter f (employees db)) (attendanceRecords db).

(** The employee has a row of the date that is present or late. *)
Definition attendedBy (db : Db) (date : string) (e : Employee.t) : bool :=
  existsb (fun r => String.eqb (Attendance.employeeId r) (Employee.id e))
          (filter attended (rowsOf db date)).

(** The employees with no row of the date that is present or late. *)
Definition absentees (db : Db) (date : string) : list Employee.t :=
  filter (fun e => negb (attendedBy db date e)) (employees db).

End Spec.

(** ** Tables and requests of the examples *)

Module Examples.

(** A conversion of the values that are not numbers: NaN, as [Number]
    gives for a plain object or for a string that denotes no number.  The
    embeddings of the examples are arrays of number literals. *)
Definition coerce (v : JS.json) : option float := Some nan.

Definition employee (id name : string) (faceEmbedding : option string) : Employee.t :=
  Employee.mk id name "Perez" (name ++ "@empresa.com") "Ventas" "Ejecutivo" None
    faceEmbedding "active".

(** Two enrolled employees far from each other. *)
Definition empA : Employee.t := employee "a" "Ana" (Some "[0,0]").
Definition empB : Employee.t := employee "b" "Beto" (Some "[10,10]").
Definition dbAB : Db := mkDb [empA; empB] [].

(** No employee at all. *)
Definition dbEmpty : Db := mkDb [] [].

(** Two enrolled employees at the same distance from the probe [[0,0]]. *)
Definition empLeft : Employee.t := employee "l" "Lia" (Some "[0.3,0]").
Definition empRight : Employee.t := employee "r" "Raul" (Some "[-0.3,0]").
Definition dbTie : Db := mkDb [empLeft; empRight] [].

(** An enrolled employee whose template has three coordinates. *)
Definition empWide : Employee.t := employee "w" "Walt" (Some "[0,0,0]").

(** A morning and an afternoon of one day, and the draws of each scan. *)
Definition morning : Routes.Env :=
  Routes.mkEnv 0%float 0%float "2024-03-04" "08:45" "row-1".
Definition lateMorning : Routes.Env :=
  Routes.mkEnv 0%float 0.5%float "2024-03-04" "09:01" "row-1".
Definition evening : Routes.Env :=
  Routes.mkEnv 0%float 0.5%float "2024-03-04" "17:30" "row-2".
Definition night : Routes.Env :=
  Routes.mkEnv 0%float 0.25%float "2024-03-04" "21:00" "row-3".

Definition photo : option string := Some "data:image/jpeg;base64,AAAA".

(** The tables after the first scan of the morning, and after the scan
    of the evening. *)
Definition dbCheckedIn : Db := snd (Routes.recognize dbAB photo morning).
Definition dbComplete : Db := snd (Routes.recognize dbCheckedIn photo evening).

(** A request of [POST /api/attendance] for a day of [empA]. *)
Definition manualEntry : Attendance.insert :=
  Attendance.mkInsert "a" "2024-03-04" (Some "08:00") None (Some "present") None.

(** The tables of [initializeDatabase]. *)
Definition dbSeed : Db :=
  Seed.initialDb "e0" "e1" "e2" "e3" "e4" ["r0"; "r1"; "r2"; "r3"; "r4"] "2024-03-04".

(** The five employees of [initializeDatabase] and three rows of a day:
    the first, the second and the fourth of [attendanceData]. *)
Definition dbThreeRows : Db :=
  mkDb (employees dbSeed)
       [ Attendance.row "r0" (Attendance.mkInsert "e0" "2024-03-04" (Some "08:45") None (Some "present") (Some 0.95%float));
         Attendance.row "r1" (Attendance.mkInsert "e1" "2024-03-04" (Some "09:15") None (Some "late") (Some 0.92%float));
         Attendance.row "r3" (Attendance.mkInsert "e3" "2024-03-04" None None (Some "absent") None) ].

(** The same employees and three rows that scans wrote. *)
Definition dbThreeScans : Db :=
  mkDb (employees dbThreeRows)
       [ Attendance.row "r0" (Attendance.mkInsert "e0" "2024-03-04" (Some "08:45") None (Some "present") (Some 0.95%float));
         Attendance.row "r1" (Attendance.mkInsert "e1" "2024-03-04" (Some "09:15") None (Some "late") (Some 0.92%float));
         Attendance.row "r2" (Attendance.mkInsert "e2" "2024-03-04" (Some "08:30") (Some "17:30") (Some "present") (Some 0.98%float)) ].


(** A request of [POST /api/employees]. *)
Definition newcomer : Employee.insert :=
  Employee.mkInsert "Carla" "Ruiz" "carla@empresa.com" "Ventas" "Ejecutiva" None None None.

(** A third scan of the morning, of another row identifier. *)
Definition secondMorning : Routes.Env :=
  Routes.mkEnv 0%float 0%float "2024-03-05" "08:59" "row-4".
End Examples.

(** * Properties *)

(** ** The order of binary64 numbers *)

Section SpecFloatOrder.

Ltac by_compare :=
  unfold SFltb, SFleb, SFeqb, SFcompare; intros;
  repeat match goal with
  | x : spec_float |- _ => destruct x as [[]|[]| |[] ? ?]
  end;
  simpl in *; try discriminate; try reflexivity;
  repeat match goal with
  | H : context [Z.compare ?a ?b] |- _ => destruct (Z.compare_spec a b); subst
  | |- context [Z.compare ?a ?b] => destruct (Z.compare_spec a b); subst
  end;
  simpl in *; try discriminate; try reflexivity; try lia;
  repeat match goal with
  | H : context [Pos.compare_cont Eq ?a ?b] |- _ =>
    change (Pos.compare_cont Eq a b) with (Pos.compare a b) in *;
    destruct (Pos.compare_spec a b); subst
  | |- context [Pos.compare_cont Eq ?a ?b] =>
    change (Pos.compare_cont Eq a b) with (Pos.compare a b) in *;
    destruct (Pos.compare_spec a b); subst
  end;
  simpl in *; try discriminate; try reflexivity; try lia.

Lemma SFltb_irrefl x : SFltb x x = false.
Proof. revert x. by_compare. Qed.

Lemma SFltb_trans x y z : SFltb x y = true -> SFltb y z = true -> SFltb x z = true.
Proof. revert x y z. by_compare. Qed.

Lemma SFltb_leb_trans x y z : SFltb x y = true -> SFleb y z = true -> SFltb x z = true.
Proof. revert x y z. by_compare. Qed.

Lemma SFleb_ltb_trans x y z : SFleb x y = true -> SFltb y z = true -> SFltb x z = true.
Proof. revert x y z. by_compare. Qed.

Lemma SFltb_leb x y : SFltb x y = true -> SFleb x y = true.
Proof. revert x y. by_compare. Qed.

Lemma SFleb_not_ltb x y : SFleb x y = true -> SFltb y x = false.
Proof. revert x y. by_compare. Qed.

Lemma SFleb_total x y : SFeqb x x = true -> SFeqb y y = true -> SFltb x y = false -> SFleb y x = true.
Proof. revert x y. by_compare. Qed.

Lemma SFleb_eqb_refl x y : SFleb x y = true -> SFeqb x x = true.
Proof. revert x y. by_compare. Qed.

Lemma SFleb_antisym x y : SFleb x y = true -> SFleb y x = true -> SFeqb x y = true.
Proof. revert x y. by_compare. Qed.

End SpecFloatOrder.

Lemma SFsqrt_nonneg x : SFltb (SF64sqrt x) (S754_zero false) = false.
Proof.
  unfold SF64sqrt, SFsqrt.
  destruct x as [[]|[]| |[] m e]; try reflexivity.
  destruct (SFsqrt_core_binary prec emax (Z.pos m) e) as [[mz ez] lz].
  unfold binary_round_aux.
  destruct (shr_fexp prec emax mz ez lz) as [mrs' e'].
  destruct (shr_fexp prec emax _ e' loc_Exact) as [mrs'' e''].
  destruct (shr_m mrs''); try reflexivity.
  destruct (e'' <=? emax - prec)%Z; reflexivity.
Qed.

Lemma SFsub_diag x :
  match x with S754_nan | S754_infinity _ => False | _ => True end ->
  SF64sub x x = S754_zero false.
Proof.
  unfold SF64sub, SFsub.
  destruct x as [[]|[]| |[] m e]; simpl; intros H; try contradiction; try reflexivity.
  all: unfold shl_align; rewrite Z.min_id, Z.sub_diag; simpl;
    change (IntDef.Z.pos_sub m m) with (Z.pos_sub m m);
    rewrite Z.pos_sub_diag; reflexivity.
Qed.

(** ** The order of JavaScript numbers *)

Module Num.

Open Scope float_scope.

Lemma ltb_irrefl x : (x <? x) = false.
Proof. rewrite ltb_spec. apply SFltb_irrefl. Qed.

Lemma ltb_trans x y z : (x <? y) = true -> (y <? z) = true -> (x <? z) = true.
Proof. rewrite !ltb_spec. apply SFltb_trans. Qed.

Lemma ltb_leb_trans x y z : (x <? y) = true -> (y <=? z) = true -> (x <? z) = true.
Proof. rewrite !ltb_spec, leb_spec. apply SFltb_leb_trans. Qed.

Lemma leb_ltb_trans x y z : (x <=? y) = true -> (y <? z) = true -> (x <? z) = true.
Proof. rewrite !ltb_spec, leb_spec. apply SFleb_ltb_trans. Qed.

Lemma ltb_leb x y : (x <? y) = true -> (x <=? y) = true.
Proof. rewrite ltb_spec, leb_spec. apply SFltb_leb. Qed.

Lemma leb_not_ltb x y : (x <=? y) = true -> (y <? x) = false.
Proof. rewrite ltb_spec, leb_spec. apply SFleb_not_ltb. Qed.

Lemma leb_not_nan x y : (x <=? y) = true -> is_nan x = false.
Proof.
  unfold is_nan. rewrite leb_spec, eqb_spec. intros H.
  rewrite (SFleb_eqb_refl _ _ H). reflexivity.
Qed.

Lemma leb_total x y : is_nan x = false -> is_nan y = false -> (x <? y) = false -> (y <=? x) = true.
Proof.
  unfold is_nan. rewrite ltb_spec, leb_spec, !eqb_spec.
  intros Hx Hy. apply SFleb_total.
  - destruct (SFeqb (Prim2SF x) (Prim2SF x)); [reflexivity | discriminate].
  - destruct (SFeqb (Prim2SF y) (Prim2SF y)); [reflexivity | discriminate].
Qed.

Lemma leb_antisym x y : (x <=? y) = true -> (y <=? x) = true -> (x =? y) = true.
Proof. rewrite !leb_spec, eqb_spec. apply SFleb_antisym. Qed.

Lemma sqrt_nonneg x : (sqrt x <? 0) = false.
Proof. rewrite ltb_spec, sqrt_spec. apply SFsqrt_nonneg. Qed.

Lemma infinity_leb t : (infinity <=? t) = true -> t = infinity.
Proof.
  rewrite leb_spec. intros H. apply Prim2SF_inj.
  change (Prim2SF infinity) with (S754_infinity false) in *.
  destruct (Prim2SF t) as [[]|[]| |[] m e]; try discriminate; reflexivity.
Qed.

Lemma is_finite_spec x :
  is_finite x = true ->
  match Prim2SF x with S754_nan | S754_infinity _ => False | _ => True end.
Proof.
  unfold is_finite, Prim2SF. intros H.
  destruct (is_nan x); [discriminate |].
  destruct (is_infinity x); [discriminate |].
  destruct (is_zero x); [exact I |].
  destruct (Z.frexp x) as [r e].
  destruct (shr_fexp _ _ _ _ _) as [s e'].
  destruct (shr_m s); exact I.
Qed.

Lemma sub_diag x : is_finite x = true -> x - x = 0.
Proof.
  intros H. apply Prim2SF_inj. rewrite sub_spec.
  rewrite (SFsub_diag _ (is_finite_spec _ H)). reflexivity.
Qed.

End Num.

(** ** [JSON.parse] answers within its budget *)

Module JsonBudget.

Import JS.

Lemma skipWs_length s : String.length (skipWs s) <= String.length s.
Proof.
  induction s as [|c r IH]; simpl; [lia |].
  destruct (isWs c); simpl; lia.
Qed.

Lemma skipWs_head s c r : skipWs s = String c r -> String.length r < String.length s.
Proof.
  intros H. pose proof (skipWs_length s) as Hle. rewrite H in Hle. simpl in Hle. lia.
Qed.

Lemma lexString_length n : forall s raw rest,
  String.length s <= n -> lexString s = Some (raw, rest) ->
  String.length rest < String.length s.
Proof.
  induction n as [|n IH]; intros s raw rest Hn.
  - destruct s; [discriminate | simpl in Hn; lia].
  - destruct s as [|c r]; [discriminate |]. simpl in Hn. simpl.
    destruct (Ascii.eqb c dquote); [intros [= _ <-]; lia |].
    destruct (Ascii.eqb c "\").
    + destruct r as [|e r1]; [discriminate |]. simpl in Hn.
      destruct (isSimpleEscape e).
      * destruct (lexString r1) as [[raw1 rest1]|] eqn:H1; [| discriminate].
        intros [= _ <-]. apply IH in H1; [simpl; lia | lia].
      * destruct (Ascii.eqb e "u"); [| discriminate].
        destruct r1 as [|h1 [|h2 [|h3 [|h4 r2]]]]; try discriminate.
        destruct (isHex h1 && isHex h2 && isHex h3 && isHex h4); [| discriminate].
        destruct (lexString r2) as [[raw1 rest1]|] eqn:H1; [| discriminate].
        intros [= _ <-]. simpl in Hn. apply IH in H1; [simpl; lia | lia].
    + destruct (Nat.ltb (nat_of_ascii c) 32); [discriminate |].
      destruct (lexString r) as [[raw1 rest1]|] eqn:H1; [| discriminate].
      intros [= _ <-]. apply IH in H1; [lia | lia].
Qed.

Lemma takeDigits_length s : forall acc n v n' rest,
  takeDigits s acc n = (v, n', rest) -> String.length rest <= String.length s.
Proof.
  induction s as [|c r IH]; simpl; intros acc n v n' rest.
  - intros [= _ _ <-]. simpl. lia.
  - destruct (isDigit c).
    + intros H. apply IH in H. lia.
    + intros [= _ _ <-]. simpl. lia.
Qed.

Lemma lexNumber_length s d rest :
  lexNumber s = Some (d, rest) -> String.length rest < String.length s.
Proof.
  unfold lexNumber.
  set (signed := match s with
                 | String c r => if Ascii.eqb c "-" then (true, r) else (false, s)
                 | EmptyString => (false, s)
                 end).
  assert (Hsigned : String.length (snd signed) <= String.length s).
  { subst signed. destruct s as [|c r]; simpl; [lia |].
    destruct (Ascii.eqb c "-"); simpl; lia. }
  destruct signed as [sign s1]. simpl in Hsigned.
  set (int := match s1 with
              | String c r =>
                if Ascii.eqb c "0" then Some (0%Z, r)
                else if isDigit c then let '(v, _, rest0) := takeDigits s1 0 0 in Some (v, rest0)
                else None
              | EmptyString => None
              end).
  assert (Hint : forall i s2, int = Some (i, s2) -> String.length s2 < String.length s1).
  { subst int. intros i s2. destruct s1 as [|c r]; [discriminate |].
    destruct (Ascii.eqb c "0"); [intros [= _ <-]; simpl; lia |].
    destruct (isDigit c) eqn:Hc; [| discriminate].
    simpl. rewrite Hc.
    destruct (takeDigits r _ _) as [[v k] rest0] eqn:Ht.
    intros [= _ <-]. apply takeDigits_length in Ht. lia. }
  destruct int as [[i s2]|]; [| discriminate].
  specialize (Hint i s2 eq_refl).
  set (frac := match s2 with
               | String c r =>
                 if Ascii.eqb c "." then
                   let '(v, n, rest0) := takeDigits r i 0 in
                   if Nat.eqb n 0 then None else Some (v, Z.of_nat n, rest0)
                 else Some (i, 0%Z, s2)
               | EmptyString => Some (i, 0%Z, s2)
               end).
  assert (Hfrac : forall m k s3, frac = Some (m, k, s3) -> String.length s3 <= String.length s2).
  { subst frac. intros m k s3. destruct s2 as [|c r]; [intros [= _ _ <-]; lia |].
    destruct (Ascii.eqb c "."); [| intros [= _ _ <-]; lia].
    destruct (takeDigits r i 0) as [[v n] rest0] eqn:Ht.
    destruct (Nat.eqb n 0); [discriminate |].
    intros [= _ _ <-]. apply takeDigits_length in Ht. simpl. lia. }
  destruct frac as [[[m k] s3]|]; [| discriminate].
  specialize (Hfrac m k s3 eq_refl).
  destruct s3 as [|c r]; [intros [= _ <-]; simpl in *; lia |].
  destruct (Ascii.eqb c "e" || Ascii.eqb c "E"); [| intros [= _ <-]; lia].
  set (esigned := match r with
                  | String c' r' =>
                    if Ascii.eqb c' "-" then (true, r')
                    else if Ascii.eqb c' "+" then (false, r')
                    else (false, r)
                  | EmptyString => (false, r)
                  end).
  assert (Hes : String.length (snd esigned) <= String.length r).
  { subst esigned. destruct r as [|c' r']; simpl; [lia |].
    destruct (Ascii.eqb c' "-"); simpl; [lia |].
    destruct (Ascii.eqb c' "+"); simpl; lia. }
  destruct esigned as [esign s4]. simpl in Hes.
  destruct (takeDigits s4 0 0) as [[x n] rest0] eqn:Ht.
  destruct (Nat.eqb n 0); [discriminate |].
  intros [= _ <-]. apply takeDigits_length in Ht. simpl in *. lia.
Qed.

Lemma word_length w : forall s rest,
  word w s = Some rest -> String.length s = String.length w + String.length rest.
Proof.
  induction w as [|a w IH]; simpl; intros s rest.
  - intros [= <-]. reflexivity.
  - destruct s as [|b s]; [discriminate |].
    destruct (Ascii.eqb a b); [| discriminate].
    intros H. apply IH in H. simpl. lia.
Qed.

Lemma literal_length w v s v' rest :
  w <> "" -> literal w v s = Done v' rest -> String.length rest < String.length s.
Proof.
  unfold literal. intros Hw.
  destruct (word w s) as [r|] eqn:H; [| discriminate].
  intros [= _ <-]. apply word_length in H.
  destruct w; [contradiction | simpl in H; lia].
Qed.

Lemma parse_consumes fuel :
  (forall s v r, parseValue fuel s = Done v r -> String.length r < String.length s) /\
  (forall s vs r, parseElements fuel s = Done vs r -> String.length r < String.length s) /\
  (forall s ms r, parseMembers fuel s = Done ms r -> String.length r < String.length s).
Proof.
  induction fuel as [|f (IHv & IHe & IHm)]; [repeat split; discriminate |].
  split; [| split].
  - intros s v r. simpl.
    destruct (skipWs s) as [|c r0] eqn:Hs; [discriminate |].
    apply skipWs_head in Hs.
    destruct (Ascii.eqb c "[").
    { destruct (skipWs r0) as [|c' r'] eqn:Hr0; [discriminate |].
      apply skipWs_head in Hr0.
      destruct (Ascii.eqb c' "]"); [intros [= _ <-]; lia |].
      destruct (parseElements f r0) as [vs rest| |] eqn:He; try discriminate.
      intros [= _ <-]. apply IHe in He. lia. }
    destruct (Ascii.eqb c "{").
    { destruct (skipWs r0) as [|c' r'] eqn:Hr0; [discriminate |].
      apply skipWs_head in Hr0.
      destruct (Ascii.eqb c' "}"); [intros [= _ <-]; lia |].
      destruct (parseMembers f r0) as [ms rest| |] eqn:He; try discriminate.
      intros [= _ <-]. apply IHm in He. lia. }
    destruct (Ascii.eqb c dquote).
    { destruct (lexString r0) as [[raw rest]|] eqn:Hl; [| discriminate].
      intros [= _ <-]. apply (lexString_length _ _ _ _ (Nat.le_refl _)) in Hl. lia. }
    destruct (Ascii.eqb c "-" || isDigit c).
    { destruct (lexNumber (String c r0)) as [[d rest]|] eqn:Hl; [| discriminate].
      intros [= _ <-]. apply lexNumber_length in Hl. simpl in Hl. lia. }
    destruct (Ascii.eqb c "t").
    { intros H. apply literal_length in H; [simpl in H; lia | discriminate]. }
    destruct (Ascii.eqb c "f").
    { intros H. apply literal_length in H; [simpl in H; lia | discriminate]. }
    destruct (Ascii.eqb c "n").
    { intros H. apply literal_length in H; [simpl in H; lia | discriminate]. }
    discriminate.
  - intros s vs r. simpl.
    destruct (parseValue f s) as [v r0| |] eqn:Hv; try discriminate.
    apply IHv in Hv.
    destruct (skipWs r0) as [|c r1] eqn:Hr0; [discriminate |].
    apply skipWs_head in Hr0.
    destruct (Ascii.eqb c ",").
    { destruct (parseElements f r1) as [vs' rest| |] eqn:He; try discriminate.
      intros [= _ <-]. apply IHe in He. lia. }
    destruct (Ascii.eqb c "]"); [| discriminate].
    intros [= _ <-]. lia.
  - intros s ms r. simpl.
    destruct (skipWs s) as [|q r0] eqn:Hs; [discriminate |].
    apply skipWs_head in Hs.
    destruct (Ascii.eqb q dquote); [| discriminate].
    destruct (lexString r0) as [[key r1]|] eqn:Hl; [| discriminate].
    apply (lexString_length _ _ _ _ (Nat.le_refl _)) in Hl.
    destruct (skipWs r1) as [|c r2] eqn:Hr1; [discriminate |].
    apply skipWs_head in Hr1.
    destruct (Ascii.eqb c ":"); [| discriminate].
    destruct (parseValue f r2) as [v r3| |] eqn:Hv; try discriminate.
    apply IHv in Hv.
    destruct (skipWs r3) as [|c' r4] eqn:Hr3; [discriminate |].
    apply skipWs_head in Hr3.
    destruct (Ascii.eqb c' ",").
    { destruct (parseMembers f r4) as [ms' rest| |] eqn:He; try discriminate.
      intros [= _ <-]. apply IHm in He. lia. }
    destruct (Ascii.eqb c' "}"); [| discriminate].
    intros [= _ <-]. lia.
Qed.

Lemma parse_within fuel :
  (forall s, 2 * String.length s + 1 <= fuel -> parseValue fuel s <> OutOfFuel) /\
  (forall s, 2 * String.length s + 2 <= fuel -> parseElements fuel s <> OutOfFuel) /\
  (forall s, 2 * String.length s + 2 <= fuel -> parseMembers fuel s <> OutOfFuel).
Proof.
  induction fuel as [|f (IHv & IHe & IHm)]; [repeat split; intros s H; lia |].
  destruct (parse_consumes f) as (Cv & Ce & Cm).
  split; [| split].
  - intros s Hf. simpl.
    destruct (skipWs s) as [|c r0] eqn:Hs; [discriminate |].
    apply skipWs_head in Hs.
    destruct (Ascii.eqb c "[").
    { destruct (skipWs r0) as [|c' r'] eqn:Hr0; [discriminate |].
      destruct (Ascii.eqb c' "]"); [discriminate |].
      destruct (parseElements f r0) as [vs rest| |] eqn:He; try discriminate.
      exfalso. apply (IHe r0); [lia | exact He]. }
    destruct (Ascii.eqb c "{").
    { destruct (skipWs r0) as [|c' r'] eqn:Hr0; [discriminate |].
      destruct (Ascii.eqb c' "}"); [discriminate |].
      destruct (parseMembers f r0) as [ms rest| |] eqn:He; try discriminate.
      exfalso. apply (IHm r0); [lia | exact He]. }
    destruct (Ascii.eqb c dquote).
    { destruct (lexString r0) as [[raw rest]|]; discriminate. }
    destruct (Ascii.eqb c "-" || isDigit c).
    { destruct (lexNumber (String c r0)) as [[d rest]|]; discriminate. }
    unfold literal.
    destruct (Ascii.eqb c "t"); [destruct (word _ _); discriminate |].
    destruct (Ascii.eqb c "f"); [destruct (word _ _); discriminate |].
    destruct (Ascii.eqb c "n"); [destruct (word _ _); discriminate |].
    discriminate.
  - intros s Hf. simpl.
    destruct (parseValue f s) as [v r0| |] eqn:Hv; try discriminate.
    + apply Cv in Hv.
      destruct (skipWs r0) as [|c r1] eqn:Hr0; [discriminate |].
      apply skipWs_head in Hr0.
      destruct (Ascii.eqb c ",").
      { destruct (parseElements f r1) as [vs' rest| |] eqn:He; try discriminate.
        exfalso. apply (IHe r1); [lia | exact He]. }
      destruct (Ascii.eqb c "]"); discriminate.
    + exfalso. apply (IHv s); [lia | exact Hv].
  - intros s Hf. simpl.
    destruct (skipWs s) as [|q r0] eqn:Hs; [discriminate |].
    apply skipWs_head in Hs.
    destruct (Ascii.eqb q dquote); [| discriminate].
    destruct (lexString r0) as [[key r1]|] eqn:Hl; [| discriminate].
    apply (lexString_length _ _ _ _ (Nat.le_refl _)) in Hl.
    destruct (skipWs r1) as [|c r2] eqn:Hr1; [discriminate |].
    apply skipWs_head in Hr1.
    destruct (Ascii.eqb c ":"); [| discriminate].
    destruct (parseValue f r2) as [v r3| |] eqn:Hv; try discriminate.
    + apply Cv in Hv.
      destruct (skipWs r3) as [|c' r4] eqn:Hr3; [discriminate |].
      apply skipWs_head in Hr3.
      destruct (Ascii.eqb c' ",").
      { destruct (parseMembers f r4) as [ms' rest| |] eqn:He; try discriminate.
        exfalso. apply (IHm r4); [lia | exact He]. }
      destruct (Ascii.eqb c' "}"); discriminate.
    + exfalso. apply (IHv r2); [lia | exact Hv].
Qed.

(** More budget does not change an answer. *)
Lemma parse_more fuel :
  (forall s fuel', fuel <= fuel' -> parseValue fuel s <> OutOfFuel ->
     parseValue fuel' s = parseValue fuel s) /\
  (forall s fuel', fuel <= fuel' -> parseElements fuel s <> OutOfFuel ->
     parseElements fuel' s = parseElements fuel s) /\
  (forall s fuel', fuel <= fuel' -> parseMembers fuel s <> OutOfFuel ->
     parseMembers fuel' s = parseMembers fuel s).
Proof.
  induction fuel as [|f (IHv & IHe & IHm)];
    [repeat split; intros s fuel' _ H; exfalso; apply H; reflexivity |].
  split; [| split]; intros s [|f'] Hle; try lia; simpl.
  - destruct (skipWs s) as [|c r0]; [reflexivity |].
    destruct (Ascii.eqb c "[").
    { destruct (skipWs r0) as [|c' r']; [reflexivity |].
      destruct (Ascii.eqb c' "]"); [reflexivity |].
      intros H. rewrite (IHe r0 f'); [reflexivity | lia |].
      intros He. rewrite He in H. apply H. reflexivity. }
    destruct (Ascii.eqb c "{").
    { destruct (skipWs r0) as [|c' r']; [reflexivity |].
      destruct (Ascii.eqb c' "}"); [reflexivity |].
      intros H. rewrite (IHm r0 f'); [reflexivity | lia |].
      intros He. rewrite He in H. apply H. reflexivity. }
    reflexivity.
  - intros H.
    assert (Hv : parseValue f s <> OutOfFuel)
      by (intros Hv; rewrite Hv in H; apply H; reflexivity).
    rewrite (IHv s f' ltac:(lia) Hv).
    destruct (parseValue f s) as [v r0| |]; try reflexivity.
    destruct (skipWs r0) as [|c r1]; [reflexivity |].
    destruct (Ascii.eqb c ","); [| reflexivity].
    rewrite (IHe r1 f'); [reflexivity | lia |].
    intros He. rewrite He in H. apply H. reflexivity.
  - destruct (skipWs s) as [|q r0]; [reflexivity |].
    destruct (Ascii.eqb q dquote); [| reflexivity].
    destruct (lexString r0) as [[key r1]|]; [| reflexivity].
    destruct (skipWs r1) as [|c r2]; [reflexivity |].
    destruct (Ascii.eqb c ":"); [| reflexivity].
    intros H.
    assert (Hv : parseValue f r2 <> OutOfFuel)
      by (intros Hv; rewrite Hv in H; apply H; reflexivity).
    rewrite (IHv r2 f' ltac:(lia) Hv).
    destruct (parseValue f r2) as [v r3| |]; try reflexivity.
    destruct (skipWs r3) as [|c' r4]; [reflexivity |].
    destruct (Ascii.eqb c' ","); [| reflexivity].
    rewrite (IHm r4 f'); [reflexivity | lia |].
    intros He. rewrite He in H. apply H. reflexivity.
Qed.

(** [JSON.parse] reads every text within its budget, and no larger budget
    would read it otherwise. *)
Lemma JSON_parse_total s :
  parseValue (budget s) s <> OutOfFuel /\
  forall fuel, budget s <= fuel -> parseValue fuel s = parseValue (budget s) s.
Proof.
  assert (H : parseValue (budget s) s <> OutOfFuel)
    by (apply (proj1 (parse_within (budget s))); unfold budget; lia).
  split; [exact H |].
  intros fuel Hle. apply (proj1 (parse_more (budget s))); assumption.
Qed.

End JsonBudget.

(** ** The loop of [getEmployeeByEmbedding] *)

Section Matcher.

Variable coerce : JS.json -> option float.
Variable target : list float.

Local Open Scope list_scope.

Local Abbreviation distanceTo := (Spec.distanceTo coerce target).
Local Abbreviation scan := (Storage.scanCandidates coerce target).
Local Abbreviation bestAmong := (Spec.bestAmong coerce target).

Lemma distanceTo_parse emp d :
  distanceTo emp = Some d ->
  exists emb, Storage.parseEmbedding coerce (Employee.faceEmbedding emp) = Some emb /\
              d = Storage.euclideanDistance target emb.
Proof.
  unfold Spec.distanceTo.
  destruct (Storage.parseEmbedding coerce (Employee.faceEmbedding emp)) as [emb|]; simpl.
  - intros [= <-]. exists emb. split; reflexivity.
  - discriminate.
Qed.

(** One turn of the loop, by the distance of the candidate. *)
Lemma scan_step emp rest best :
  scan (emp :: rest) best =
  match distanceTo emp with
  | None => scan rest best
  | Some dist =>
    if (dist <=? Storage.THRESHOLD)%float &&
       match best with None => true | Some (_, distance) => (dist <? distance)%float end
    then scan rest (Some (emp, dist))
    else scan rest best
  end.
Proof.
  unfold Spec.distanceTo. simpl.
  destruct (Storage.parseEmbedding coerce (Employee.faceEmbedding emp)); reflexivity.
Qed.

Lemma bestAmong_step seen emp best :
  bestAmong seen best ->
  bestAmong (seen ++ [emp])
    match distanceTo emp with
    | None => best
    | Some dist =>
      if (dist <=? Storage.THRESHOLD)%float &&
         match best with None => true | Some (_, distance) => (dist <? distance)%float end
      then Some (emp, dist)
      else best
    end.
Proof.
  intros Hinv.
  destruct (distanceTo emp) as [dist|] eqn:Hd.
  - destruct (dist <=? Storage.THRESHOLD)%float eqn:Hle; simpl.
    + destruct best as [[e d]|]; simpl in *.
      * destruct Hinv as (Hin & He & Hde & Hmin).
        destruct (dist <? d)%float eqn:Hlt.
        -- repeat split; auto.
           ++ apply in_or_app. right. left. reflexivity.
           ++ intros c dc Hc Hdc. apply in_app_or in Hc. destruct Hc as [Hc | [<- | []]].
              ** destruct (dc <? dist)%float eqn:Hcd; [| reflexivity].
                 rewrite <- (Hmin c dc Hc Hdc). symmetry.
                 apply (Num.ltb_trans _ _ _ Hcd Hlt).
              ** rewrite Hd in Hdc. injection Hdc as <-. apply Num.ltb_irrefl.
        -- repeat split; auto.
           ++ apply in_or_app. left. exact Hin.
           ++ intros c dc Hc Hdc. apply in_app_or in Hc. destruct Hc as [Hc | [<- | []]].
              ** apply (Hmin c dc Hc Hdc).
              ** rewrite Hd in Hdc. injection Hdc as <-. exact Hlt.
      * repeat split; auto.
        -- apply in_or_app. right. left. reflexivity.
        -- intros c dc Hc Hdc. apply in_app_or in Hc. destruct Hc as [Hc | [<- | []]].
           ++ destruct (dc <? dist)%float eqn:Hcd; [| reflexivity].
              rewrite <- (Hinv c dc Hc Hdc). symmetry.
              apply Num.ltb_leb. apply (Num.ltb_leb_trans _ _ _ Hcd Hle).
           ++ rewrite Hd in Hdc. injection Hdc as <-. apply Num.ltb_irrefl.
    + destruct best as [[e d]|]; simpl in *.
      * destruct Hinv as (Hin & He & Hde & Hmin).
        repeat split; auto.
        -- apply in_or_app. left. exact Hin.
        -- intros c dc Hc Hdc. apply in_app_or in Hc. destruct Hc as [Hc | [<- | []]].
           ++ apply (Hmin c dc Hc Hdc).
           ++ rewrite Hd in Hdc. injection Hdc as <-.
              destruct (dist <? d)%float eqn:Hlt; [| reflexivity].
              rewrite <- Hle. symmetry.
              apply Num.ltb_leb. apply (Num.ltb_leb_trans _ _ _ Hlt Hde).
      * intros c dc Hc Hdc. apply in_app_or in Hc. destruct Hc as [Hc | [<- | []]].
        -- apply (Hinv c dc Hc Hdc).
        -- rewrite Hd in Hdc. injection Hdc as <-. exact Hle.
  - destruct best as [[e d]|]; simpl in *.
    + destruct Hinv as (Hin & He & Hde & Hmin).
      repeat split; auto.
      * apply in_or_app. left. exact Hin.
      * intros c dc Hc Hdc. apply in_app_or in Hc. destruct Hc as [Hc | [<- | []]].
        -- apply (Hmin c dc Hc Hdc).
        -- rewrite Hd in Hdc. discriminate.
    + intros c dc Hc Hdc. apply in_app_or in Hc. destruct Hc as [Hc | [<- | []]].
      * apply (Hinv c dc Hc Hdc).
      * rewrite Hd in Hdc. discriminate.
Qed.

Lemma scan_bestAmong candidates : forall seen best,
  bestAmong seen best -> bestAmong (seen ++ candidates) (scan candidates best).
Proof.
  induction candidates as [|emp rest IH]; intros seen best Hinv.
  - rewrite app_nil_r. exact Hinv.
  - rewrite scan_step.
    replace (seen ++ emp :: rest) with ((seen ++ [emp]) ++ rest)
      by (rewrite <- app_assoc; reflexivity).
    pose proof (bestAmong_step seen emp best Hinv) as Hstep.
    destruct (distanceTo emp) as [dist|].
    + destruct ((dist <=? Storage.THRESHOLD)%float &&
                match best with None => true | Some (_, distance) => (dist <? distance)%float end);
        apply IH; exact Hstep.
    + apply IH; exact Hstep.
Qed.

(** The loop keeps a best candidate that no later candidate is strictly
    nearer than. *)
Lemma scan_keeps a d rest :
  (forall c dc, In c rest -> distanceTo c = Some dc -> (dc <? d)%float = false) ->
  scan rest (Some (a, d)) = Some (a, d).
Proof.
  induction rest as [|emp rest IH]; intros Hrest.
  - reflexivity.
  - rewrite scan_step.
    destruct (distanceTo emp) as [dist|] eqn:Hd.
    + rewrite (Hrest emp dist (or_introl eq_refl) Hd), andb_false_r.
      apply IH. intros c dc Hc. apply Hrest. right. exact Hc.
    + apply IH. intros c dc Hc. apply Hrest. right. exact Hc.
Qed.

(** Candidates that are beyond the threshold or strictly farther than [d]
    leave [best] nothing or strictly farther than [d]. *)
Lemma scan_farther d before : forall best,
  (forall c dc, In c before -> distanceTo c = Some dc ->
     (dc <=? Storage.THRESHOLD)%float = false \/ (d <? dc)%float = true) ->
  Spec.fartherThan d best ->
  Spec.fartherThan d (scan before best).
Proof.
  induction before as [|emp rest IH]; intros best Hbefore Hbest.
  - exact Hbest.
  - rewrite scan_step.
    assert (Hrest : forall c dc, In c rest -> distanceTo c = Some dc ->
              (dc <=? Storage.THRESHOLD)%float = false \/ (d <? dc)%float = true)
      by (intros c dc Hc; apply Hbefore; right; exact Hc).
    destruct (distanceTo emp) as [dist|] eqn:Hd.
    + destruct (Hbefore emp dist (or_introl eq_refl) Hd) as [Hfar | Hfar].
      * rewrite Hfar. simpl. apply IH; assumption.
      * destruct ((dist <=? Storage.THRESHOLD)%float &&
                  match best with None => true | Some (_, distance) => (dist <? distance)%float end).
        -- apply IH; [exact Hrest | exact Hfar].
        -- apply IH; assumption.
    + apply IH; assumption.
Qed.

(** The loop returns the first of the candidates of least distance. *)
Lemma scan_first_nearest before a after d :
  distanceTo a = Some d ->
  (d <=? Storage.THRESHOLD)%float = true ->
  (forall c dc, In c before -> distanceTo c = Some dc ->
     (dc <=? Storage.THRESHOLD)%float = false \/ (d <? dc)%float = true) ->
  (forall c dc, In c after -> distanceTo c = Some dc -> (dc <? d)%float = false) ->
  scan (before ++ a :: after) None = Some (a, d).
Proof.
  intros Hd Hle Hbefore Hafter.
  assert (Hsplit : forall l best, scan (l ++ a :: after) best = scan (a :: after) (scan l best)).
  { induction l as [|x l IHl]; intros best; [reflexivity |].
    rewrite <- app_comm_cons, (scan_step x (l ++ a :: after)), (scan_step x l).
    destruct (distanceTo x) as [dx|]; [| apply IHl].
    destruct ((dx <=? Storage.THRESHOLD)%float && _); apply IHl. }
  rewrite Hsplit, scan_step, Hd, Hle. simpl.
  pose proof (scan_farther d before None Hbefore I) as Hfar.
  destruct (scan before None) as [[e de]|]; simpl in Hfar.
  - rewrite Hfar. apply scan_keeps. exact Hafter.
  - apply scan_keeps. exact Hafter.
Qed.

End Matcher.

(** ** [getEmployeeByEmbedding] *)

Lemma getEmployeeByEmbedding_best coerce db embedding e :
  Storage.getEmployeeByEmbedding coerce db embedding = Some e ->
  exists target d,
    Storage.parseEmbedding coerce (Some embedding) = Some target /\
    Spec.bestAmong coerce target (employees db) (Some (e, d)).
Proof.
  unfold Storage.getEmployeeByEmbedding.
  destruct (Storage.parseEmbedding coerce (Some embedding)) as [target|]; [| discriminate].
  intros H. exists target.
  pose proof (scan_bestAmong coerce target (employees db) [] None) as Hbest.
  simpl in Hbest.
  destruct (Storage.scanCandidates coerce target (employees db) None) as [[e' d]|];
    [| discriminate].
  simpl in H. injection H as ->.
  exists d. split; [reflexivity |].
  apply Hbest. intros c dc [].
Qed.

(** C1. When [getEmployeeByEmbedding] returns an employee, the template of
    that employee is within the threshold of the probe and no enrolled
    template is strictly nearer to the probe (the distance of every
    comparable template is at least as large); an employee whose template
    is beyond the threshold is never the one returned. *)
Theorem C1_nearest_within_threshold coerce db embedding e :
  Storage.getEmployeeByEmbedding coerce db embedding = Some e ->
  exists target d,
    Storage.parseEmbedding coerce (Some embedding) = Some target /\
    In e (employees db) /\
    Spec.distanceTo coerce target e = Some d /\
    (d <=? Storage.THRESHOLD)%float = true /\
    forall c dc, In c (employees db) -> Spec.distanceTo coerce target c = Some dc ->
      (dc <? d)%float = false /\
      (is_nan dc = false -> (d <=? dc)%float = true) /\
      ((Storage.THRESHOLD <? dc)%float = true -> c <> e).
Proof.
  intros H.
  destruct (getEmployeeByEmbedding_best _ _ _ _ H) as (target & d & Hparse & Hin & Hd & Hle & Hmin).
  exists target, d.
  split; [exact Hparse |]. split; [exact Hin |]. split; [exact Hd |]. split; [exact Hle |].
  intros c dc Hc Hdc. split; [| split].
  - apply (Hmin c dc Hc Hdc).
  - intros Hnan. apply Num.leb_total.
    + exact Hnan.
    + apply (Num.leb_not_nan _ _ Hle).
    + apply (Hmin c dc Hc Hdc).
  - intros Hfar ->. rewrite Hd in Hdc. injection Hdc as <-.
    rewrite (Num.leb_not_ltb _ _ Hle) in Hfar. discriminate.
Qed.

Lemma C1_witness :
  Storage.getEmployeeByEmbedding Examples.coerce Examples.dbAB "[0.1,0.1]" = Some Examples.empA /\
  exists target d,
    Storage.parseEmbedding Examples.coerce (Some "[0.1,0.1]") = Some target /\
    In Examples.empA (employees Examples.dbAB) /\
    Spec.distanceTo Examples.coerce target Examples.empA = Some d /\
    (d <=? Storage.THRESHOLD)%float = true /\
    forall c dc, In c (employees Examples.dbAB) ->
      Spec.distanceTo Examples.coerce target c = Some dc ->
      (dc <? d)%float = false /\
      (is_nan dc = false -> (d <=? dc)%float = true) /\
      ((Storage.THRESHOLD <? dc)%float = true -> c <> Examples.empA).
Proof.
  split.
  - vm_compute. reflexivity.
  - apply (C1_nearest_within_threshold Examples.coerce Examples.dbAB "[0.1,0.1]" Examples.empA).
    vm_compute. reflexivity.
Defined.

(** C4, corrected.  When the first of the employees of least distance
    within the threshold is followed by another employee at the very same
    distance, [getEmployeeByEmbedding] returns the first: a tie is not a
    rejection. *)
Theorem C4_tie_returns_first coerce db embedding target before a between b after d :
  Storage.parseEmbedding coerce (Some embedding) = Some target ->
  employees db = (before ++ a :: between ++ b :: after)%list ->
  Spec.distanceTo coerce target a = Some d ->
  Spec.distanceTo coerce target b = Some d ->
  (d <=? Storage.THRESHOLD)%float = true ->
  (forall c dc, In c before -> Spec.distanceTo coerce target c = Some dc ->
     (dc <=? Storage.THRESHOLD)%float = false \/ (d <? dc)%float = true) ->
  (forall c dc, In c (between ++ after)%list -> Spec.distanceTo coerce target c = Some dc ->
     (dc <? d)%float = false) ->
  Storage.getEmployeeByEmbedding coerce db embedding = Some a.
Proof.
  intros Hparse Hdb Ha Hb Hle Hbefore Hafter.
  unfold Storage.getEmployeeByEmbedding. rewrite Hparse, Hdb.
  rewrite (scan_first_nearest coerce target before a (between ++ b :: after)%list d); auto.
  intros c dc Hc Hdc. apply in_app_or in Hc. destruct Hc as [Hc | [<- | Hc]].
  - apply (Hafter c dc); [apply in_or_app; left; exact Hc | exact Hdc].
  - rewrite Hb in Hdc. injection Hdc as <-. apply Num.ltb_irrefl.
  - apply (Hafter c dc); [apply in_or_app; right; exact Hc | exact Hdc].
Qed.

Lemma C4_witness :
  Storage.getEmployeeByEmbedding Examples.coerce Examples.dbTie "[0,0]" = Some Examples.empLeft.
Proof.
  apply (C4_tie_returns_first Examples.coerce Examples.dbTie "[0,0]" [0; 0]%float
           [] Examples.empLeft [] Examples.empRight [] 0.3%float).
  - vm_compute. reflexivity.
  - reflexivity.
  - vm_compute. reflexivity.
  - vm_compute. reflexivity.
  - vm_compute. reflexivity.
  - intros c dc [].
  - intros c dc [].
Defined.

(** Against C4 as specified: two distinct employees at the same distance
    from the probe, within the threshold, and the first one is returned
    where the specification rejects the match as ambiguous. *)
Lemma C4_counterexample :
  Storage.getEmployeeByEmbedding Examples.coerce Examples.dbTie "[0,0]" = Some Examples.empLeft /\
  Spec.distanceTo Examples.coerce [0; 0]%float Examples.empLeft = Some 0.3%float /\
  Spec.distanceTo Examples.coerce [0; 0]%float Examples.empRight = Some 0.3%float /\
  (0.3 <=? Storage.THRESHOLD)%float = true /\
  Employee.id Examples.empLeft <> Employee.id Examples.empRight.
Proof.
  repeat split; try (vm_compute; reflexivity).
  vm_compute. discriminate.
Qed.

Lemma getEmployeeByEmbedding_none coerce db embedding target :
  Storage.parseEmbedding coerce (Some embedding) = Some target ->
  Storage.getEmployeeByEmbedding coerce db embedding = None ->
  forall c dc, In c (employees db) -> Spec.distanceTo coerce target c = Some dc ->
    (dc <=? Storage.THRESHOLD)%float = false.
Proof.
  unfold Storage.getEmployeeByEmbedding. intros -> Hnone.
  pose proof (scan_bestAmong coerce target (employees db) [] None) as Hbest.
  simpl in Hbest.
  destruct (Storage.scanCandidates coerce target (employees db) None) as [[e d]|];
    [discriminate |].
  apply Hbest. intros c dc [].
Qed.

(** C8, corrected.  When no enrolled template is within the
    threshold of the probe -- there is no employee, or every template is too
    far or of another length -- [getEmployeeByEmbedding] returns [undefined],
    a value and not an exception, the same in each case; and the recognition
    route answers an enrolled set that is empty by a body with
    [success: false]. *)
Theorem C8_no_match_is_undefined coerce db embedding :
  (forall target c dc,
     Storage.parseEmbedding coerce (Some embedding) = Some target ->
     In c (employees db) -> Spec.distanceTo coerce target c = Some dc ->
     (dc <=? Storage.THRESHOLD)%float = false) ->
  Storage.getEmployeeByEmbedding coerce db embedding = None /\
  (Routes.employeesWithEmbedding db = [] ->
   forall photo env, JS.truthy photo = true ->
     Routes.recognize db photo env =
     (Routes.Refused "No hay empleados con registro facial en el sistema", db)).
Proof.
  intros Hfar. split.
  - destruct (Storage.getEmployeeByEmbedding coerce db embedding) as [e|] eqn:He; [| reflexivity].
    destruct (getEmployeeByEmbedding_best _ _ _ _ He) as (target & d & Hparse & Hin & Hd & Hle & _).
    rewrite (Hfar target e d Hparse Hin Hd) in Hle. discriminate.
  - intros Hnone photo env Hphoto. unfold Routes.recognize.
    rewrite Hphoto, Hnone. reflexivity.
Qed.

Lemma C8_witness :
  Storage.getEmployeeByEmbedding Examples.coerce Examples.dbAB "[5,5]" = None /\
  Storage.getEmployeeByEmbedding Examples.coerce Examples.dbEmpty "[5,5]" = None /\
  Routes.recognize Examples.dbEmpty Examples.photo Examples.morning =
  (Routes.Refused "No hay empleados con registro facial en el sistema", Examples.dbEmpty).
Proof.
  assert (HAB : forall target c dc,
            Storage.parseEmbedding Examples.coerce (Some "[5,5]") = Some target ->
            In c (employees Examples.dbAB) ->
            Spec.distanceTo Examples.coerce target c = Some dc ->
            (dc <=? Storage.THRESHOLD)%float = false).
  { intros target c dc Hparse Hc Hdc.
    vm_compute in Hparse. injection Hparse as <-.
    destruct Hc as [<- | [<- | []]]; vm_compute in Hdc; injection Hdc as <-;
      vm_compute; reflexivity. }
  assert (HE : forall target c dc,
            Storage.parseEmbedding Examples.coerce (Some "[5,5]") = Some target ->
            In c (employees Examples.dbEmpty) ->
            Spec.distanceTo Examples.coerce target c = Some dc ->
            (dc <=? Storage.THRESHOLD)%float = false).
  { intros target c dc _ []. }
  split; [| split].
  - exact (proj1 (C8_no_match_is_undefined Examples.coerce Examples.dbAB "[5,5]" HAB)).
  - exact (proj1 (C8_no_match_is_undefined Examples.coerce Examples.dbEmpty "[5,5]" HE)).
  - exact (proj2 (C8_no_match_is_undefined Examples.coerce Examples.dbEmpty "[5,5]" HE)
             eq_refl Examples.photo Examples.morning eq_refl).
Defined.

(** Against C8 as specified: the result for an empty enrolled set and the
    result for an enrolled set with no template within the threshold are the
    same value, where the specification has two different rejections. *)
Lemma C8_counterexample :
  Storage.getEmployeeByEmbedding Examples.coerce Examples.dbEmpty "[5,5]" =
  Storage.getEmployeeByEmbedding Examples.coerce Examples.dbAB "[5,5]" /\
  employees Examples.dbEmpty = [] /\
  employees Examples.dbAB <> [] /\
  "no_face_detected" <> "not_recognized".
Proof.
  repeat split; try (vm_compute; reflexivity); discriminate.
Qed.

(** ** [euclideanDistance] *)

Lemma sumSquaresChecked_in_bounds a b n : forall i sum,
  i + n <= List.length a -> i + n <= List.length b ->
  Storage.sumSquaresChecked a b i n sum = Some (Storage.sumSquares a b i n sum).
Proof.
  induction n as [|n IH]; intros i sum Ha Hb; [reflexivity |].
  simpl. unfold Storage.operand.
  destruct (nth_error a i) as [x|] eqn:Hx.
  - destruct (nth_error b i) as [y|] eqn:Hy.
    + apply IH; lia.
    + apply nth_error_None in Hy. lia.
  - apply nth_error_None in Hx. lia.
Qed.

(** No read of [euclideanDistance] is outside of its arrays. *)
Lemma euclideanDistance_in_bounds a b :
  Storage.euclideanDistanceChecked a b = Some (Storage.euclideanDistance a b).
Proof.
  unfold Storage.euclideanDistanceChecked, Storage.euclideanDistance.
  destruct (Nat.eqb (List.length a) (List.length b)) eqn:Hlen; simpl; [| reflexivity].
  apply Nat.eqb_eq in Hlen.
  rewrite sumSquaresChecked_in_bounds by lia. reflexivity.
Qed.

Lemma euclideanDistance_nonneg a b : (Storage.euclideanDistance a b <? 0)%float = false.
Proof.
  unfold Storage.euclideanDistance.
  destruct (negb (Nat.eqb (List.length a) (List.length b))); [reflexivity |].
  apply Num.sqrt_nonneg.
Qed.

(** C9. The distance of two vectors of unequal length is positive infinity:
    it is computed without a read outside of the vectors, it is within no
    threshold but infinity itself, and an employee whose template has another
    length than the probe is never returned. *)
Theorem C9_unequal_length_is_infinite a b :
  List.length a <> List.length b ->
  Storage.euclideanDistance a b = infinity /\
  Storage.euclideanDistanceChecked a b = Some infinity /\
  (forall t, (Storage.euclideanDistance a b <=? t)%float = true -> t = infinity) /\
  (forall coerce db embedding e,
     Storage.parseEmbedding coerce (Some embedding) = Some a ->
     Storage.parseEmbedding coerce (Employee.faceEmbedding e) = Some b ->
     Storage.getEmployeeByEmbedding coerce db embedding <> Some e).
Proof.
  intros Hlen.
  assert (Hinf : Storage.euclideanDistance a b = infinity).
  { unfold Storage.euclideanDistance.
    apply Nat.eqb_neq in Hlen. rewrite Hlen. reflexivity. }
  split; [exact Hinf |]. split; [| split].
  - rewrite euclideanDistance_in_bounds, Hinf. reflexivity.
  - rewrite Hinf. apply Num.infinity_leb.
  - intros coerce db embedding e Ha Hb He.
    destruct (getEmployeeByEmbedding_best _ _ _ _ He) as (target & d & Hparse & _ & Hd & Hle & _).
    rewrite Ha in Hparse. injection Hparse as <-.
    unfold Spec.distanceTo in Hd. rewrite Hb in Hd. simpl in Hd.
    rewrite Hinf in Hd. injection Hd as <-.
    vm_compute in Hle. discriminate.
Qed.

Lemma C9_witness :
  Storage.euclideanDistance [5; 5]%float [0; 0; 0]%float = infinity /\
  Storage.euclideanDistanceChecked [5; 5]%float [0; 0; 0]%float = Some infinity /\
  Storage.getEmployeeByEmbedding Examples.coerce (mkDb [Examples.empWide] []) "[0,0]"
  <> Some Examples.empWide.
Proof.
  assert (Hlen : List.length [5; 5]%float <> List.length [0; 0; 0]%float)
    by (simpl; lia).
  assert (Hlen0 : List.length [0; 0]%float <> List.length [0; 0; 0]%float)
    by (simpl; lia).
  split; [| split].
  - exact (proj1 (C9_unequal_length_is_infinite _ _ Hlen)).
  - exact (proj1 (proj2 (C9_unequal_length_is_infinite _ _ Hlen))).
  - apply (proj2 (proj2 (proj2 (C9_unequal_length_is_infinite _ _ Hlen0)))
             Examples.coerce (mkDb [Examples.empWide] []) "[0,0]" Examples.empWide);
      vm_compute; reflexivity.
Defined.

Lemma sumSquares_diag a n : forall i,
  Forall (fun x => is_finite x = true) a ->
  i + n <= List.length a ->
  Storage.sumSquares a a i n 0%float = 0%float.
Proof.
  induction n as [|n IH]; intros i Hfin Hlen; [reflexivity |].
  simpl. unfold Storage.operand.
  destruct (nth_error a i) as [x|] eqn:Hx.
  - rewrite Num.sub_diag.
    + apply IH; [exact Hfin | lia].
    + rewrite Forall_forall in Hfin. apply Hfin. apply (nth_error_In _ _ Hx).
  - apply nth_error_None in Hx. lia.
Qed.

(** A vector of finite numbers is at distance zero of itself. *)
Lemma euclideanDistance_diag a :
  Forall (fun x => is_finite x = true) a ->
  Storage.euclideanDistance a a = 0%float.
Proof.
  intros Hfin. unfold Storage.euclideanDistance.
  rewrite Nat.eqb_refl. simpl.
  rewrite sumSquares_diag by (auto; lia). reflexivity.
Qed.

Lemma recognize_confidence db photo env e att ty c msg db' :
  Routes.recognize db photo env = (Routes.Recognized e att ty c msg, db') ->
  c = Routes.confidence env.
Proof.
  unfold Routes.recognize.
  destruct (negb (JS.truthy photo)); [discriminate |].
  destruct (Nat.eqb _ 0); [discriminate |].
  destruct (Routes.matchedEmployee db env) as [matched|]; [| discriminate].
  destruct (Storage.getAttendanceByEmployee db (Employee.id matched) (Routes.today env))
    as [existing|].
  - destruct (negb (JS.truthy (Attendance.checkOut existing))); [| discriminate].
    destruct (Storage.updateAttendance _ _ _) as [attendance db1].
    intros [= _ _ _ <- _ _]. reflexivity.
  - destruct (Storage.createAttendance _ _ _) as [[attendance db1]|]; [| discriminate].
    intros [= _ _ _ <- _ _]. reflexivity.
Qed.

(** C3, corrected.  The confidence that a recognition reports is
    [0.85 + 0.14 * r] for the second random draw [r] of the request, whatever
    the distances are; and for a probe of finite numbers that is the template
    of an enrolled employee, the distance to that template is zero and
    [getEmployeeByEmbedding] returns an employee at distance zero. *)
Theorem C3_confidence_is_drawn :
  (forall db photo env e att ty c msg db',
     Routes.recognize db photo env = (Routes.Recognized e att ty c msg, db') ->
     c = (0.85 + Routes.random2 env * 0.14)%float) /\
  (forall coerce db embedding target e,
     Storage.parseEmbedding coerce (Some embedding) = Some target ->
     Forall (fun x => is_finite x = true) target ->
     In e (employees db) ->
     Storage.parseEmbedding coerce (Employee.faceEmbedding e) = Some target ->
     Spec.distanceTo coerce target e = Some 0%float /\
     exists e' d',
       Storage.getEmployeeByEmbedding coerce db embedding = Some e' /\
       Spec.distanceTo coerce target e' = Some d' /\
       (d' =? 0)%float = true).
Proof.
  split.
  - intros db photo env e att ty c msg db' H.
    apply (recognize_confidence _ _ _ _ _ _ _ _ _ H).
  - intros coerce db embedding target e Hparse Hfin Hin He.
    assert (Hd : Spec.distanceTo coerce target e = Some 0%float).
    { unfold Spec.distanceTo. rewrite He. simpl.
      rewrite (euclideanDistance_diag _ Hfin). reflexivity. }
    split; [exact Hd |].
    destruct (Storage.getEmployeeByEmbedding coerce db embedding) as [e'|] eqn:Hres.
    + destruct (getEmployeeByEmbedding_best _ _ _ _ Hres)
        as (target' & d' & Hparse' & _ & Hd' & Hle & Hmin).
      rewrite Hparse in Hparse'. injection Hparse' as <-.
      exists e', d'. split; [reflexivity |]. split; [exact Hd' |].
      pose proof (Num.leb_not_nan _ _ Hle) as Hnan.
      apply Num.leb_antisym.
      * apply Num.leb_total; [reflexivity | exact Hnan |].
        apply (Hmin e 0%float Hin Hd).
      * apply Num.leb_total; [exact Hnan | reflexivity |].
        destruct (distanceTo_parse _ _ _ _ Hd') as (emb' & _ & ->).
        apply euclideanDistance_nonneg.
    + pose proof (getEmployeeByEmbedding_none _ _ _ _ Hparse Hres e 0%float Hin Hd) as Hle.
      vm_compute in Hle. discriminate.
Qed.

Lemma C3_witness :
  Routes.confidence Examples.lateMorning = (0.85 + 0.5 * 0.14)%float /\
  Spec.distanceTo Examples.coerce [0; 0]%float Examples.empA = Some 0%float /\
  exists e' d',
    Storage.getEmployeeByEmbedding Examples.coerce Examples.dbAB "[0,0]" = Some e' /\
    Spec.distanceTo Examples.coerce [0; 0]%float e' = Some d' /\
    (d' =? 0)%float = true.
Proof.
  split.
  - exact (proj1 C3_confidence_is_drawn Examples.dbAB Examples.photo Examples.lateMorning
             Examples.empA (Some (Spec.checkInRow Examples.empA Examples.lateMorning))
             Routes.check_in (Routes.confidence Examples.lateMorning)
             "Entrada registrada a las 09:01"
             (mkDb (employees Examples.dbAB)
                [Spec.checkInRow Examples.empA Examples.lateMorning])
             eq_refl).
  - apply (proj2 C3_confidence_is_drawn Examples.coerce Examples.dbAB "[0,0]"
             [0; 0]%float Examples.empA).
    + vm_compute. reflexivity.
    + repeat constructor.
    + left. reflexivity.
    + vm_compute. reflexivity.
Defined.

(** Against C3 as specified: the employee whose template is [[0,0]] is
    recognised with confidence 0.85, where the specification has the
    confidence of a distance of zero, which is one. *)
Lemma C3_counterexample :
  fst (Routes.recognize Examples.dbAB Examples.photo Examples.morning) =
  Routes.Recognized Examples.empA
    (Some (Spec.checkInRow Examples.empA Examples.morning))
    Routes.check_in 0.85%float "Entrada registrada a las 08:45" /\
  Spec.distanceTo Examples.coerce [0; 0]%float Examples.empA = Some 0%float /\
  Spec.confidenceOf 0 Storage.THRESHOLD = 1%float /\
  (0.85 =? 1)%float = false.
Proof.
  repeat split; vm_compute; reflexivity.
Qed.

(** ** The attendance rows *)

Lemma find_app_none {A} (f : A -> bool) l1 l2 :
  find f l1 = None -> find f (l1 ++ l2)%list = find f l2.
Proof.
  induction l1 as [|x l1 IH]; simpl; [reflexivity |].
  destruct (f x); [discriminate | exact IH].
Qed.

Lemma createAttendance_fresh db id a :
  Storage.attendanceById db id = None ->
  Storage.createAttendance db id a =
  Resolved (Attendance.row id a,
            mkDb (employees db) (attendanceRecords db ++ [Attendance.row id a])).
Proof.
  intros Hfresh. unfold Storage.createAttendance. rewrite Hfresh.
  unfold Storage.attendanceById in *. simpl.
  rewrite (find_app_none _ _ _ Hfresh). simpl.
  rewrite String.eqb_refl. reflexivity.
Qed.

Lemma createAttendance_resolved db id a record db' :
  Storage.createAttendance db id a = Resolved (record, db') ->
  Storage.attendanceById db id = None /\
  db' = mkDb (employees db) (attendanceRecords db ++ [Attendance.row id a]).
Proof.
  intros H.
  destruct (Storage.attendanceById db id) as [r|] eqn:Hid.
  - unfold Storage.createAttendance in H. rewrite Hid in H. discriminate.
  - rewrite (createAttendance_fresh _ _ _ Hid) in H. injection H as _ <-.
    split; reflexivity.
Qed.

Lemma updateAttendance_checkOut db id time :
  snd (Storage.updateAttendance db id
         (Attendance.mkPartial None None None (Some (Some time)) None None)) =
  mkDb (employees db) (Spec.checkedOut id time (attendanceRecords db)).
Proof. reflexivity. Qed.

Lemma matchedEmployee_enrolled db env e :
  Routes.matchedEmployee db env = Some e ->
  Nat.eqb (List.length (Routes.employeesWithEmbedding db)) 0 = false.
Proof.
  unfold Routes.matchedEmployee, JS.index.
  destruct (Routes.employeesWithEmbedding db); [| reflexivity].
  destruct (Routes.randomIndex db env) as [z|]; [| discriminate].
  destruct (z <? 0)%Z; [discriminate |].
  destruct (Z.to_nat z); discriminate.
Qed.

(** The comparison of the clock with ["09:00"] is the comparison of the
    minutes of the day with nine hours. *)
Lemma late_after_nine h m :
  h < 24 -> m < 60 ->
  JS.gt (Clock.hhmm h m) "09:00" = Nat.ltb (9 * 60) (Clock.minutes h m).
Proof.
  intros Hh Hm.
  assert (Hall : forallb (fun h => forallb (fun m =>
            Bool.eqb (JS.gt (Clock.hhmm h m) "09:00") (Nat.ltb (9 * 60) (Clock.minutes h m)))
            (seq 0 60)) (seq 0 24) = true) by (vm_compute; reflexivity).
  rewrite forallb_forall in Hall.
  assert (Hinh : In h (seq 0 24)) by (apply in_seq; lia).
  specialize (Hall h Hinh). rewrite forallb_forall in Hall.
  assert (Hinm : In m (seq 0 60)) by (apply in_seq; lia).
  specialize (Hall m Hinm). apply Bool.eqb_prop in Hall. exact Hall.
Qed.

Lemma lookup_after_check_in db e env :
  Storage.getAttendanceByEmployee db (Employee.id e) (Routes.today env) = None ->
  Storage.getAttendanceByEmployee
    (mkDb (employees db) (attendanceRecords db ++ [Spec.checkInRow e env]))
    (Employee.id e) (Routes.today env) = Some (Spec.checkInRow e env).
Proof.
  unfold Storage.getAttendanceByEmployee. simpl. intros Hnone.
  rewrite (find_app_none _ _ _ Hnone). simpl.
  rewrite !String.eqb_refl. reflexivity.
Qed.

Lemma lookup_after_check_out db employeeId date r time :
  Storage.getAttendanceByEmployee db employeeId date = Some r ->
  Storage.getAttendanceByEmployee
    (mkDb (employees db) (Spec.checkedOut (Attendance.id r) time (attendanceRecords db)))
    employeeId date = Some (Spec.withCheckOut time r).
Proof.
  unfold Storage.getAttendanceByEmployee. simpl.
  induction (attendanceRecords db) as [|x rest IH]; simpl; [discriminate |].
  destruct (String.eqb (Attendance.employeeId x) employeeId
            && String.eqb (Attendance.date x) date) eqn:Hkey.
  - intros [= ->]. rewrite String.eqb_refl. simpl. rewrite Hkey. reflexivity.
  - intros Hrest.
    destruct (String.eqb (Attendance.id x) (Attendance.id r)); simpl; rewrite Hkey;
      apply IH; exact Hrest.
Qed.

(** C2. A scan that matches an employee with no row for the day creates
    the row, with the time of the scan as check-in and the status late
    exactly when the time of the day is after nine, present otherwise, and
    answers a check-in: the row is then the row of the day of the employee.
    A scan that matches an employee whose row of the day has no check-out
    sets the check-out of that row to the time of the scan and answers a
    check-out: the row of the day has then its check-out. *)
Theorem C2_scan_state_machine db photo env e :
  JS.truthy photo = true ->
  Routes.matchedEmployee db env = Some e ->
  (Storage.getAttendanceByEmployee db (Employee.id e) (Routes.today env) = None ->
   Storage.attendanceById db (Routes.uuid env) = None ->
   Routes.recognize db photo env =
   (Routes.Recognized e (Some (Spec.checkInRow e env)) Routes.check_in (Routes.confidence env)
      ("Entrada registrada a las " ++ Routes.currentTime env),
    mkDb (employees db) (attendanceRecords db ++ [Spec.checkInRow e env])) /\
   Storage.getAttendanceByEmployee (snd (Routes.recognize db photo env))
     (Employee.id e) (Routes.today env) = Some (Spec.checkInRow e env)) /\
  (forall r,
     Storage.getAttendanceByEmployee db (Employee.id e) (Routes.today env) = Some r ->
     JS.truthy (Attendance.checkOut r) = false ->
     (exists attendance,
        Routes.recognize db photo env =
        (Routes.Recognized e attendance Routes.check_out (Routes.confidence env)
           ("Salida registrada a las " ++ Routes.currentTime env),
         mkDb (employees db)
              (Spec.checkedOut (Attendance.id r) (Routes.currentTime env)
                 (attendanceRecords db)))) /\
     Storage.getAttendanceByEmployee (snd (Routes.recognize db photo env))
       (Employee.id e) (Routes.today env) =
     Some (Spec.withCheckOut (Routes.currentTime env) r)) /\
  (forall h m, h < 24 -> m < 60 -> Routes.currentTime env = Clock.hhmm h m ->
     Attendance.checkIn (Spec.checkInRow e env) = Some (Clock.hhmm h m) /\
     Attendance.checkOut (Spec.checkInRow e env) = None /\
     Attendance.status (Spec.checkInRow e env) =
       (if Nat.ltb (9 * 60) (Clock.minutes h m) then "late" else "present")).
Proof.
  intros Hphoto Hmatch.
  pose proof (matchedEmployee_enrolled _ _ _ Hmatch) as Hsome.
  split; [| split].
  - intros Hnone Hfresh.
    assert (Hrun : Routes.recognize db photo env =
              (Routes.Recognized e (Some (Spec.checkInRow e env)) Routes.check_in
                 (Routes.confidence env)
                 ("Entrada registrada a las " ++ Routes.currentTime env),
               mkDb (employees db) (attendanceRecords db ++ [Spec.checkInRow e env]))).
    { unfold Routes.recognize.
      rewrite Hphoto, Hsome, Hmatch, Hnone. simpl.
      rewrite (createAttendance_fresh _ _ _ Hfresh). reflexivity. }
    split; [exact Hrun |].
    rewrite Hrun. simpl. apply lookup_after_check_in. exact Hnone.
  - intros r Hrow Hout.
    assert (Hrun : Routes.recognize db photo env =
              (Routes.Recognized e
                 (Storage.attendanceById
                    (mkDb (employees db)
                       (Spec.checkedOut (Attendance.id r) (Routes.currentTime env)
                          (attendanceRecords db)))
                    (Attendance.id r))
                 Routes.check_out (Routes.confidence env)
                 ("Salida registrada a las " ++ Routes.currentTime env),
               mkDb (employees db)
                 (Spec.checkedOut (Attendance.id r) (Routes.currentTime env)
                    (attendanceRecords db)))).
    { unfold Routes.recognize.
      rewrite Hphoto, Hsome, Hmatch, Hrow, Hout. reflexivity. }
    split; [eexists; exact Hrun |].
    rewrite Hrun. simpl. apply lookup_after_check_out. exact Hrow.
  - intros h m Hh Hm Htime. unfold Spec.checkInRow. simpl.
    rewrite Htime, (late_after_nine h m Hh Hm). repeat split.
Qed.

Lemma C2_witness :
  Routes.recognize Examples.dbAB Examples.photo Examples.lateMorning =
  (Routes.Recognized Examples.empA
     (Some (Attendance.mk "row-1" "a" "2024-03-04" (Some "09:01") None "late"
              (Some (Routes.confidence Examples.lateMorning))))
     Routes.check_in (Routes.confidence Examples.lateMorning)
     "Entrada registrada a las 09:01",
   mkDb (employees Examples.dbAB)
     [Attendance.mk "row-1" "a" "2024-03-04" (Some "09:01") None "late"
        (Some (Routes.confidence Examples.lateMorning))]) /\
  Storage.getAttendanceByEmployee
    (snd (Routes.recognize Examples.dbAB Examples.photo Examples.lateMorning))
    "a" "2024-03-04" =
  Some (Attendance.mk "row-1" "a" "2024-03-04" (Some "09:01") None "late"
          (Some (Routes.confidence Examples.lateMorning))).
Proof.
  exact (proj1 (C2_scan_state_machine Examples.dbAB Examples.photo Examples.lateMorning
                  Examples.empA eq_refl eq_refl) eq_refl eq_refl).
Defined.

Lemma checkedOut_sameButCheckOut id time records :
  Forall2 Spec.sameButCheckOut records (Spec.checkedOut id time records).
Proof.
  induction records as [|r rest IH]; simpl; constructor; [| exact IH].
  destruct (String.eqb (Attendance.id r) id); repeat split.
Qed.

(** C7. A scan that matches an employee whose row of the day has its
    check-out is refused and leaves the tables as they are; the scan that
    sets the check-out changes no other column of any row, and no employee. *)
Theorem C7_complete_day_is_final db photo env e r :
  JS.truthy photo = true ->
  Routes.matchedEmployee db env = Some e ->
  Storage.getAttendanceByEmployee db (Employee.id e) (Routes.today env) = Some r ->
  (JS.truthy (Attendance.checkOut r) = true ->
   Routes.recognize db photo env =
   (Routes.Refused (Employee.firstName e ++ " ya registro entrada y salida hoy"), db)) /\
  (JS.truthy (Attendance.checkOut r) = false ->
   employees (snd (Routes.recognize db photo env)) = employees db /\
   Forall2 Spec.sameButCheckOut
     (attendanceRecords db) (attendanceRecords (snd (Routes.recognize db photo env)))).
Proof.
  intros Hphoto Hmatch Hrow.
  pose proof (matchedEmployee_enrolled _ _ _ Hmatch) as Hsome.
  split; intros Hout; unfold Routes.recognize;
    rewrite Hphoto, Hsome, Hmatch, Hrow, Hout; simpl.
  - reflexivity.
  - split; [reflexivity |]. apply checkedOut_sameButCheckOut.
Qed.

Lemma C7_witness :
  Routes.recognize Examples.dbComplete Examples.photo Examples.night =
  (Routes.Refused "Ana ya registro entrada y salida hoy", Examples.dbComplete) /\
  Forall2 Spec.sameButCheckOut
    (attendanceRecords Examples.dbCheckedIn)
    (attendanceRecords (snd (Routes.recognize Examples.dbCheckedIn Examples.photo Examples.evening))).
Proof.
  split.
  - apply (proj1 (C7_complete_day_is_final Examples.dbComplete Examples.photo Examples.night
                    Examples.empA
                    (Attendance.mk "row-1" "a" "2024-03-04" (Some "08:45") (Some "17:30")
                       "present" (Some 0.85%float))
                    eq_refl eq_refl eq_refl)).
    reflexivity.
  - apply (proj2 (C7_complete_day_is_final Examples.dbCheckedIn Examples.photo Examples.evening
                    Examples.empA
                    (Attendance.mk "row-1" "a" "2024-03-04" (Some "08:45") None
                       "present" (Some 0.85%float))
                    eq_refl eq_refl eq_refl)).
    reflexivity.
Defined.

(** The day of an employee, scan after scan: present at 08:45, checked
    out at 17:30, refused at 21:00. *)
Example three_scans_of_a_day :
  fst (Routes.recognize Examples.dbAB Examples.photo Examples.morning) =
    Routes.Recognized Examples.empA
      (Some (Attendance.mk "row-1" "a" "2024-03-04" (Some "08:45") None "present"
               (Some 0.85%float)))
      Routes.check_in 0.85%float "Entrada registrada a las 08:45" /\
  fst (Routes.recognize Examples.dbCheckedIn Examples.photo Examples.evening) =
    Routes.Recognized Examples.empA
      (Some (Attendance.mk "row-1" "a" "2024-03-04" (Some "08:45") (Some "17:30") "present"
               (Some 0.85%float)))
      Routes.check_out (0.85 + 0.5 * 0.14)%float "Salida registrada a las 17:30" /\
  Routes.recognize Examples.dbComplete Examples.photo Examples.night =
    (Routes.Refused "Ana ya registro entrada y salida hoy", Examples.dbComplete).
Proof. repeat split; vm_compute; reflexivity. Qed.

Lemma getAttendanceByEmployee_none db employeeId date :
  Storage.getAttendanceByEmployee db employeeId date = None ->
  ~ In (employeeId, date) (map Attendance.key (attendanceRecords db)).
Proof.
  unfold Storage.getAttendanceByEmployee. intros Hnone Hin.
  apply in_map_iff in Hin. destruct Hin as (r & Hkey & Hr).
  pose proof (find_none _ _ Hnone r Hr) as Hf. simpl in Hf.
  unfold Attendance.key in Hkey. injection Hkey as He Hd.
  rewrite He, Hd, !String.eqb_refl in Hf. discriminate.
Qed.

Lemma checkedOut_keys id time records :
  map Attendance.key (Spec.checkedOut id time records) = map Attendance.key records.
Proof.
  induction records as [|r rest IH]; simpl; [reflexivity |].
  rewrite IH. destruct (String.eqb (Attendance.id r) id); reflexivity.
Qed.

(** The recognition route keeps at most one row per employee and date. *)
Lemma recognize_keeps_onePerDay db photo env :
  Spec.onePerDay (attendanceRecords db) ->
  Spec.onePerDay (attendanceRecords (snd (Routes.recognize db photo env))).
Proof.
  unfold Spec.onePerDay, Routes.recognize. intros Hinv.
  destruct (negb (JS.truthy photo)); [exact Hinv |].
  destruct (Nat.eqb _ 0); [exact Hinv |].
  destruct (Routes.matchedEmployee db env) as [matched|]; [| exact Hinv].
  destruct (Storage.getAttendanceByEmployee db (Employee.id matched) (Routes.today env))
    as [existing|] eqn:Hrow.
  - destruct (negb (JS.truthy (Attendance.checkOut existing))); [| exact Hinv].
    destruct (Storage.updateAttendance _ _ _) as [attendance db1] eqn:Hupd.
    pose proof (updateAttendance_checkOut db (Attendance.id existing) (Routes.currentTime env))
      as Hdb.
    rewrite Hupd in Hdb. simpl in Hdb. subst db1. simpl.
    rewrite checkedOut_keys. exact Hinv.
  - destruct (Storage.createAttendance _ _ _) as [[attendance db1]|] eqn:Hnew; [| exact Hinv].
    apply createAttendance_resolved in Hnew. destruct Hnew as [_ ->]. simpl.
    rewrite map_app. simpl.
    apply NoDup_app; [exact Hinv | repeat constructor; intros [] |].
    intros k Hk [<- | []].
    apply (getAttendanceByEmployee_none _ _ _ Hrow Hk).
Qed.

(** C5, which [POST /api/attendance] breaks.  The route inserts
    the row of a valid request without looking for a row of the employee and
    the date: the same request sent twice leaves two rows for one employee
    and one date, where the recognition route looks the row up before it
    creates one. *)
Theorem C5_direct_creation_duplicates_day :
  let db1 := snd (Routes.postAttendance Examples.dbAB (Some Examples.manualEntry) "m1") in
  let db2 := snd (Routes.postAttendance db1 (Some Examples.manualEntry) "m2") in
  Spec.onePerDay (attendanceRecords Examples.dbAB) /\
  Spec.onePerDay (attendanceRecords db1) /\
  fst (Routes.postAttendance db1 (Some Examples.manualEntry) "m2") =
    Routes.Created (Attendance.row "m2" Examples.manualEntry) /\
  attendanceRecords db2 =
    [Attendance.row "m1" Examples.manualEntry; Attendance.row "m2" Examples.manualEntry] /\
  Attendance.key (Attendance.row "m1" Examples.manualEntry) =
    Attendance.key (Attendance.row "m2" Examples.manualEntry) /\
  ~ Spec.onePerDay (attendanceRecords db2).
Proof.
  simpl. unfold Spec.onePerDay. repeat split.
  - constructor.
  - vm_compute. repeat constructor. intros [].
  - vm_compute. intros H. apply NoDup_cons_iff in H. destruct H as [H _].
    apply H. left. reflexivity.
Qed.

(** ** The statistics *)

Section StringMap.

Context {V : Type}.
Implicit Types (m : list (string * V)) (k : string) (v : V).

Local Open Scope list_scope.

Lemma mapSet_in m k v e :
  In e (Storage.mapSet k v m) -> In e m \/ (snd e = v /\ fst e = k).
Proof.
  induction m as [|[k' v'] m IH]; simpl.
  - intros [<- | []]. right. split; reflexivity.
  - destruct (String.eqb k' k) eqn:Hk; simpl.
    + intros [<- | H]; [| left; right; exact H].
      right. apply String.eqb_eq in Hk. split; [reflexivity | exact Hk].
    + intros [<- | H]; [left; left; reflexivity |].
      destruct (IH H) as [H1 | H1]; [left; right; exact H1 | right; exact H1].
Qed.

Lemma mapSet_keys m k v :
  NoDup (map fst m) -> NoDup (map fst (Storage.mapSet k v m)).
Proof.
  induction m as [|[k' v'] m IH]; simpl; intros Hm.
  - repeat constructor. intros [].
  - apply NoDup_cons_iff in Hm. destruct Hm as [Hk' Hm].
    destruct (String.eqb k' k) eqn:Hk; simpl.
    + constructor; assumption.
    + constructor; [| apply IH; exact Hm].
      intros Hin. apply in_map_iff in Hin. destruct Hin as (e & He & Hin).
      destruct (mapSet_in _ _ _ _ Hin) as [H | [_ H]].
      * apply Hk'. rewrite <- He. apply in_map. exact H.
      * rewrite He in H. subst k. rewrite String.eqb_refl in Hk. discriminate.
Qed.

Lemma mapGet_none m k :
  Storage.mapGet k m = None -> forall e, In e m -> String.eqb (fst e) k = false.
Proof.
  induction m as [|[k' v'] m IH]; simpl; intros Hget e; [intros [] |].
  destruct (String.eqb k' k) eqn:Hk; [discriminate |].
  intros [<- | He]; [exact Hk | apply (IH Hget e He)].
Qed.

Lemma mapGet_some m k v :
  NoDup (map fst m) -> Storage.mapGet k m = Some v ->
  forall e, In e m -> String.eqb (fst e) k = true -> snd e = v.
Proof.
  induction m as [|[k' v'] m IH]; simpl; intros Hm Hget e; [intros [] |].
  apply NoDup_cons_iff in Hm. destruct Hm as [Hk' Hm].
  destruct (String.eqb k' k) eqn:Hk.
  - injection Hget as <-. intros [<- | He] Hek; [reflexivity |].
    exfalso. apply Hk'. apply String.eqb_eq in Hk, Hek. rewrite Hk, <- Hek.
    apply in_map. exact He.
  - intros [<- | He] Hek; [simpl in Hek; rewrite Hk in Hek; discriminate |].
    apply (IH Hm Hget e He Hek).
Qed.

Lemma mapSet_map m k v :
  NoDup (map fst m) -> Storage.mapGet k m <> None ->
  Storage.mapSet k v m = map (fun e => if String.eqb (fst e) k then (fst e, v) else e) m.
Proof.
  induction m as [|[k' v'] m IH]; simpl; intros Hm Hget; [contradiction |].
  apply NoDup_cons_iff in Hm. destruct Hm as [Hk' Hm].
  destruct (String.eqb k' k) eqn:Hk.
  - f_equal. symmetry. rewrite <- (map_id m) at 2. apply map_ext_in.
    intros e He. destruct (String.eqb (fst e) k) eqn:Hek; [| reflexivity].
    exfalso. apply Hk'. apply String.eqb_eq in Hk, Hek. rewrite Hk, <- Hek.
    apply in_map. exact He.
  - f_equal. apply IH; assumption.
Qed.

Lemma insertByDate_in (e x : string * V) l :
  In x (Storage.insertByDate e l) <-> x = e \/ In x l.
Proof.
  induction l as [|e' l IH]; simpl.
  - split; intros [H | H]; auto.
  - destruct (String.leb (fst e) (fst e')); simpl.
    + split; intros [H | H]; auto.
    + rewrite IH. split; intros H; intuition auto.
Qed.

Lemma sortByDate_in (x : string * V) l : In x (Storage.sortByDate l) <-> In x l.
Proof.
  unfold Storage.sortByDate.
  induction l as [|e l IH]; simpl; [reflexivity |].
  rewrite insertByDate_in, IH. split; intros [H | H]; auto.
Qed.

End StringMap.

Lemma tally_map m r :
  NoDup (map fst m) ->
  Storage.tally m r = map (fun e => (fst e, Spec.counted (fst e) (snd e) r)) m.
Proof.
  intros Hm. unfold Storage.tally, Spec.counted.
  destruct (Storage.mapGet (Attendance.date r) m) as [stats|] eqn:Hget.
  - assert (Hsome : Storage.mapGet (Attendance.date r) m <> None) by (rewrite Hget; discriminate).
    destruct (Storage.isPresent r); [| destruct (Storage.isLate r)].
    + rewrite (mapSet_map _ _ _ Hm Hsome). apply map_ext_in. intros e He.
      destruct (String.eqb (fst e) (Attendance.date r)) eqn:Hek.
      * rewrite (mapGet_some _ _ _ Hm Hget e He Hek). reflexivity.
      * destruct e; reflexivity.
    + rewrite (mapSet_map _ _ _ Hm Hsome). apply map_ext_in. intros e He.
      destruct (String.eqb (fst e) (Attendance.date r)) eqn:Hek.
      * rewrite (mapGet_some _ _ _ Hm Hget e He Hek). reflexivity.
      * destruct e; reflexivity.
    + rewrite <- (map_id m) at 1. apply map_ext_in. intros e He.
      destruct (String.eqb (fst e) (Attendance.date r)); destruct e; reflexivity.
  - rewrite <- (map_id m) at 1. apply map_ext_in. intros e He.
    rewrite (mapGet_none _ _ Hget e He). destruct e; reflexivity.
Qed.

Lemma fold_tally rs : forall m,
  NoDup (map fst m) ->
  fold_left Storage.tally rs m =
  map (fun e => (fst e, fold_left (Spec.counted (fst e)) rs (snd e))) m.
Proof.
  induction rs as [|r rs IH]; intros m Hm; simpl.
  - rewrite <- (map_id m) at 1. apply map_ext. intros []; reflexivity.
  - rewrite (tally_map _ _ Hm), IH.
    + rewrite map_map. reflexivity.
    + rewrite map_map. simpl. exact Hm.
Qed.

Lemma counted_absent date rs : forall stats,
  absent (fold_left (Spec.counted date) rs stats) =
  (absent stats -
   Storage.countIf Spec.attended (filter (fun r => String.eqb date (Attendance.date r)) rs))%Z.
Proof.
  unfold Storage.countIf.
  induction rs as [|r rs IH]; intros stats; simpl; [lia |].
  rewrite IH. unfold Spec.counted, Spec.attended.
  destruct (String.eqb date (Attendance.date r)); simpl; [| reflexivity].
  destruct (Storage.isPresent r); simpl; [lia |].
  destruct (Storage.isLate r); simpl; lia.
Qed.

Lemma weekly_init days v : forall m : list (string * DayStats),
  NoDup (map fst m) -> (forall e, In e m -> snd e = v) ->
  NoDup (map fst (fold_left (fun m dateStr => Storage.mapSet dateStr v m) days m)) /\
  (forall e, In e (fold_left (fun m dateStr => Storage.mapSet dateStr v m) days m) -> snd e = v).
Proof.
  induction days as [|d days IH]; intros m Hm Hv; simpl; [split; assumption |].
  apply IH.
  - apply mapSet_keys. exact Hm.
  - intros e He. destruct (mapSet_in _ _ _ _ He) as [H | [H _]]; [apply Hv; exact H | exact H].
Qed.

(** The entry of a date in the weekly statistics counts as absent every
    employee but one per row of the date that is present or late. *)
Lemma getWeeklyStats_absent days db startDate endDate date stats :
  In (date, stats) (Storage.getWeeklyStats days db startDate endDate) ->
  absent stats =
  (Z.of_nat (List.length (employees db)) -
   Storage.countIf Spec.attended (Spec.rowsBetween db startDate endDate date))%Z.
Proof.
  unfold Storage.getWeeklyStats, Spec.rowsBetween. intros Hin.
  apply (proj1 (sortByDate_in _ _)) in Hin.
  destruct (weekly_init days (mkDayStats 0 0 (Z.of_nat (List.length (employees db)))) []
              (NoDup_nil _) (fun e (H : In e []) => match H with end)) as [Hkeys Hvals].
  rewrite (fold_tally _ _ Hkeys) in Hin.
  apply in_map_iff in Hin. destruct Hin as (e & He & Hin).
  injection He as <- <-.
  rewrite counted_absent, (Hvals e Hin). reflexivity.
Qed.

Lemma getDashboardStats_absences db date :
  absences (Storage.getDashboardStats db date) =
  (Z.of_nat (List.length (employees db)) -
   Storage.countIf Spec.attended (Spec.rowsOf db date))%Z.
Proof. reflexivity. Qed.

Lemma filter_all {A} (f : A -> bool) l :
  (forall x, In x l -> f x = true) -> filter f l = l.
Proof.
  induction l as [|x l IH]; simpl; intros H; [reflexivity |].
  rewrite (H x (or_introl eq_refl)), IH; [reflexivity |].
  intros y Hy. apply H. right. exact Hy.
Qed.

Lemma NoDup_map_filter {A B} (g : A -> B) (f : A -> bool) l :
  NoDup (map g l) -> NoDup (map g (filter f l)).
Proof.
  induction l as [|x l IH]; simpl; intros H; [constructor |].
  apply NoDup_cons_iff in H. destruct H as [Hx Hl].
  destruct (f x); simpl; [| apply IH; exact Hl].
  constructor; [| apply IH; exact Hl].
  intros Hin. apply Hx. apply in_map_iff in Hin. destruct Hin as (y & Hy & Hin).
  apply filter_In in Hin. rewrite <- Hy. apply in_map. apply Hin.
Qed.

Lemma hasRow_iff db date e :
  Spec.hasRow db date e = true <->
  In (Employee.id e) (map Attendance.employeeId (Spec.rowsOf db date)).
Proof.
  unfold Spec.hasRow. rewrite existsb_exists, in_map_iff.
  split; intros (r & H1 & H2); exists r.
  - apply String.eqb_eq in H2. split; assumption.
  - split; [exact H2 | apply String.eqb_eq; exact H1].
Qed.

(** On a day that the scan flow wrote, the employees with a row are as
    many as the rows. *)
Lemma scannedDay_rows db date :
  Spec.scannedDay db date ->
  List.length (filter (Spec.hasRow db date) (employees db)) =
  List.length (Spec.rowsOf db date).
Proof.
  intros (Hids & Hkeys & Hrows).
  rewrite <- (length_map Employee.id (filter _ _)).
  rewrite <- (length_map Attendance.employeeId (Spec.rowsOf db date)).
  apply Nat.le_antisymm.
  - apply NoDup_incl_length; [apply NoDup_map_filter; exact Hids |].
    intros k Hk. apply in_map_iff in Hk. destruct Hk as (e & <- & He).
    apply filter_In in He. apply hasRow_iff. apply He.
  - apply NoDup_incl_length; [exact Hkeys |].
    intros k Hk. pose proof Hk as Hk'.
    apply in_map_iff in Hk. destruct Hk as (r & <- & Hr).
    destruct (Hrows r Hr) as [_ Hemp].
    apply in_map_iff in Hemp. destruct Hemp as (e & He & Hin).
    rewrite <- He. apply in_map. apply filter_In. split; [exact Hin |].
    apply hasRow_iff. rewrite He. exact Hk'.
Qed.

Lemma scannedDay_absences db date :
  Spec.scannedDay db date ->
  absences (Storage.getDashboardStats db date) =
  Z.of_nat (List.length (Spec.withoutRow db date)).
Proof.
  intros Hday. rewrite getDashboardStats_absences.
  pose proof (scannedDay_rows _ _ Hday) as Hrows.
  pose proof (filter_length (Spec.hasRow db date) (employees db)) as Hsplit.
  destruct Hday as (_ & _ & Hall).
  unfold Storage.countIf, Spec.withoutRow.
  rewrite (filter_all Spec.attended (Spec.rowsOf db date)) by (intros r Hr; apply (Hall r Hr)).
  lia.
Qed.

Lemma rowsBetween_rowsOf db startDate endDate date :
  String.leb startDate date = true -> String.leb date endDate = true ->
  Spec.rowsBetween db startDate endDate date = Spec.rowsOf db date.
Proof.
  intros Hs He. unfold Spec.rowsBetween, Spec.rowsOf.
  induction (attendanceRecords db) as [|r l IH]; simpl; [reflexivity |].
  destruct (String.eqb (Attendance.date r) date) eqn:Hd.
  - apply String.eqb_eq in Hd. rewrite Hd, Hs, He. simpl.
    rewrite Hd, String.eqb_refl, IH. reflexivity.
  - destruct (_ && _); simpl; [| exact IH].
    rewrite String.eqb_sym, Hd. exact IH.
Qed.

Lemma checkedOut_statuses id time records :
  map Attendance.status (Spec.checkedOut id time records) = map Attendance.status records.
Proof.
  induction records as [|r rest IH]; simpl; [reflexivity |].
  rewrite IH. destruct (String.eqb (Attendance.id r) id); reflexivity.
Qed.

(** A scan stores no status but late or present, on the row it creates. *)
Lemma recognize_statuses db photo env :
  exists added,
    map Attendance.status (attendanceRecords (snd (Routes.recognize db photo env))) =
    (map Attendance.status (attendanceRecords db) ++ added)%list /\
    (added = [] \/ added = ["late"] \/ added = ["present"]).
Proof.
  unfold Routes.recognize.
  assert (Hsame : exists added,
            map Attendance.status (attendanceRecords db) =
            (map Attendance.status (attendanceRecords db) ++ added)%list /\
            (added = [] \/ added = ["late"] \/ added = ["present"])).
  { exists []. rewrite app_nil_r. split; [reflexivity | left; reflexivity]. }
  destruct (negb (JS.truthy photo)); [exact Hsame |].
  destruct (Nat.eqb _ 0); [exact Hsame |].
  destruct (Routes.matchedEmployee db env) as [matched|]; [| exact Hsame].
  destruct (Storage.getAttendanceByEmployee db (Employee.id matched) (Routes.today env))
    as [existing|] eqn:Hrow.
  - destruct (negb (JS.truthy (Attendance.checkOut existing))); [| exact Hsame].
    destruct (Storage.updateAttendance _ _ _) as [attendance db1] eqn:Hupd.
    pose proof (updateAttendance_checkOut db (Attendance.id existing) (Routes.currentTime env))
      as Hdb.
    rewrite Hupd in Hdb. simpl in Hdb. subst db1. simpl.
    rewrite checkedOut_statuses. exact Hsame.
  - destruct (Storage.createAttendance _ _ _) as [[attendance db1]|] eqn:Hnew; [| exact Hsame].
    apply createAttendance_resolved in Hnew. destruct Hnew as [_ ->]. simpl.
    rewrite map_app. simpl.
    destruct (JS.gt (Routes.currentTime env) "09:00"); eexists; split; try reflexivity; auto.
Qed.

(** C6, corrected.  A scan stores no status but late or present.
    The dashboard and the weekly statistics count as absences of a date the
    employees, less one per row of the date that is present or late.  On a
    day whose rows are those that scans wrote, this is the number of
    employees with no row for the date; and five employees with three rows
    of a date that are present or late give two absences. *)
Theorem C6_absences_are_derived :
  (forall db photo env, exists added,
     map Attendance.status (attendanceRecords (snd (Routes.recognize db photo env))) =
     (map Attendance.status (attendanceRecords db) ++ added)%list /\
     (added = [] \/ added = ["late"] \/ added = ["present"])) /\
  (forall db date,
     absences (Storage.getDashboardStats db date) =
     (Z.of_nat (List.length (employees db)) -
      Storage.countIf Spec.attended (Spec.rowsOf db date))%Z) /\
  (forall days db startDate endDate date stats,
     In (date, stats) (Storage.getWeeklyStats days db startDate endDate) ->
     absent stats =
     (Z.of_nat (List.length (employees db)) -
      Storage.countIf Spec.attended (Spec.rowsBetween db startDate endDate date))%Z /\
     (String.leb startDate date = true -> String.leb date endDate = true ->
      absent stats = absences (Storage.getDashboardStats db date))) /\
  (forall db date,
     Spec.scannedDay db date ->
     absences (Storage.getDashboardStats db date) =
     Z.of_nat (List.length (Spec.withoutRow db date))) /\
  (forall db date,
     List.length (employees db) = 5 ->
     List.length (Spec.rowsOf db date) = 3 ->
     (forall r, In r (Spec.rowsOf db date) -> Spec.attended r = true) ->
     absences (Storage.getDashboardStats db date) = 2%Z).
Proof.
  split; [exact recognize_statuses |].
  split; [exact getDashboardStats_absences |].
  split; [| split].
  - intros days db startDate endDate date stats Hin.
    pose proof (getWeeklyStats_absent _ _ _ _ _ _ Hin) as Habs.
    split; [exact Habs |].
    intros Hs He. rewrite Habs, getDashboardStats_absences.
    rewrite (rowsBetween_rowsOf _ _ _ _ Hs He). reflexivity.
  - exact scannedDay_absences.
  - intros db date Hemp Hrows Hall.
    rewrite getDashboardStats_absences. unfold Storage.countIf.
    rewrite (filter_all _ _ Hall), Hemp, Hrows. reflexivity.
Qed.

Lemma C6_witness :
  absences (Storage.getDashboardStats Examples.dbThreeScans "2024-03-04") = 2%Z /\
  absences (Storage.getDashboardStats Examples.dbThreeScans "2024-03-04") =
  Z.of_nat (List.length (Spec.withoutRow Examples.dbThreeScans "2024-03-04")).
Proof.
  split.
  - apply (proj2 (proj2 (proj2 (proj2 C6_absences_are_derived)))).
    + reflexivity.
    + reflexivity.
    + intros r [<- | [<- | [<- | []]]]; reflexivity.
  - apply (proj1 (proj2 (proj2 (proj2 C6_absences_are_derived)))).
    split; [| split].
    + vm_compute. repeat constructor; simpl; intuition discriminate.
    + vm_compute. repeat constructor; simpl; intuition discriminate.
    + intros r [<- | [<- | [<- | []]]]; vm_compute; auto 10.
Defined.

(** Against C6 as specified: five employees and three rows for the date,
    of which two employees have no row, and the dashboard and the weekly
    statistics count three absences, the row with the status absent being
    one of the three rows; and on the rows of [initializeDatabase], where
    every employee has a row, the dashboard counts one absence. *)
Lemma C6_counterexample :
  List.length (Spec.withoutRow Examples.dbSeed "2024-03-04") = 0 /\
  absences (Storage.getDashboardStats Examples.dbSeed "2024-03-04") = 1%Z /\
  List.length (employees Examples.dbThreeRows) = 5 /\
  List.length (Spec.rowsOf Examples.dbThreeRows "2024-03-04") = 3 /\
  List.length (Spec.withoutRow Examples.dbThreeRows "2024-03-04") = 2 /\
  absences (Storage.getDashboardStats Examples.dbThreeRows "2024-03-04") = 3%Z /\
  Storage.getWeeklyStats ["2024-03-04"] Examples.dbThreeRows "2024-03-04" "2024-03-04" =
  [("2024-03-04", mkDayStats 1 1 3)].
Proof.
  repeat split; vm_compute; reflexivity.
Qed.

(** ** [parseEmbedding] *)

Lemma parseEmbedding_not_array coerce text :
  (forall items, JS.JSON_parse text <> Some (JS.JArr items)) ->
  Storage.parseEmbedding coerce (Some text) = None.
Proof.
  intros Hnot. unfold Storage.parseEmbedding.
  destruct (negb (JS.truthy (Some text))); [reflexivity |].
  destruct (JS.JSON_parse text) as [[| | | | items |]|]; try reflexivity.
  exfalso. apply (Hnot items). reflexivity.
Qed.

Lemma parseEmbedding_fake coerce employeeId now :
  Storage.parseEmbedding coerce (Some (Routes.fakeEmbedding employeeId now)) = None.
Proof. reflexivity. Qed.

Lemma parseEmbedding_samples coerce f id :
  In f Seed.sampleEmployees ->
  Storage.parseEmbedding coerce (Employee.faceEmbedding (f id)) = None.
Proof.
  intros [<- | [<- | [<- | [<- | [<- | []]]]]]; reflexivity.
Qed.

(** C10. A stored embedding that is not the text of a JSON array -- such
    are the sample values of [initializeDatabase] and the strings that the
    enrolment route writes -- is read as [null] by [parseEmbedding]; an
    employee whose embedding is read as [null] is never returned by
    [getEmployeeByEmbedding]; and for a probe that is read as [null]
    [getEmployeeByEmbedding] returns [undefined]. *)
Theorem C10_unreadable_embeddings_are_skipped coerce :
  (forall text,
     (forall items, JS.JSON_parse text <> Some (JS.JArr items)) ->
     Storage.parseEmbedding coerce (Some text) = None) /\
  (forall f id, In f Seed.sampleEmployees ->
     Storage.parseEmbedding coerce (Employee.faceEmbedding (f id)) = None) /\
  (forall employeeId now,
     Storage.parseEmbedding coerce (Some (Routes.fakeEmbedding employeeId now)) = None) /\
  (forall db photo employeeId now e,
     In e (employees (snd (Routes.postFaceEmbedding db photo (Some employeeId) now))) ->
     JS.truthy photo = true -> JS.truthy (Some employeeId) = true ->
     Employee.id e = employeeId ->
     Storage.parseEmbedding coerce (Employee.faceEmbedding e) = None) /\
  (forall db embedding e,
     Storage.parseEmbedding coerce (Employee.faceEmbedding e) = None ->
     Storage.getEmployeeByEmbedding coerce db embedding <> Some e) /\
  (forall db embedding,
     Storage.parseEmbedding coerce (Some embedding) = None ->
     Storage.getEmployeeByEmbedding coerce db embedding = None).
Proof.
  split; [exact (parseEmbedding_not_array coerce) |].
  split; [exact (parseEmbedding_samples coerce) |].
  split; [exact (parseEmbedding_fake coerce) |].
  split; [| split].
  - intros db photo employeeId now e Hin Hphoto Hid Heid.
    unfold Routes.postFaceEmbedding in Hin. rewrite Hphoto, Hid in Hin. simpl in Hin.
    destruct (Storage.getEmployee db employeeId) as [found|] eqn:Hfound.
    + simpl in Hin. apply in_map_iff in Hin. destruct Hin as (e0 & He & _).
      destruct (String.eqb (Employee.id e0) employeeId) eqn:Hk.
      * subst e. reflexivity.
      * subst e0. rewrite Heid, String.eqb_refl in Hk. discriminate.
    + simpl in Hin. exfalso.
      unfold Storage.getEmployee in Hfound.
      pose proof (find_none _ _ Hfound e Hin) as Hno. simpl in Hno.
      rewrite Heid, String.eqb_refl in Hno. discriminate.
  - intros db embedding e Hnull Hres.
    destruct (getEmployeeByEmbedding_best _ _ _ _ Hres) as (target & d & _ & _ & Hd & _).
    unfold Spec.distanceTo in Hd. rewrite Hnull in Hd. discriminate.
  - intros db embedding Hnull. unfold Storage.getEmployeeByEmbedding.
    rewrite Hnull. reflexivity.
Qed.

Lemma C10_witness :
  Storage.parseEmbedding Examples.coerce (Some "{}") = None /\
  Storage.getEmployeeByEmbedding Examples.coerce Examples.dbSeed "sample_embedding_1" = None.
Proof.
  split.
  - apply (proj1 (C10_unreadable_embeddings_are_skipped Examples.coerce)).
    intros items. vm_compute. discriminate.
  - apply (proj2 (proj2 (proj2 (proj2 (proj2
             (C10_unreadable_embeddings_are_skipped Examples.coerce)))))).
    reflexivity.
Defined.
(** ** Further properties of [euclideanDistance] *)

Lemma binary_round_abs s s' m e :
  SFabs (binary_round prec emax s m e) = SFabs (binary_round prec emax s' m e).
Proof.
  unfold binary_round.
  destruct (shl_align m e _) as [mz ez].
  unfold binary_round_aux.
  destruct (shr_fexp prec emax (Z.pos mz) ez loc_Exact) as [mrs' e'].
  destruct (shr_fexp prec emax _ e' loc_Exact) as [mrs'' e''].
  destruct (shr_m mrs''); try reflexivity.
  destruct (e'' <=? emax - prec)%Z; reflexivity.
Qed.

Lemma binary_normalize_abs z e :
  SFabs (binary_normalize prec emax z e false) =
  SFabs (binary_normalize prec emax (- z) e false).
Proof.
  destruct z; simpl; [reflexivity | |]; apply binary_round_abs.
Qed.

Lemma SFsub_abs x y : SFabs (SF64sub x y) = SFabs (SF64sub y x).
Proof.
  unfold SF64sub, SFsub.
  destruct x as [[]|[]| |sx mx ex], y as [[]|[]| |sy my ey]; try reflexivity.
  rewrite (Z.min_comm ey ex).
  rewrite binary_normalize_abs. f_equal. f_equal. lia.
Qed.

Lemma SFmul_square x : SF64mul x x = SF64mul (SFabs x) (SFabs x).
Proof.
  unfold SF64mul, SFmul.
  destruct x as [[]|[]| |[] m e]; reflexivity.
Qed.

Lemma square_sub_sym (x y : float) : ((x - y) * (x - y) = (y - x) * (y - x))%float.
Proof.
  apply Prim2SF_inj. rewrite !mul_spec, !sub_spec.
  rewrite SFmul_square, (SFmul_square (SF64sub _ _)), SFsub_abs. reflexivity.
Qed.

Lemma sumSquares_sym a b n : forall i sum,
  Storage.sumSquares a b i n sum = Storage.sumSquares b a i n sum.
Proof.
  induction n as [|n IH]; intros i sum; simpl; [reflexivity |].
  rewrite square_sub_sym. apply IH.
Qed.

(** The distance is symmetric: from [a] to [b] it is the very number that
    it is from [b] to [a], rounding included. *)
Theorem euclideanDistance_symmetric a b :
  Storage.euclideanDistance a b = Storage.euclideanDistance b a.
Proof.
  unfold Storage.euclideanDistance.
  rewrite (Nat.eqb_sym (List.length b) (List.length a)).
  destruct (Nat.eqb (List.length a) (List.length b)) eqn:Hlen; simpl; [| reflexivity].
  apply Nat.eqb_eq in Hlen. rewrite <- Hlen, sumSquares_sym. reflexivity.
Qed.

(** The distance is never a negative number: it is NaN, or zero or
    more. *)
Theorem euclideanDistance_not_negative a b :
  is_nan (Storage.euclideanDistance a b) = true \/
  (0 <=? Storage.euclideanDistance a b)%float = true.
Proof.
  destruct (is_nan (Storage.euclideanDistance a b)) eqn:Hnan; [left; reflexivity |].
  right. apply Num.leb_total; [exact Hnan | reflexivity |].
  apply euclideanDistance_nonneg.
Qed.

(** ** Further properties of [getEmployeeByEmbedding] *)

(** A template within the threshold is never missed: when some employee
    is within the threshold of the probe, an employee is returned, and it is
    at least as near as that one. *)
Theorem getEmployeeByEmbedding_finds coerce db embedding target c dc :
  Storage.parseEmbedding coerce (Some embedding) = Some target ->
  In c (employees db) ->
  Spec.distanceTo coerce target c = Some dc ->
  (dc <=? Storage.THRESHOLD)%float = true ->
  exists e d,
    Storage.getEmployeeByEmbedding coerce db embedding = Some e /\
    Spec.distanceTo coerce target e = Some d /\
    (d <=? dc)%float = true.
Proof.
  intros Hparse Hc Hdc Hle.
  destruct (Storage.getEmployeeByEmbedding coerce db embedding) as [e|] eqn:Hres.
  - destruct (getEmployeeByEmbedding_best _ _ _ _ Hres)
      as (target' & d & Hparse' & _ & Hd & Hde & Hmin).
    rewrite Hparse in Hparse'. injection Hparse' as <-.
    exists e, d. split; [reflexivity |]. split; [exact Hd |].
    apply Num.leb_total.
    + apply (Num.leb_not_nan _ _ Hle).
    + apply (Num.leb_not_nan _ _ Hde).
    + apply (Hmin c dc Hc Hdc).
  - rewrite (getEmployeeByEmbedding_none _ _ _ _ Hparse Hres c dc Hc Hdc) in Hle.
    discriminate.
Qed.

Lemma getEmployeeByEmbedding_finds_witness :
  exists e d,
    Storage.getEmployeeByEmbedding Examples.coerce Examples.dbTie "[0,0]" = Some e /\
    Spec.distanceTo Examples.coerce [0; 0]%float e = Some d /\
    (d <=? 0.3)%float = true.
Proof.
  apply (getEmployeeByEmbedding_finds Examples.coerce Examples.dbTie "[0,0]"
           [0; 0]%float Examples.empRight 0.3%float).
  - vm_compute. reflexivity.
  - right. left. reflexivity.
  - vm_compute. reflexivity.
  - vm_compute. reflexivity.
Defined.

Lemma scan_within coerce target candidates : forall best,
  Storage.scanCandidates coerce target (filter (Spec.within coerce target) candidates) best =
  Storage.scanCandidates coerce target candidates best.
Proof.
  induction candidates as [|emp rest IH]; intros best; [reflexivity |].
  rewrite (scan_step coerce target emp rest). cbn [filter].
  unfold Spec.within at 1.
  destruct (Spec.distanceTo coerce target emp) as [dist|] eqn:Hd; [| apply IH].
  destruct (dist <=? Storage.THRESHOLD)%float eqn:Hle; cbn [andb]; [| apply IH].
  rewrite scan_step, Hd, Hle. cbn [andb].
  destruct best as [[e d]|]; [destruct (dist <? d)%float |]; apply IH.
Qed.

(** Only the employees within the threshold of the probe count: the
    result is the same with the other employees -- no embedding, an
    unreadable one, one of another length, one too far -- removed, whatever
    their place among the candidates. *)
Theorem getEmployeeByEmbedding_ignores_the_rest coerce db embedding target :
  Storage.parseEmbedding coerce (Some embedding) = Some target ->
  Storage.getEmployeeByEmbedding coerce (Spec.keeping (Spec.within coerce target) db) embedding =
  Storage.getEmployeeByEmbedding coerce db embedding.
Proof.
  intros Hparse. unfold Storage.getEmployeeByEmbedding. rewrite Hparse. simpl.
  rewrite scan_within. reflexivity.
Qed.

Lemma getEmployeeByEmbedding_ignores_the_rest_witness :
  Storage.getEmployeeByEmbedding Examples.coerce
    (Spec.keeping (Spec.within Examples.coerce [0.1; 0.1]%float) Examples.dbAB) "[0.1,0.1]" =
  Storage.getEmployeeByEmbedding Examples.coerce Examples.dbAB "[0.1,0.1]".
Proof.
  apply (getEmployeeByEmbedding_ignores_the_rest Examples.coerce Examples.dbAB "[0.1,0.1]"
           [0.1; 0.1]%float).
  vm_compute. reflexivity.
Defined.

(** ** Further properties of the recognition route *)

Lemma matchedEmployee_in db env e :
  Routes.matchedEmployee db env = Some e ->
  In e (employees db) /\ JS.truthy (Employee.faceEmbedding e) = true.
Proof.
  unfold Routes.matchedEmployee, JS.index.
  destruct (Routes.randomIndex db env) as [z|]; [| discriminate].
  destruct (z <? 0)%Z; [discriminate |].
  intros H. apply nth_error_In in H.
  unfold Routes.employeesWithEmbedding, Storage.getAllEmployees in H.
  apply filter_In in H. exact H.
Qed.

(** The three ways of a request of the recognition route: it writes
    nothing and answers no recognition; it appends the check-in row of the
    matched employee; it sets the check-out of the row of the day of the
    matched employee. *)
Lemma recognize_cases db photo env :
  (snd (Routes.recognize db photo env) = db /\
   forall e att ty c msg, fst (Routes.recognize db photo env) <> Routes.Recognized e att ty c msg) \/
  (exists e,
     Routes.matchedEmployee db env = Some e /\
     Storage.getAttendanceByEmployee db (Employee.id e) (Routes.today env) = None /\
     Storage.attendanceById db (Routes.uuid env) = None /\
     Routes.recognize db photo env =
     (Routes.Recognized e (Some (Spec.checkInRow e env)) Routes.check_in (Routes.confidence env)
        ("Entrada registrada a las " ++ Routes.currentTime env),
      mkDb (employees db) (attendanceRecords db ++ [Spec.checkInRow e env]))) \/
  (exists e r attendance,
     Routes.matchedEmployee db env = Some e /\
     Storage.getAttendanceByEmployee db (Employee.id e) (Routes.today env) = Some r /\
     JS.truthy (Attendance.checkOut r) = false /\
     Routes.recognize db photo env =
     (Routes.Recognized e attendance Routes.check_out (Routes.confidence env)
        ("Salida registrada a las " ++ Routes.currentTime env),
      mkDb (employees db)
           (Spec.checkedOut (Attendance.id r) (Routes.currentTime env) (attendanceRecords db)))).
Proof.
  unfold Routes.recognize.
  destruct (negb (JS.truthy photo)); [left; split; [reflexivity | discriminate] |].
  destruct (Nat.eqb _ 0); [left; split; [reflexivity | discriminate] |].
  destruct (Routes.matchedEmployee db env) as [e|] eqn:Hmatch;
    [| left; split; [reflexivity | discriminate]].
  destruct (Storage.getAttendanceByEmployee db (Employee.id e) (Routes.today env))
    as [r|] eqn:Hrow.
  - destruct (JS.truthy (Attendance.checkOut r)) eqn:Hout; simpl;
      [left; split; [reflexivity | discriminate] |].
    right. right. exists e, r. eexists. repeat split; try reflexivity; assumption.
  - destruct (Storage.createAttendance _ _ _) as [[attendance db1]|] eqn:Hnew;
      [| left; split; [reflexivity | discriminate]].
    right. left. exists e.
    destruct (createAttendance_resolved _ _ _ _ _ Hnew) as [Hfresh ->].
    rewrite (createAttendance_fresh _ _ _ Hfresh) in Hnew. injection Hnew as <-.
    repeat split; try reflexivity; assumption.
Qed.

Lemma checkedOut_length id time records :
  List.length (Spec.checkedOut id time records) = List.length records.
Proof. unfold Spec.checkedOut. apply length_map. Qed.

Lemma recognize_employees db photo env :
  employees (snd (Routes.recognize db photo env)) = employees db.
Proof.
  destruct (recognize_cases db photo env)
    as [[-> _] | [(e & _ & _ & _ & ->) | (e & r & attendance & _ & _ & _ & ->)]];
    reflexivity.
Qed.

(** A scan never touches the employees.  It leaves the attendance rows as
    they are unless it answers a recognition; a check-in appends one row,
    the row of the recognised employee for today, and a check-out keeps the
    number of rows. *)
Theorem recognize_writes_one_row_at_most db photo env :
  employees (snd (Routes.recognize db photo env)) = employees db /\
  ((forall e att ty c msg,
      fst (Routes.recognize db photo env) <> Routes.Recognized e att ty c msg) ->
   snd (Routes.recognize db photo env) = db) /\
  (forall e att c msg,
     fst (Routes.recognize db photo env) = Routes.Recognized e att Routes.check_in c msg ->
     exists row,
       attendanceRecords (snd (Routes.recognize db photo env)) =
       (attendanceRecords db ++ [row])%list /\
       att = Some row /\
       Attendance.employeeId row = Employee.id e /\
       Attendance.date row = Routes.today env) /\
  (forall e att c msg,
     fst (Routes.recognize db photo env) = Routes.Recognized e att Routes.check_out c msg ->
     List.length (attendanceRecords (snd (Routes.recognize db photo env))) =
     List.length (attendanceRecords db)).
Proof.
  destruct (recognize_cases db photo env)
    as [[Hsame Hnot] | [(e & _ & _ & _ & Hrun) | (e & r & attendance & _ & _ & _ & Hrun)]].
  - rewrite Hsame. split; [reflexivity |]. split; [reflexivity |].
    split; intros e att c msg H; exfalso; apply (Hnot _ _ _ _ _ H).
  - rewrite Hrun. simpl. split; [reflexivity |]. split; [| split].
    + intros Hnot. exfalso. apply (Hnot _ _ _ _ _ eq_refl).
    + intros e' att c msg [= <- <- _ _].
      exists (Spec.checkInRow e env). repeat split.
    + intros e' att c msg [=].
  - rewrite Hrun. simpl. split; [reflexivity |]. split; [| split].
    + intros Hnot. exfalso. apply (Hnot _ _ _ _ _ eq_refl).
    + intros e' att c msg [=].
    + intros e' att c msg _. apply checkedOut_length.
Qed.

(** The employee of a recognition is an employee of the table with a
    stored embedding: an employee without one is never recognised. *)
Theorem recognize_only_enrolled db photo env e att ty c msg :
  fst (Routes.recognize db photo env) = Routes.Recognized e att ty c msg ->
  In e (employees db) /\ JS.truthy (Employee.faceEmbedding e) = true.
Proof.
  destruct (recognize_cases db photo env)
    as [[_ Hnot] | [(e0 & Hmatch & _ & _ & Hrun) | (e0 & r & attendance & Hmatch & _ & _ & Hrun)]].
  - intros H. exfalso. apply (Hnot _ _ _ _ _ H).
  - rewrite Hrun. simpl. intros [= <- _ _ _ _]. apply (matchedEmployee_in _ _ _ Hmatch).
  - rewrite Hrun. simpl. intros [= <- _ _ _ _]. apply (matchedEmployee_in _ _ _ Hmatch).
Qed.

Lemma recognize_only_enrolled_witness :
  In Examples.empA (employees Examples.dbAB) /\
  JS.truthy (Employee.faceEmbedding Examples.empA) = true.
Proof.
  apply (recognize_only_enrolled Examples.dbAB Examples.photo Examples.morning Examples.empA
           (Some (Spec.checkInRow Examples.empA Examples.morning)) Routes.check_in
           (Routes.confidence Examples.morning) "Entrada registrada a las 08:45").
  reflexivity.
Defined.

(** ** The routes of the employees *)

Lemma find_not_in {A} (key : A -> string) (k : string) l :
  ~ In k (map key l) -> find (fun x => String.eqb (key x) k) l = None.
Proof.
  induction l as [|x l IH]; simpl; intros Hk; [reflexivity |].
  destruct (String.eqb (key x) k) eqn:Hx.
  - exfalso. apply Hk. left. apply String.eqb_eq. exact Hx.
  - apply IH. intros H. apply Hk. right. exact H.
Qed.

Lemma find_none_not_in {A} (key : A -> string) (k : string) l :
  find (fun x => String.eqb (key x) k) l = None -> ~ In k (map key l).
Proof.
  intros Hnone Hin. apply in_map_iff in Hin. destruct Hin as (x & Hx & Hin).
  pose proof (find_none _ _ Hnone x Hin) as Hf. simpl in Hf.
  rewrite Hx, String.eqb_refl in Hf. discriminate.
Qed.

Lemma find_last {A} (key : A -> string) (k : string) l x :
  find (fun y => String.eqb (key y) k) l = None -> key x = k ->
  find (fun y => String.eqb (key y) k) (l ++ [x]) = Some x.
Proof.
  intros Hnone Hx. rewrite (find_app_none _ _ _ Hnone). simpl.
  rewrite Hx, String.eqb_refl. reflexivity.
Qed.

Lemma createEmployee_resolved db id a employee db' :
  Storage.createEmployee db id a = Resolved (employee, db') ->
  Storage.getEmployee db id = None /\
  Storage.getEmployeeByEmail db (Employee.newEmail a) = None /\
  employee = Employee.row id a /\
  db' = mkDb (employees db ++ [Employee.row id a]) (attendanceRecords db).
Proof.
  unfold Storage.createEmployee.
  destruct (Storage.getEmployee db id) eqn:Hid; [discriminate |].
  destruct (Storage.getEmployeeByEmail db (Employee.newEmail a)) eqn:Hmail; [discriminate |].
  unfold Storage.getEmployee in *. simpl.
  rewrite (find_last Employee.id id (employees db) (Employee.row id a) Hid eq_refl).
  intros [= <- <-]. repeat split.
Qed.

(** [POST /api/employees] answers 409 and writes nothing when an employee
    has the email of the request.  When it answers 201, the employee is the
    request with the identifier drawn for it, it is the last row of the
    table, both lookups find it, and identifiers and emails are as distinct
    as they were. *)
Theorem postEmployee_creates_or_conflicts db data uuid :
  Spec.directory db ->
  (forall e, In e (employees db) -> Employee.email e = Employee.newEmail data ->
     Routes.postEmployee db (Some data) uuid =
     (Routes.Conflict "Ya existe un empleado con ese correo", db)) /\
  (forall employee db',
     Routes.postEmployee db (Some data) uuid = (Routes.CreatedEmployee employee, db') ->
     employee = Employee.row uuid data /\
     employees db' = (employees db ++ [employee])%list /\
     attendanceRecords db' = attendanceRecords db /\
     Storage.getEmployee db' uuid = Some employee /\
     Storage.getEmployeeByEmail db' (Employee.newEmail data) = Some employee /\
     Spec.directory db').
Proof.
  intros [Hids Hmails]. split.
  - intros e He Hmail. unfold Routes.postEmployee.
    destruct (Storage.getEmployeeByEmail db (Employee.newEmail data)) eqn:Hfind; [reflexivity |].
    exfalso. apply (find_none_not_in Employee.email _ _ Hfind).
    rewrite <- Hmail. apply in_map. exact He.
  - intros employee db'. unfold Routes.postEmployee.
    destruct (Storage.getEmployeeByEmail db (Employee.newEmail data)) eqn:Hfind; [discriminate |].
    destruct (Storage.createEmployee db uuid data) as [[e1 db1]|] eqn:Hnew; [| discriminate].
    intros [= <- <-].
    destruct (createEmployee_resolved _ _ _ _ _ Hnew) as (Hid & Hmail & -> & ->).
    simpl. repeat split.
    + apply (find_last Employee.id uuid (employees db) (Employee.row uuid data) Hid eq_refl).
    + apply (find_last Employee.email (Employee.newEmail data) (employees db)
               (Employee.row uuid data) Hmail eq_refl).
    + simpl. rewrite map_app. simpl. apply NoDup_app; [exact Hids | repeat constructor; intros [] |].
      intros k Hk [<- | []]. apply (find_none_not_in Employee.id _ _ Hid Hk).
    + simpl. rewrite map_app. simpl. apply NoDup_app; [exact Hmails | repeat constructor; intros [] |].
      intros k Hk [<- | []]. apply (find_none_not_in Employee.email _ _ Hmail Hk).
Qed.

Lemma postEmployee_creates_or_conflicts_witness :
  Routes.postEmployee Examples.dbAB
    (Some (Employee.mkInsert "Otra" "Ana" "Ana@empresa.com" "Ventas" "Ejecutiva" None None None))
    "c" =
  (Routes.Conflict "Ya existe un empleado con ese correo", Examples.dbAB) /\
  Storage.getEmployeeByEmail
    (snd (Routes.postEmployee Examples.dbAB (Some Examples.newcomer) "c"))
    "carla@empresa.com" =
  Some (Employee.row "c" Examples.newcomer).
Proof.
  assert (Hdir : Spec.directory Examples.dbAB).
  { split; vm_compute; repeat constructor; simpl; intuition discriminate. }
  split.
  - apply (proj1 (postEmployee_creates_or_conflicts Examples.dbAB _ "c" Hdir) Examples.empA).
    + left. reflexivity.
    + reflexivity.
  - apply (proj2 (postEmployee_creates_or_conflicts Examples.dbAB Examples.newcomer "c" Hdir)
             (Employee.row "c" Examples.newcomer)
             (snd (Routes.postEmployee Examples.dbAB (Some Examples.newcomer) "c"))).
    reflexivity.
Defined.

Lemma find_filter_out {A} (key : A -> string) (k : string) l :
  find (fun x => String.eqb (key x) k)
       (filter (fun x => negb (String.eqb (key x) k)) l) = None.
Proof.
  apply find_not_in. intros Hin. apply in_map_iff in Hin. destruct Hin as (x & Hx & Hin).
  apply filter_In in Hin. destruct Hin as [_ Hneg].
  rewrite Hx, String.eqb_refl in Hneg. discriminate.
Qed.

Lemma deleteEmployee_tables db id :
  Routes.deleteEmployee db id =
  (Routes.NoContent,
   mkDb (filter (fun e => negb (String.eqb (Employee.id e) id)) (employees db))
        (filter (fun r => negb (String.eqb (Attendance.employeeId r) id))
                (attendanceRecords db))).
Proof.
  unfold Routes.deleteEmployee, Storage.deleteEmployee, Storage.getEmployee. simpl.
  rewrite (find_filter_out Employee.id id (employees db)). reflexivity.
Qed.

(** [DELETE /api/employees/:id] answers 204 for every identifier, that of
    no employee included: the 404 of the handler is never sent.  Afterwards
    no employee has the identifier and no attendance row is of it; the other
    employees and the other rows are there as before, in their order. *)
Theorem deleteEmployee_cascades db id :
  fst (Routes.deleteEmployee db id) = Routes.NoContent /\
  employees (snd (Routes.deleteEmployee db id)) =
    filter (fun e => negb (String.eqb (Employee.id e) id)) (employees db) /\
  attendanceRecords (snd (Routes.deleteEmployee db id)) =
    filter (fun r => negb (String.eqb (Attendance.employeeId r) id)) (attendanceRecords db) /\
  Storage.getEmployee (snd (Routes.deleteEmployee db id)) id = None /\
  (forall date, Storage.getAttendanceByEmployee (snd (Routes.deleteEmployee db id)) id date = None).
Proof.
  rewrite deleteEmployee_tables. simpl. repeat split.
  - apply (find_filter_out Employee.id id (employees db)).
  - intros date. unfold Storage.getAttendanceByEmployee. simpl.
    destruct (find _ _) as [r|] eqn:Hfind; [| reflexivity].
    apply find_some in Hfind. destruct Hfind as [Hin Hkey].
    apply filter_In in Hin. destruct Hin as [_ Hneg].
    apply andb_prop in Hkey. destruct Hkey as [Hkey _].
    rewrite Hkey in Hneg. discriminate.
Qed.

(** ** What the routes keep *)

Lemma checkedOut_employeeIds id time records :
  map Attendance.employeeId (Spec.checkedOut id time records) =
  map Attendance.employeeId records.
Proof.
  induction records as [|r rest IH]; simpl; [reflexivity |].
  rewrite IH. destruct (String.eqb (Attendance.id r) id); reflexivity.
Qed.

Lemma referenced_iff db :
  Spec.referenced db <->
  incl (map Attendance.employeeId (attendanceRecords db)) (map Employee.id (employees db)).
Proof.
  unfold Spec.referenced, incl. split.
  - intros H k Hk. apply in_map_iff in Hk. destruct Hk as (r & <- & Hr). apply (H r Hr).
  - intros H r Hr. apply H. apply in_map. exact Hr.
Qed.

Lemma postAttendance_cases db body uuid :
  snd (Routes.postAttendance db body uuid) = db \/
  exists data e,
    body = Some data /\
    Storage.getEmployee db (Attendance.newEmployeeId data) = Some e /\
    Storage.attendanceById db uuid = None /\
    Routes.postAttendance db body uuid =
    (Routes.Created (Attendance.row uuid data),
     mkDb (employees db) (attendanceRecords db ++ [Attendance.row uuid data])).
Proof.
  unfold Routes.postAttendance.
  destruct body as [data|]; [| left; reflexivity].
  destruct (Storage.getEmployee db (Attendance.newEmployeeId data)) as [e|] eqn:He;
    [| left; reflexivity].
  destruct (Storage.createAttendance db uuid data) as [[record db1]|] eqn:Hnew;
    [| left; reflexivity].
  right. exists data, e.
  destruct (createAttendance_resolved _ _ _ _ _ Hnew) as [Hfresh ->].
  rewrite (createAttendance_fresh _ _ _ Hfresh) in Hnew. injection Hnew as <-.
  repeat split; try reflexivity; assumption.
Qed.

Lemma postFaceEmbedding_employees db photo employeeId now :
  map Employee.id (employees (snd (Routes.postFaceEmbedding db photo employeeId now))) =
    map Employee.id (employees db) /\
  map Employee.email (employees (snd (Routes.postFaceEmbedding db photo employeeId now))) =
    map Employee.email (employees db) /\
  attendanceRecords (snd (Routes.postFaceEmbedding db photo employeeId now)) =
    attendanceRecords db.
Proof.
  unfold Routes.postFaceEmbedding.
  destruct (negb (JS.truthy photo) || negb (JS.truthy employeeId)); [repeat split |].
  destruct employeeId as [eid|]; [| repeat split].
  destruct (Storage.getEmployee db eid); [| repeat split].
  simpl. rewrite !map_map. repeat split; apply map_ext; intros e;
    destruct (String.eqb (Employee.id e) eid); reflexivity.
Qed.

Lemma postEmployee_cases db body uuid :
  snd (Routes.postEmployee db body uuid) = db \/
  exists data,
    Storage.getEmployee db uuid = None /\
    Storage.getEmployeeByEmail db (Employee.newEmail data) = None /\
    snd (Routes.postEmployee db body uuid) =
    mkDb (employees db ++ [Employee.row uuid data]) (attendanceRecords db).
Proof.
  unfold Routes.postEmployee.
  destruct body as [data|]; [| left; reflexivity].
  destruct (Storage.getEmployeeByEmail db (Employee.newEmail data)); [left; reflexivity |].
  destruct (Storage.createEmployee db uuid data) as [[e1 db1]|] eqn:Hnew; [| left; reflexivity].
  right. exists data.
  destruct (createEmployee_resolved _ _ _ _ _ Hnew) as (Hid & Hmail & _ & ->).
  repeat split; assumption.
Qed.

(** Every route that writes keeps the attendance rows on employees of the
    table: the recognition route, the creation of a row (which looks the
    employee up), the creation and the enrolment of an employee, and the
    deletion of an employee (which deletes the rows of the employee first). *)
Theorem routes_keep_rows_on_employees db :
  Spec.referenced db ->
  (forall photo env, Spec.referenced (snd (Routes.recognize db photo env))) /\
  (forall body uuid, Spec.referenced (snd (Routes.postAttendance db body uuid))) /\
  (forall body uuid, Spec.referenced (snd (Routes.postEmployee db body uuid))) /\
  (forall photo employeeId now,
     Spec.referenced (snd (Routes.postFaceEmbedding db photo employeeId now))) /\
  (forall id, Spec.referenced (snd (Routes.deleteEmployee db id))).
Proof.
  intros Href. split; [| split; [| split; [| split]]].
  - intros photo env.
    destruct (recognize_cases db photo env)
      as [[-> _] | [(e & Hm & _ & _ & ->) | (e & r & att & _ & _ & _ & ->)]]; [exact Href | |].
    + intros r Hr. simpl in *. apply in_app_or in Hr. destruct Hr as [Hr | [<- | []]].
      * apply (Href r Hr).
      * simpl. apply in_map. apply (matchedEmployee_in _ _ _ Hm).
    + apply referenced_iff. simpl. rewrite checkedOut_employeeIds.
      apply referenced_iff. exact Href.
  - intros body uuid.
    destruct (postAttendance_cases db body uuid) as [-> | (data & e & _ & He & _ & ->)];
      [exact Href |].
    intros r Hr. simpl in *. apply in_app_or in Hr. destruct Hr as [Hr | [<- | []]].
    + apply (Href r Hr).
    + simpl. unfold Storage.getEmployee in He. apply find_some in He.
      destruct He as [Hin Hid]. apply String.eqb_eq in Hid. rewrite <- Hid.
      apply in_map. exact Hin.
  - intros body uuid.
    destruct (postEmployee_cases db body uuid) as [-> | (data & _ & _ & ->)]; [exact Href |].
    intros r Hr. simpl in *. rewrite map_app. apply in_or_app. left. apply (Href r Hr).
  - intros photo employeeId now.
    destruct (postFaceEmbedding_employees db photo employeeId now) as (Hids & _ & Hrows).
    intros r Hr. rewrite Hrows in Hr. rewrite Hids. apply (Href r Hr).
  - intros id. rewrite deleteEmployee_tables. intros r Hr. simpl in *.
    apply filter_In in Hr. destruct Hr as [Hr Hneq].
    specialize (Href r Hr). apply in_map_iff in Href. destruct Href as (e & He & Hin).
    apply in_map_iff. exists e. split; [exact He |].
    apply filter_In. split; [exact Hin |]. rewrite He. exact Hneq.
Qed.

Lemma routes_keep_rows_on_employees_witness :
  Spec.referenced (snd (Routes.recognize Examples.dbCheckedIn Examples.photo Examples.evening)) /\
  Spec.referenced (snd (Routes.deleteEmployee Examples.dbCheckedIn "a")).
Proof.
  assert (Href : Spec.referenced Examples.dbCheckedIn).
  { intros r [<- | []]. left. reflexivity. }
  split.
  - apply (proj1 (routes_keep_rows_on_employees Examples.dbCheckedIn Href)).
  - apply (proj2 (proj2 (proj2 (proj2 (routes_keep_rows_on_employees Examples.dbCheckedIn Href))))).
Defined.

(** Every route that writes keeps the identifiers of the employees
    distinct and their emails distinct. *)
Theorem routes_keep_employees_distinct db :
  Spec.directory db ->
  (forall photo env, Spec.directory (snd (Routes.recognize db photo env))) /\
  (forall body uuid, Spec.directory (snd (Routes.postAttendance db body uuid))) /\
  (forall body uuid, Spec.directory (snd (Routes.postEmployee db body uuid))) /\
  (forall photo employeeId now,
     Spec.directory (snd (Routes.postFaceEmbedding db photo employeeId now))) /\
  (forall id, Spec.directory (snd (Routes.deleteEmployee db id))).
Proof.
  intros Hdir. split; [| split; [| split; [| split]]].
  - intros photo env. unfold Spec.directory.
    rewrite recognize_employees. exact Hdir.
  - intros body uuid.
    destruct (postAttendance_cases db body uuid) as [-> | (data & e & _ & _ & _ & ->)];
      exact Hdir.
  - intros body uuid. destruct Hdir as [Hids Hmails].
    destruct (postEmployee_cases db body uuid) as [-> | (data & Hid & Hmail & ->)];
      [split; assumption |].
    split; simpl; rewrite map_app; simpl.
    + apply NoDup_app; [exact Hids | repeat constructor; intros [] |].
      intros k Hk [<- | []]. apply (find_none_not_in Employee.id _ _ Hid Hk).
    + apply NoDup_app; [exact Hmails | repeat constructor; intros [] |].
      intros k Hk [<- | []]. apply (find_none_not_in Employee.email _ _ Hmail Hk).
  - intros photo employeeId now. unfold Spec.directory.
    destruct (postFaceEmbedding_employees db photo employeeId now) as (-> & -> & _).
    exact Hdir.
  - intros id. rewrite deleteEmployee_tables. destruct Hdir as [Hids Hmails].
    split; simpl; apply NoDup_map_filter; assumption.
Qed.

Lemma routes_keep_employees_distinct_witness :
  Spec.directory (snd (Routes.postEmployee Examples.dbAB (Some Examples.newcomer) "c")).
Proof.
  assert (Hdir : Spec.directory Examples.dbAB).
  { split; vm_compute; repeat constructor; simpl; intuition discriminate. }
  apply (proj1 (proj2 (proj2 (routes_keep_employees_distinct Examples.dbAB Hdir)))).
Defined.

(** The routes that write, the creation of a row apart, keep at most one
    row per employee and date. *)
Theorem routes_keep_one_row_per_day db :
  Spec.onePerDay (attendanceRecords db) ->
  (forall photo env,
     Spec.onePerDay (attendanceRecords (snd (Routes.recognize db photo env)))) /\
  (forall body uuid,
     Spec.onePerDay (attendanceRecords (snd (Routes.postEmployee db body uuid)))) /\
  (forall photo employeeId now,
     Spec.onePerDay
       (attendanceRecords (snd (Routes.postFaceEmbedding db photo employeeId now)))) /\
  (forall id, Spec.onePerDay (attendanceRecords (snd (Routes.deleteEmployee db id)))).
Proof.
  intros Hone. split; [| split; [| split]].
  - intros photo env. apply recognize_keeps_onePerDay. exact Hone.
  - intros body uuid.
    destruct (postEmployee_cases db body uuid) as [-> | (data & _ & _ & ->)]; exact Hone.
  - intros photo employeeId now.
    rewrite (proj2 (proj2 (postFaceEmbedding_employees db photo employeeId now))).
    exact Hone.
  - intros id. rewrite deleteEmployee_tables. simpl.
    apply NoDup_map_filter. exact Hone.
Qed.

Lemma routes_keep_one_row_per_day_witness :
  Spec.onePerDay
    (attendanceRecords (snd (Routes.recognize Examples.dbCheckedIn Examples.photo
                               Examples.secondMorning))).
Proof.
  assert (Hone : Spec.onePerDay (attendanceRecords Examples.dbCheckedIn)).
  { vm_compute. repeat constructor. intros []. }
  apply (proj1 (routes_keep_one_row_per_day Examples.dbCheckedIn Hone)).
Defined.

(** ** The creation of a row, the enrolment, a day of scans *)

(** [POST /api/attendance] answers 404 and writes nothing when no employee
    has the identifier of the request.  When it answers 201, the row is the
    request with the identifier drawn for it and the status present when the
    request has none; it is the last row of the table, and the lookup by
    identifier finds it. *)
Theorem postAttendance_creates_or_refuses db data uuid :
  (Storage.getEmployee db (Attendance.newEmployeeId data) = None ->
   Routes.postAttendance db (Some data) uuid =
   (Routes.NotFound "Empleado no encontrado", db)) /\
  (forall record db',
     Routes.postAttendance db (Some data) uuid = (Routes.Created record, db') ->
     record = Attendance.row uuid data /\
     (Attendance.newStatus data = None -> Attendance.status record = "present") /\
     employees db' = employees db /\
     attendanceRecords db' = (attendanceRecords db ++ [record])%list /\
     Storage.attendanceById db' uuid = Some record /\
     Storage.getEmployee db (Attendance.employeeId record) <> None).
Proof.
  split.
  - intros Hnone. unfold Routes.postAttendance. rewrite Hnone. reflexivity.
  - intros record db'. unfold Routes.postAttendance.
    destruct (Storage.getEmployee db (Attendance.newEmployeeId data)) as [e|] eqn:He;
      [| discriminate].
    destruct (Storage.createAttendance db uuid data) as [[r1 db1]|] eqn:Hnew; [| discriminate].
    intros [= <- <-].
    destruct (createAttendance_resolved _ _ _ _ _ Hnew) as [Hfresh ->].
    rewrite (createAttendance_fresh _ _ _ Hfresh) in Hnew. injection Hnew as <-.
    simpl. repeat split.
    + intros Hstatus. rewrite Hstatus. reflexivity.
    + unfold Storage.attendanceById in *. simpl.
      apply (find_last Attendance.id uuid (attendanceRecords db) (Attendance.row uuid data)
               Hfresh eq_refl).
    + rewrite He. discriminate.
Qed.

Lemma postAttendance_creates_or_refuses_witness :
  Routes.postAttendance Examples.dbAB
    (Some (Attendance.mkInsert "nobody" "2024-03-04" None None None None)) "m1" =
  (Routes.NotFound "Empleado no encontrado", Examples.dbAB) /\
  Storage.attendanceById
    (snd (Routes.postAttendance Examples.dbAB (Some Examples.manualEntry) "m1")) "m1" =
  Some (Attendance.row "m1" Examples.manualEntry).
Proof.
  split.
  - apply (proj1 (postAttendance_creates_or_refuses Examples.dbAB _ "m1")). reflexivity.
  - apply (proj2 (postAttendance_creates_or_refuses Examples.dbAB Examples.manualEntry "m1")
             (Attendance.row "m1" Examples.manualEntry)
             (snd (Routes.postAttendance Examples.dbAB (Some Examples.manualEntry) "m1"))).
    reflexivity.
Defined.

Lemma enrolled_rows (u : Employee.partial) employeeId l e :
  In e (map (fun e0 => if String.eqb (Employee.id e0) employeeId then Employee.set u e0 else e0) l) ->
  (Employee.id e = employeeId -> exists e0, In e0 l /\ e = Employee.set u e0) /\
  (Employee.id e <> employeeId -> In e l).
Proof.
  intros Hin. apply in_map_iff in Hin. destruct Hin as (e0 & He & Hin).
  destruct (String.eqb (Employee.id e0) employeeId) eqn:Hk.
  - split.
    + intros _. exists e0. split; [exact Hin | symmetry; exact He].
    + intros Hne. exfalso. apply Hne. subst e. simpl. apply String.eqb_eq. exact Hk.
  - subst e0. split.
    + intros Hid. rewrite Hid, String.eqb_refl in Hk. discriminate.
    + intros _. exact Hin.
Qed.

(** After the enrolment of an employee by [POST /api/face/embedding],
    the employee is one of those that the recognition route draws from,
    while the embedding stored for it is read as [null] by [parseEmbedding];
    no other employee and no attendance row is changed. *)
Theorem postFaceEmbedding_enrols db photo employeeId now employee msg db' :
  Routes.postFaceEmbedding db photo (Some employeeId) now =
    (Routes.Generated employee msg, db') ->
  (forall e, In e (employees db') -> Employee.id e = employeeId ->
     In e (Routes.employeesWithEmbedding db') /\
     Employee.photoUrl e = photo /\
     forall coerce, Storage.parseEmbedding coerce (Employee.faceEmbedding e) = None) /\
  (forall e, Employee.id e <> employeeId -> (In e (employees db') <-> In e (employees db))) /\
  (exists e, In e (employees db') /\ Employee.id e = employeeId) /\
  attendanceRecords db' = attendanceRecords db.
Proof.
  unfold Routes.postFaceEmbedding.
  destruct (negb (JS.truthy photo) || negb (JS.truthy (Some employeeId))); [discriminate |].
  destruct (Storage.getEmployee db employeeId) as [found|] eqn:Hfound; [| discriminate].
  simpl. intros [= _ _ <-]. simpl.
  split; [| split; [| split]].
  - intros e Hin Hid.
    destruct (proj1 (enrolled_rows _ _ _ _ Hin) Hid) as (e0 & _ & ->).
    split; [| split].
    + unfold Routes.employeesWithEmbedding, Storage.getAllEmployees. simpl.
      apply filter_In. split; [exact Hin | reflexivity].
    + reflexivity.
    + intros coerce. reflexivity.
  - intros e Hne. split.
    + intros Hin. apply (proj2 (enrolled_rows _ _ _ _ Hin) Hne).
    + intros Hin. apply in_map_iff. exists e. split; [| exact Hin].
      destruct (String.eqb (Employee.id e) employeeId) eqn:Hk; [| reflexivity].
      exfalso. apply Hne. apply String.eqb_eq. exact Hk.
  - unfold Storage.getEmployee in Hfound. apply find_some in Hfound.
    destruct Hfound as [Hin Hid].
    eexists. split.
    + apply in_map_iff. exists found. split; [reflexivity | exact Hin].
    + rewrite Hid. simpl. apply String.eqb_eq. exact Hid.
  - reflexivity.
Qed.

Lemma postFaceEmbedding_enrols_witness :
  exists e,
    In e (employees (snd (Routes.postFaceEmbedding Examples.dbAB Examples.photo (Some "b") 1700))) /\
    Employee.id e = "b".
Proof.
  apply (proj1 (proj2 (proj2
           (postFaceEmbedding_enrols Examples.dbAB Examples.photo "b" 1700
              (fst (Storage.updateEmployee Examples.dbAB "b"
                      (Employee.mkPartial None None None None None (Some Examples.photo)
                         (Some (Some (Routes.fakeEmbedding "b" 1700))) None)))
              "Embedding facial generado exitosamente"
              (snd (Routes.postFaceEmbedding Examples.dbAB Examples.photo (Some "b") 1700))
              eq_refl)))).
Defined.

Lemma matchedEmployee_employees db db' env :
  employees db' = employees db ->
  Routes.matchedEmployee db' env = Routes.matchedEmployee db env.
Proof.
  intros H.
  unfold Routes.matchedEmployee, Routes.randomIndex, Routes.employeesWithEmbedding,
    Storage.getAllEmployees.
  rewrite H. reflexivity.
Qed.

Lemma checkedOut_last id time records row :
  Storage.attendanceById (mkDb [] records) id = None ->
  Attendance.id row = id ->
  Spec.checkedOut id time (records ++ [row]) = (records ++ [Spec.withCheckOut time row])%list.
Proof.
  unfold Storage.attendanceById, Spec.checkedOut. simpl. intros Hfresh Hid.
  rewrite map_app. simpl. rewrite Hid, String.eqb_refl. f_equal.
  rewrite <- (map_id records) at 2. apply map_ext_in. intros r Hr.
  rewrite (find_none _ _ Hfresh r Hr). reflexivity.
Qed.

Lemma recognize_check_in db photo env e :
  JS.truthy photo = true ->
  Routes.matchedEmployee db env = Some e ->
  Storage.getAttendanceByEmployee db (Employee.id e) (Routes.today env) = None ->
  Storage.attendanceById db (Routes.uuid env) = None ->
  Routes.recognize db photo env =
  (Routes.Recognized e (Some (Spec.checkInRow e env)) Routes.check_in (Routes.confidence env)
     ("Entrada registrada a las " ++ Routes.currentTime env),
   mkDb (employees db) (attendanceRecords db ++ [Spec.checkInRow e env])).
Proof.
  intros Hphoto Hmatch Hnone Hfresh. unfold Routes.recognize.
  rewrite Hphoto, (matchedEmployee_enrolled _ _ _ Hmatch), Hmatch, Hnone. simpl.
  rewrite (createAttendance_fresh _ _ _ Hfresh). reflexivity.
Qed.

Lemma recognize_check_out db photo env e r :
  JS.truthy photo = true ->
  Routes.matchedEmployee db env = Some e ->
  Storage.getAttendanceByEmployee db (Employee.id e) (Routes.today env) = Some r ->
  JS.truthy (Attendance.checkOut r) = false ->
  Routes.recognize db photo env =
  (Routes.Recognized e
     (Storage.attendanceById
        (mkDb (employees db)
           (Spec.checkedOut (Attendance.id r) (Routes.currentTime env) (attendanceRecords db)))
        (Attendance.id r))
     Routes.check_out (Routes.confidence env)
     ("Salida registrada a las " ++ Routes.currentTime env),
   mkDb (employees db)
     (Spec.checkedOut (Attendance.id r) (Routes.currentTime env) (attendanceRecords db))).
Proof.
  intros Hphoto Hmatch Hrow Hout. unfold Routes.recognize.
  rewrite Hphoto, (matchedEmployee_enrolled _ _ _ Hmatch), Hmatch, Hrow, Hout. reflexivity.
Qed.

Lemma recognize_refused db photo env e r :
  JS.truthy photo = true ->
  Routes.matchedEmployee db env = Some e ->
  Storage.getAttendanceByEmployee db (Employee.id e) (Routes.today env) = Some r ->
  JS.truthy (Attendance.checkOut r) = true ->
  Routes.recognize db photo env =
  (Routes.Refused (Employee.firstName e ++ " ya registro entrada y salida hoy"), db).
Proof.
  intros Hphoto Hmatch Hrow Hout. unfold Routes.recognize.
  rewrite Hphoto, (matchedEmployee_enrolled _ _ _ Hmatch), Hmatch, Hrow, Hout. reflexivity.
Qed.

(** The day of an employee, scan after scan.  From tables with no row of
    the day for the employee, three scans that match the employee on the
    same day answer a check-in, a check-out and a refusal; the one row of
    the day holds the time of the first scan as check-in and the time of the
    second as check-out, and the third scan writes nothing. *)
Theorem three_scans_make_a_day db photo e env1 env2 env3 :
  JS.truthy photo = true ->
  Routes.matchedEmployee db env1 = Some e ->
  Routes.matchedEmployee db env2 = Some e ->
  Routes.matchedEmployee db env3 = Some e ->
  Routes.today env2 = Routes.today env1 ->
  Routes.today env3 = Routes.today env1 ->
  Storage.getAttendanceByEmployee db (Employee.id e) (Routes.today env1) = None ->
  Storage.attendanceById db (Routes.uuid env1) = None ->
  JS.truthy (Some (Routes.currentTime env2)) = true ->
  let day := Spec.withCheckOut (Routes.currentTime env2) (Spec.checkInRow e env1) in
  let first := Routes.recognize db photo env1 in
  let second := Routes.recognize (snd first) photo env2 in
  let third := Routes.recognize (snd second) photo env3 in
  fst first =
    Routes.Recognized e (Some (Spec.checkInRow e env1)) Routes.check_in (Routes.confidence env1)
      ("Entrada registrada a las " ++ Routes.currentTime env1) /\
  fst second =
    Routes.Recognized e (Some day) Routes.check_out (Routes.confidence env2)
      ("Salida registrada a las " ++ Routes.currentTime env2) /\
  third =
    (Routes.Refused (Employee.firstName e ++ " ya registro entrada y salida hoy"),
     snd second) /\
  snd second = mkDb (employees db) (attendanceRecords db ++ [day]).
Proof.
  intros Hphoto Hm1 Hm2 Hm3 Ht2 Ht3 Hnone Hfresh Htime day first second third.
  set (db1 := mkDb (employees db) (attendanceRecords db ++ [Spec.checkInRow e env1])).
  set (db2 := mkDb (employees db) (attendanceRecords db ++ [day])).
  assert (H1 : first =
            (Routes.Recognized e (Some (Spec.checkInRow e env1)) Routes.check_in
               (Routes.confidence env1)
               ("Entrada registrada a las " ++ Routes.currentTime env1), db1))
    by (apply recognize_check_in; assumption).
  assert (Hfresh' : Storage.attendanceById (mkDb [] (attendanceRecords db)) (Routes.uuid env1)
                    = None) by exact Hfresh.
  assert (Hout : Spec.checkedOut (Routes.uuid env1) (Routes.currentTime env2)
                   (attendanceRecords db1) = attendanceRecords db2)
    by (apply (checkedOut_last (Routes.uuid env1) (Routes.currentTime env2)
                 (attendanceRecords db) (Spec.checkInRow e env1) Hfresh' eq_refl)).
  assert (H2 : second =
            (Routes.Recognized e (Some day) Routes.check_out (Routes.confidence env2)
               ("Salida registrada a las " ++ Routes.currentTime env2), db2)).
  { subst second. rewrite H1. simpl.
    rewrite (recognize_check_out db1 photo env2 e (Spec.checkInRow e env1)).
    - change (Attendance.id (Spec.checkInRow e env1)) with (Routes.uuid env1).
      rewrite Hout. f_equal. f_equal.
      unfold Storage.attendanceById, db2. simpl.
      apply (find_last Attendance.id (Routes.uuid env1) (attendanceRecords db) day Hfresh eq_refl).
    - exact Hphoto.
    - rewrite (matchedEmployee_employees db db1 env2 eq_refl). exact Hm2.
    - rewrite Ht2. apply lookup_after_check_in. exact Hnone.
    - reflexivity. }
  split; [rewrite H1; reflexivity |]. split; [rewrite H2; reflexivity |].
  split; [| rewrite H2; reflexivity].
  subst third. rewrite H2. simpl.
  apply (recognize_refused db2 photo env3 e day).
  - exact Hphoto.
  - rewrite (matchedEmployee_employees db db2 env3 eq_refl). exact Hm3.
  - rewrite Ht3. unfold Storage.getAttendanceByEmployee in *. simpl.
    rewrite (find_app_none _ _ _ Hnone). simpl. rewrite !String.eqb_refl. reflexivity.
  - exact Htime.
Qed.

Lemma three_scans_make_a_day_witness :
  Routes.recognize Examples.dbComplete Examples.photo Examples.night =
  (Routes.Refused "Ana ya registro entrada y salida hoy", Examples.dbComplete) /\
  Examples.dbComplete =
  mkDb (employees Examples.dbAB)
    [Attendance.mk "row-1" "a" "2024-03-04" (Some "08:45") (Some "17:30") "present"
       (Some 0.85%float)].
Proof.
  pose proof (three_scans_make_a_day Examples.dbAB Examples.photo Examples.empA
                Examples.morning Examples.evening Examples.night
                eq_refl eq_refl eq_refl eq_refl eq_refl eq_refl eq_refl eq_refl eq_refl) as H.
  split.
  - exact (proj1 (proj2 (proj2 H))).
  - exact (proj2 (proj2 (proj2 H))).
Defined.

(** ** Further properties of the statistics *)

Lemma countIf_or {A} (f g : A -> bool) l :
  (forall x, In x l -> f x && g x = false) ->
  Storage.countIf (fun x => f x || g x) l = (Storage.countIf f l + Storage.countIf g l)%Z.
Proof.
  unfold Storage.countIf. induction l as [|x l IH]; intros Hex; [reflexivity |].
  assert (IH' := IH (fun y Hy => Hex y (or_intror Hy))).
  pose proof (Hex x (or_introl eq_refl)) as Hx.
  cbn [filter].
  destruct (f x), (g x); try discriminate; cbn [orb List.length];
    rewrite ?Nat2Z.inj_succ; lia.
Qed.

Lemma present_not_late r : Storage.isPresent r && Storage.isLate r = false.
Proof.
  unfold Storage.isPresent, Storage.isLate.
  destruct (String.eqb (Attendance.status r) "present") eqn:Hp; [| reflexivity].
  apply String.eqb_eq in Hp. rewrite Hp. reflexivity.
Qed.

Lemma countIf_bounds {A} (f : A -> bool) l :
  (0 <= Storage.countIf f l <= Z.of_nat (List.length l))%Z.
Proof.
  unfold Storage.countIf. pose proof (filter_length_le f l). lia.
Qed.

Lemma countIf_le {A} (f g : A -> bool) l :
  (forall x, f x = true -> g x = true) ->
  (Storage.countIf f l <= Storage.countIf g l)%Z.
Proof.
  unfold Storage.countIf. intros Himp.
  induction l as [|x l IH]; [simpl; lia |].
  cbn [filter].
  destruct (f x) eqn:Hf.
  - rewrite (Himp x Hf). cbn [List.length]. rewrite !Nat2Z.inj_succ. lia.
  - destruct (g x); cbn [List.length]; rewrite ?Nat2Z.inj_succ; lia.
Qed.

(** The counts of the dashboard fit together: the late arrivals are among
    the present, the present are rows of the date, present and absences add
    up to the employees, and the share of on-time arrivals is zero when
    nobody is present. *)
Theorem getDashboardStats_counts db date :
  let stats := Storage.getDashboardStats db date in
  (0 <= lateArrivals stats <= presentToday stats)%Z /\
  (presentToday stats <= Z.of_nat (List.length (Spec.rowsOf db date)))%Z /\
  presentToday stats =
    (Storage.countIf Storage.isPresent (Spec.rowsOf db date) + lateArrivals stats)%Z /\
  (presentToday stats + absences stats = Z.of_nat (List.length (employees db)))%Z /\
  (presentToday stats = 0%Z -> onTimePercentage stats = 0%float).
Proof.
  unfold Storage.getDashboardStats. fold (Spec.rowsOf db date). simpl.
  repeat split.
  - apply countIf_bounds.
  - apply countIf_le. intros r Hr. rewrite Hr. apply orb_true_r.
  - apply countIf_bounds.
  - apply countIf_or. intros r _. apply present_not_late.
  - lia.
  - intros Hzero. rewrite Hzero. reflexivity.
Qed.

Lemma joined_count (rows : list Attendance.t) (emps : list Employee.t) :
  NoDup (map Employee.id emps) ->
  NoDup (map Attendance.employeeId rows) ->
  incl (map Attendance.employeeId rows) (map Employee.id emps) ->
  List.length
    (filter (fun e => existsb (fun r => String.eqb (Attendance.employeeId r) (Employee.id e)) rows)
            emps) =
  List.length rows.
Proof.
  intros Hids Hkeys Hincl.
  assert (Hhas : forall e,
            existsb (fun r => String.eqb (Attendance.employeeId r) (Employee.id e)) rows = true <->
            In (Employee.id e) (map Attendance.employeeId rows)).
  { intros e. rewrite existsb_exists, in_map_iff.
    split; intros (r & H1 & H2); exists r.
    - apply String.eqb_eq in H2. split; assumption.
    - split; [exact H2 | apply String.eqb_eq; exact H1]. }
  rewrite <- (length_map Employee.id (filter _ _)).
  rewrite <- (length_map Attendance.employeeId rows).
  apply Nat.le_antisymm.
  - apply NoDup_incl_length; [apply NoDup_map_filter; exact Hids |].
    intros k Hk. apply in_map_iff in Hk. destruct Hk as (e & <- & He).
    apply filter_In in He. apply Hhas. apply He.
  - apply NoDup_incl_length; [exact Hkeys |].
    intros k Hk. pose proof (Hincl k Hk) as Hemp.
    apply in_map_iff in Hemp. destruct Hemp as (e & He & Hin).
    rewrite <- He. apply in_map. apply filter_In. split; [exact Hin |].
    apply Hhas. rewrite He. exact Hk.
Qed.

(** When the employees have distinct identifiers and the rows of the date
    are rows of distinct employees of the table, the absences of the
    dashboard are not negative: they are the number of employees with no row
    of the date that is present or late. *)
Theorem getDashboardStats_absences_count db date :
  NoDup (map Employee.id (employees db)) ->
  NoDup (map Attendance.employeeId (Spec.rowsOf db date)) ->
  (forall r, In r (Spec.rowsOf db date) ->
     In (Attendance.employeeId r) (map Employee.id (employees db))) ->
  absences (Storage.getDashboardStats db date) =
    Z.of_nat (List.length (Spec.absentees db date)) /\
  (0 <= absences (Storage.getDashboardStats db date))%Z.
Proof.
  intros Hids Hkeys Href.
  assert (Hcount : List.length (filter (Spec.attendedBy db date) (employees db)) =
                   List.length (filter Spec.attended (Spec.rowsOf db date))).
  { apply joined_count.
    - exact Hids.
    - apply NoDup_map_filter. exact Hkeys.
    - intros k Hk. apply in_map_iff in Hk. destruct Hk as (r & <- & Hr).
      apply filter_In in Hr. apply Href. apply Hr. }
  pose proof (filter_length (Spec.attendedBy db date) (employees db)) as Hsplit.
  rewrite getDashboardStats_absences. unfold Storage.countIf, Spec.absentees.
  split; lia.
Qed.

Lemma getDashboardStats_absences_count_witness :
  absences (Storage.getDashboardStats Examples.dbSeed "2024-03-04") =
    Z.of_nat (List.length (Spec.absentees Examples.dbSeed "2024-03-04")) /\
  (0 <= absences (Storage.getDashboardStats Examples.dbSeed "2024-03-04"))%Z.
Proof.
  apply (getDashboardStats_absences_count Examples.dbSeed "2024-03-04").
  - vm_compute. repeat constructor; simpl; intuition discriminate.
  - vm_compute. repeat constructor; simpl; intuition discriminate.
  - intros r [<- | [<- | [<- | [<- | [<- | []]]]]]; vm_compute; auto 10.
Defined.

(** ** Further properties of [getWeeklyStats] *)

Lemma counted_present date rs : forall stats,
  present (fold_left (Spec.counted date) rs stats) =
  (present stats +
   Storage.countIf Storage.isPresent
     (filter (fun r => String.eqb date (Attendance.date r)) rs))%Z.
Proof.
  unfold Storage.countIf.
  induction rs as [|r rs IH]; intros stats; [simpl; lia |].
  cbn [fold_left filter]. rewrite IH. unfold Spec.counted.
  destruct (String.eqb date (Attendance.date r)); [| reflexivity].
  cbn [filter].
  destruct (Storage.isPresent r); cbn [List.length present]; rewrite ?Nat2Z.inj_succ; [lia |].
  destruct (Storage.isLate r); cbn [present]; lia.
Qed.

Lemma counted_late date rs : forall stats,
  late (fold_left (Spec.counted date) rs stats) =
  (late stats +
   Storage.countIf Storage.isLate
     (filter (fun r => String.eqb date (Attendance.date r)) rs))%Z.
Proof.
  unfold Storage.countIf.
  induction rs as [|r rs IH]; intros stats; [simpl; lia |].
  cbn [fold_left filter]. rewrite IH. unfold Spec.counted.
  destruct (String.eqb date (Attendance.date r)); [| reflexivity].
  cbn [filter].
  pose proof (present_not_late r) as Hex.
  destruct (Storage.isPresent r), (Storage.isLate r); try discriminate;
    cbn [List.length late]; rewrite ?Nat2Z.inj_succ; lia.
Qed.

Lemma mapSet_keys_in {V} (k k' : string) (v : V) m :
  In k' (map fst (Storage.mapSet k v m)) <-> In k' (map fst m) \/ k' = k.
Proof.
  induction m as [|[k0 v0] m IH]; simpl.
  - split; [intros [H | []]; right; symmetry; exact H | intros [[] | H]; left; symmetry; exact H].
  - destruct (String.eqb k0 k) eqn:Hk; simpl.
    + apply String.eqb_eq in Hk. subst k0. split; [intros H; left; exact H |].
      intros [H | H]; [exact H | left; symmetry; exact H].
    + rewrite IH. split; intros H; intuition auto.
Qed.

Lemma weekly_keys {V} days (v : V) : forall m k,
  In k (map fst (fold_left (fun m dateStr => Storage.mapSet dateStr v m) days m)) <->
  In k (map fst m) \/ In k days.
Proof.
  induction days as [|d days IH]; intros m k; simpl.
  - split; [intros H; left; exact H | intros [H | []]; exact H].
  - rewrite IH, mapSet_keys_in. split; intros H; intuition auto.
Qed.

(** The table of the dates before it is sorted: its dates are the days,
    each once, and each entry is what the rows of its date make of it. *)
Lemma weekly_table days db startDate endDate :
  exists table,
    Storage.getWeeklyStats days db startDate endDate = Storage.sortByDate table /\
    NoDup (map fst table) /\
    (forall d, In d (map fst table) <-> In d days) /\
    (forall date stats, In (date, stats) table ->
       present stats =
         Storage.countIf Storage.isPresent (Spec.rowsBetween db startDate endDate date) /\
       late stats =
         Storage.countIf Storage.isLate (Spec.rowsBetween db startDate endDate date)).
Proof.
  unfold Storage.getWeeklyStats, Spec.rowsBetween.
  set (v := mkDayStats 0 0 (Z.of_nat (List.length (employees db)))).
  set (init := fold_left (fun m dateStr => Storage.mapSet dateStr v m) days []).
  destruct (weekly_init days v [] (NoDup_nil _) (fun e (H : In e []) => match H with end))
    as [Hkeys Hvals].
  fold init in Hkeys, Hvals.
  eexists. split; [reflexivity |].
  rewrite (fold_tally _ _ Hkeys).
  assert (Hfst : forall rs,
            map fst (map (fun e : string * DayStats =>
                            (fst e, fold_left (Spec.counted (fst e)) rs (snd e))) init) =
            map fst init)
    by (intros rs; rewrite map_map; reflexivity).
  split; [rewrite Hfst; exact Hkeys |]. split.
  - intros d. rewrite Hfst. unfold init. rewrite weekly_keys. simpl.
    split; [intros [[] | H]; exact H | intros H; right; exact H].
  - intros date stats Hin.
    apply in_map_iff in Hin. destruct Hin as (e & He & Hin).
    injection He as <- <-.
    rewrite counted_present, counted_late, (Hvals e Hin). simpl. split; lia.
Qed.

(** Every entry of the weekly statistics is the entry of one of the days:
    its present and late numbers are the rows of that date within the
    range with these statuses, and present, late and absent add up to the
    number of employees. *)
Theorem getWeeklyStats_entries days db startDate endDate date stats :
  In (date, stats) (Storage.getWeeklyStats days db startDate endDate) ->
  In date days /\
  present stats =
    Storage.countIf Storage.isPresent (Spec.rowsBetween db startDate endDate date) /\
  late stats =
    Storage.countIf Storage.isLate (Spec.rowsBetween db startDate endDate date) /\
  (0 <= present stats)%Z /\ (0 <= late stats)%Z /\
  (present stats + late stats + absent stats = Z.of_nat (List.length (employees db)))%Z.
Proof.
  intros Hin.
  pose proof (getWeeklyStats_absent _ _ _ _ _ _ Hin) as Habs.
  destruct (weekly_table days db startDate endDate) as (table & Heq & _ & Hdays & Hrows).
  rewrite Heq in Hin. apply (proj1 (sortByDate_in _ _)) in Hin.
  destruct (Hrows date stats Hin) as [Hp Hl].
  split; [apply Hdays; apply (in_map fst _ _ Hin) |].
  split; [exact Hp |]. split; [exact Hl |].
  split; [rewrite Hp; apply countIf_bounds |]. split; [rewrite Hl; apply countIf_bounds |].
  rewrite Habs, Hp, Hl.
  unfold Spec.attended.
  rewrite (countIf_or Storage.isPresent Storage.isLate)
    by (intros r _; apply present_not_late).
  lia.
Qed.

Lemma getWeeklyStats_entries_witness :
  In "2024-03-04" ["2024-03-03"; "2024-03-04"] /\
  (1 + 1 + 3 = Z.of_nat (List.length (employees Examples.dbThreeRows)))%Z.
Proof.
  pose proof (getWeeklyStats_entries ["2024-03-03"; "2024-03-04"] Examples.dbThreeRows
                "2024-03-03" "2024-03-04" "2024-03-04" (mkDayStats 1 1 3)
                (or_intror (or_introl eq_refl))) as H.
  split; [exact (proj1 H) | exact (proj2 (proj2 (proj2 (proj2 (proj2 H)))))].
Defined.






(** The entry of a date within the range agrees with the dashboard of
    that date: the same late arrivals, the same number present, late
    arrivals included, and the same absences. *)
Theorem getWeeklyStats_agrees_with_dashboard days db startDate endDate date stats :
  In (date, stats) (Storage.getWeeklyStats days db startDate endDate) ->
  String.leb startDate date = true ->
  String.leb date endDate = true ->
  late stats = lateArrivals (Storage.getDashboardStats db date) /\
  (present stats + late stats)%Z = presentToday (Storage.getDashboardStats db date) /\
  absent stats = absences (Storage.getDashboardStats db date).
Proof.
  intros Hin Hs He.
  pose proof (getWeeklyStats_absent _ _ _ _ _ _ Hin) as Habs.
  destruct (weekly_table days db startDate endDate) as (table & Heq & _ & _ & Hrows).
  rewrite Heq in Hin. apply (proj1 (sortByDate_in _ _)) in Hin.
  destruct (Hrows date stats Hin) as [Hp Hl].
  rewrite (rowsBetween_rowsOf _ _ _ _ Hs He) in *.
  unfold Storage.getDashboardStats. fold (Spec.rowsOf db date). simpl.
  split; [exact Hl |]. split; [| exact Habs].
  rewrite Hp, Hl. symmetry.
  apply (countIf_or Storage.isPresent Storage.isLate). intros r _. apply present_not_late.
Qed.

Lemma getWeeklyStats_agrees_with_dashboard_witness :
  1%Z = lateArrivals (Storage.getDashboardStats Examples.dbThreeRows "2024-03-04") /\
  (1 + 1)%Z = presentToday (Storage.getDashboardStats Examples.dbThreeRows "2024-03-04") /\
  3%Z = absences (Storage.getDashboardStats Examples.dbThreeRows "2024-03-04").
Proof.
  apply (getWeeklyStats_agrees_with_dashboard ["2024-03-03"; "2024-03-04"] Examples.dbThreeRows
           "2024-03-03" "2024-03-04" "2024-03-04" (mkDayStats 1 1 3)).
  - right. left. reflexivity.
  - reflexivity.
  - reflexivity.
Defined.

(** ** The rows of a date with their employees ([getAttendanceByDate]) *)

Lemma filter_none {A} (f : A -> bool) l :
  (forall x, In x l -> f x = false) -> filter f l = [].
Proof.
  induction l as [|x l IH]; simpl; intros H; [reflexivity |].
  rewrite (H x (or_introl eq_refl)). apply IH. intros y Hy. apply H. right. exact Hy.
Qed.

Lemma employee_of_id l id :
  NoDup (map Employee.id l) -> In id (map Employee.id l) ->
  exists e, filter (fun e => String.eqb (Employee.id e) id) l = [e] /\
            find (fun e => String.eqb (Employee.id e) id) l = Some e.
Proof.
  induction l as [|x l IH]; simpl; intros Hnd Hin; [destruct Hin |].
  apply NoDup_cons_iff in Hnd. destruct Hnd as [Hx Hnd].
  destruct (String.eqb (Employee.id x) id) eqn:Hid.
  - exists x. split; [| reflexivity]. f_equal.
    apply String.eqb_eq in Hid. subst id.
    apply filter_none. intros y Hy.
    apply String.eqb_neq. intros Heq. apply Hx. rewrite <- Heq. apply in_map. exact Hy.
  - destruct Hin as [Heq | Hin].
    + apply String.eqb_neq in Hid. contradiction.
    + apply IH; assumption.
Qed.

Lemma joined_rows db rows :
  NoDup (map Employee.id (employees db)) ->
  (forall r, In r rows -> In (Attendance.employeeId r) (map Employee.id (employees db))) ->
  let joined :=
    flat_map
      (fun r =>
         map (fun e => (r, e))
             (filter (fun e => String.eqb (Employee.id e) (Attendance.employeeId r))
                     (employees db)))
      rows in
  map fst joined = rows /\
  (forall r e, In (r, e) joined ->
     Storage.getEmployee db (Attendance.employeeId r) = Some e).
Proof.
  intros Hnd. induction rows as [|r rows IH]; intros Href; simpl.
  - split; [reflexivity | intros r e []].
  - destruct (employee_of_id _ _ Hnd (Href r (or_introl eq_refl))) as (e & Hfilter & Hfind).
    destruct (IH (fun r' H => Href r' (or_intror H))) as [Hrows Hemp].
    rewrite Hfilter. simpl. split; [f_equal; exact Hrows |].
    intros r' e' [Heq | Hin].
    + injection Heq as <- <-. exact Hfind.
    + apply Hemp. exact Hin.
Qed.

(** [GET /api/attendance] answers the rows of the date of the query, of
    today when the query has no date or an empty one: when the employees
    have distinct identifiers and every row is the row of an employee,
    these are all the rows of that date, once each and in the order of
    the table, each with the employee that [getEmployee] finds for it. *)
Theorem getAttendance_rows db date today :
  NoDup (map Employee.id (employees db)) ->
  Spec.referenced db ->
  let day := match date with
             | Some (String c s) => String c s
             | _ => today
             end in
  map fst (Routes.getAttendance db date today) = Spec.rowsOf db day /\
  (forall r e, In (r, e) (Routes.getAttendance db date today) ->
     Attendance.date r = day /\
     Storage.getEmployee db (Attendance.employeeId r) = Some e).
Proof.
  intros Hnd Href day.
  assert (Heq : Routes.getAttendance db date today = Storage.getAttendanceByDate db day)
    by (destruct date as [[|c s]|]; reflexivity).
  rewrite Heq. unfold Storage.getAttendanceByDate. fold (Spec.rowsOf db day).
  destruct (joined_rows db (Spec.rowsOf db day) Hnd) as [Hrows Hemp].
  - intros r Hr. apply Href. apply filter_In in Hr. apply Hr.
  - split; [exact Hrows |]. intros r e Hin. split; [| apply Hemp; exact Hin].
    apply (in_map fst) in Hin. rewrite Hrows in Hin. simpl in Hin.
    apply filter_In in Hin. apply String.eqb_eq. apply Hin.
Qed.

Lemma getAttendance_rows_witness :
  map fst (Routes.getAttendance Examples.dbThreeRows (Some EmptyString) "2024-03-04") =
    Spec.rowsOf Examples.dbThreeRows "2024-03-04" /\
  (forall r e, In (r, e) (Routes.getAttendance Examples.dbThreeRows (Some EmptyString) "2024-03-04") ->
     Attendance.date r = "2024-03-04" /\
     Storage.getEmployee Examples.dbThreeRows (Attendance.employeeId r) = Some e).
Proof.
  apply (getAttendance_rows Examples.dbThreeRows (Some EmptyString) "2024-03-04").
  - repeat constructor; simpl; intuition discriminate.
  - intros r Hr. simpl in Hr. simpl.
    destruct Hr as [<- | [<- | [<- | []]]]; simpl; auto 6.
Defined.

(** ** The tables of [initializeDatabase] *)

(** The tables that [initializeDatabase] fills, when the five identifiers
    drawn for the employees are distinct: no two employees share an
    identifier or an email, every row is the row of an employee, no
    employee has two rows of the day, and the dashboard of the day counts
    four present, one of them late, one absence and 75 percent on time. *)
Theorem initializeDatabase_tables id0 id1 id2 id3 id4 r0 r1 r2 r3 r4 today :
  NoDup [id0; id1; id2; id3; id4] ->
  let db := Seed.initialDb id0 id1 id2 id3 id4 [r0; r1; r2; r3; r4] today in
  Spec.directory db /\ Spec.referenced db /\ Spec.onePerDay (attendanceRecords db) /\
  Storage.getDashboardStats db today = mkDashboardStats 4 1 1 75.
Proof.
  intros Hids db. split; [| split; [| split]].
  - split; [exact Hids |]. simpl.
    repeat (constructor; [simpl; intuition discriminate |]). constructor.
  - intros r Hr. simpl in Hr. simpl.
    destruct Hr as [<- | [<- | [<- | [<- | [<- | []]]]]]; simpl; auto 8.
  - unfold Spec.onePerDay. simpl.
    apply (NoDup_map_inv fst). exact Hids.
  - unfold Storage.getDashboardStats. simpl.
    rewrite String.eqb_refl. reflexivity.
Qed.

Lemma initializeDatabase_tables_witness :
  Spec.directory Examples.dbSeed /\ Spec.referenced Examples.dbSeed /\
  Spec.onePerDay (attendanceRecords Examples.dbSeed) /\
  Storage.getDashboardStats Examples.dbSeed "2024-03-04" = mkDashboardStats 4 1 1 75.
Proof.
  apply (initializeDatabase_tables "e0" "e1" "e2" "e3" "e4" "r0" "r1" "r2" "r3" "r4" "2024-03-04").
  repeat (constructor; [simpl; intuition discriminate |]). constructor.
Defined.
